(** * crewai-autocrew: a shallow embedding of [crewai-autocrew.py]

    The script asks a local language model for a roster of agents in CSV
    form, parses the reply ([parse_csv_data]), renders a CrewAI script from
    the parsed records ([define_agent], [define_task],
    [write_crewai_script]) and optionally ranks several rosters
    ([rank_crews]); [main] wires these together.

    Conventions of the embedding.
    - A Python [str] is a [string]; its characters are the 8-bit characters
      of [ascii], read as the code points U+0000..U+00FF.
    - A Python [dict] with string keys is a [gmap string string].
    - A raised exception is the [Raise] branch of [result]; code that also
      prints, reads or writes threads a [State] through the monad [M].
    - What the environment answers (the model, the clock, the directory
      listing, the remote version file) is a field of [World]. *)

From Stdlib Require Import Ascii String NArith ZArith DecimalString.
From stdpp Require Import base option list gmap strings.

Open Scope string_scope.

(** ** Characters the templates need *)

Definition LF : ascii := "010"%char.
Definition CR : ascii := "013"%char.
Definition DQUOTE : ascii := "034"%char.
Definition SQUOTE : ascii := "039"%char.
Definition BACKSLASH : ascii := "092"%char.

Definition nl : string := String LF "".
Definition dq : string := String DQUOTE "".
Definition sq : string := String SQUOTE "".
Definition bs : string := String BACKSLASH "".

(** ** The string methods the script calls *)

Module Str.

Fixpoint map (f : ascii -> ascii) (s : string) : string :=
  match s with
  | "" => ""
  | String c r => String (f c) (map f r)
  end.

(** [c.lower()] on U+0000..U+00FF: A-Z, and the Latin-1 capitals
    U+00C0..U+00DE without the multiplication sign U+00D7. *)
Definition is_upper (c : ascii) : bool :=
  let n := N_of_ascii c in
  ((65 <=? n) && (n <=? 90) || (192 <=? n) && (n <=? 214)
   || (216 <=? n) && (n <=? 222))%N.

Definition char_lower (c : ascii) : ascii :=
  if is_upper c then ascii_of_N (N_of_ascii c + 32) else c.

(** [s.lower()] *)
Definition lower (s : string) : string := map char_lower s.

(** [str.isspace] on U+0000..U+00FF, the set [s.strip()] removes. *)
Definition is_space (c : ascii) : bool :=
  let n := N_of_ascii c in
  ((9 <=? n) && (n <=? 13) || (28 <=? n) && (n <=? 32)
   || (n =? 133) || (n =? 160))%N.

Fixpoint lstrip (p : ascii -> bool) (s : string) : string :=
  match s with
  | "" => ""
  | String c r => if p c then lstrip p r else s
  end.

Fixpoint rstrip (p : ascii -> bool) (s : string) : string :=
  match s with
  | "" => ""
  | String c r =>
      match rstrip p r with
      | "" => if p c then "" else String c ""
      | r' => String c r'
      end
  end.

(** [s.strip(chars)] for the character set [p] *)
Definition strip_chars (p : ascii -> bool) (s : string) : string :=
  rstrip p (lstrip p s).

(** [s.strip()] *)
Definition strip (s : string) : string := strip_chars is_space s.

(** [s.replace(old, new)] for a one-character [old], the only form the
    script uses. *)
Fixpoint replace (old : ascii) (new : string) (s : string) : string :=
  match s with
  | "" => ""
  | String c r =>
      if Ascii.eqb c old then new ++ replace old new r
      else String c (replace old new r)
  end.

(** [s.split(sep)] for a one-character [sep]; [cur] is the piece being
    read. *)
Fixpoint split_aux (sep : ascii) (cur : string) (s : string) : list string :=
  match s with
  | "" => [cur]
  | String c r =>
      if Ascii.eqb c sep then cur :: split_aux sep "" r
      else split_aux sep (cur ++ String c "") r
  end.

Definition split (sep : ascii) (s : string) : list string :=
  split_aux sep "" s.

(** [sep.join(l)] *)
Definition join (sep : string) (l : list string) : string :=
  String.concat sep l.

(** [s.startswith(p)] *)
Definition startswith (p s : string) : bool := String.prefix p s.

Fixpoint rev_acc (acc s : string) : string :=
  match s with
  | "" => acc
  | String c r => rev_acc (String c acc) r
  end.

Definition rev (s : string) : string := rev_acc "" s.

(** [s.endswith(p)] *)
Definition endswith (p s : string) : bool := String.prefix (rev p) (rev s).

(** [needle in s] *)
Fixpoint contains (needle s : string) : bool :=
  String.prefix needle s ||
  match s with
  | "" => false
  | String _ r => contains needle r
  end.

(** [s[:n]] *)
Definition take (n : nat) (s : string) : string := String.substring 0 n s.

(** Truth value of a string: [if s:] *)
Definition truthy (s : string) : bool :=
  match s with "" => false | _ => true end.

End Str.

(** ** Exceptions *)

Inductive exn : Type :=
| ValueError (msg : string)
| IndexError                (* list index out of range *)
| KeyError (key : string)
| StopIteration
| csv_Error (msg : string)
| OSError (msg : string)
| EOFError
| ExternalError (msg : string).   (* raised inside a library call *)

Inductive result (A : Type) : Type :=
| Ok (a : A)
| Raise (e : exn).
Arguments Ok {A} a.
Arguments Raise {A} e.

Definition rbind {A B} (r : result A) (k : A -> result B) : result B :=
  match r with
  | Ok a => k a
  | Raise e => Raise e
  end.

Notation "'let?' x := c 'in' k" := (rbind c (fun x => k))
  (at level 10, x name, c at level 100, k at level 200).

(** [d[k]] on a dict *)
Definition getitem (d : gmap string string) (k : string) : result string :=
  match d !! k with
  | Some v => Ok v
  | None => Raise (KeyError k)
  end.

(** [l[i]] on a list, for [i >= 0] *)
Definition list_index {A} (l : list A) (i : nat) : result A :=
  match l !! i with
  | Some x => Ok x
  | None => Raise IndexError
  end.

(** ** The library's CSV reader

    [csv.reader(io.StringIO(response), delimiter=delimiter)] with the
    default (excel) dialect: the double quote is the quote character and is
    doubled inside a quoted field, there is no escape character, initial
    spaces are kept, the reader is not strict.  The automaton is the one of
    CPython 3.11 and later ([Modules/_csv.c]); the three states that need
    an escape character cannot be entered and are left out. *)

Module csv.

Inductive ParserState : Type :=
| START_RECORD | START_FIELD | IN_FIELD | IN_QUOTED_FIELD
| QUOTE_IN_QUOTED_FIELD | EAT_CRNL.

Record ReaderObj : Type := mkReader {
  state : ParserState;
  fields : list string;
  field : string
}.

Definition field_limit : N := 131072.

Definition parse_reset : ReaderObj := mkReader START_RECORD [] "".

Definition parse_save_field (r : ReaderObj) : ReaderObj :=
  mkReader (state r) (fields r ++ [field r]) "".

Definition parse_add_char (r : ReaderObj) (c : ascii) : result ReaderObj :=
  if (field_limit <=? N.of_nat (String.length (field r)))%N
  then Raise (csv_Error "field larger than field limit (131072)")
  else Ok (mkReader (state r) (fields r) (field r ++ String c "")).

Definition set_state (st : ParserState) (r : ReaderObj) : ReaderObj :=
  mkReader st (fields r) (field r).

Definition is_newline (c : ascii) : bool := Ascii.eqb c LF || Ascii.eqb c CR.

(** [START_FIELD], also the fall-through target of [START_RECORD] *)
Definition start_field (delimiter : ascii) (r : ReaderObj) (c : option ascii)
  : result ReaderObj :=
  match c with
  | None => Ok (set_state START_RECORD (parse_save_field r))
  | Some ch =>
      if is_newline ch then Ok (set_state EAT_CRNL (parse_save_field r))
      else if Ascii.eqb ch DQUOTE then Ok (set_state IN_QUOTED_FIELD r)
      else if Ascii.eqb ch delimiter then Ok (parse_save_field r)
      else let? r' := parse_add_char r ch in Ok (set_state IN_FIELD r')
  end.

(** One step of the automaton; [None] is the end-of-line marker the
    reader feeds after the last character of each line. *)
Definition parse_process_char (delimiter : ascii) (r : ReaderObj)
    (c : option ascii) : result ReaderObj :=
  match state r with
  | START_RECORD =>
      match c with
      | None => Ok r
      | Some ch =>
          if is_newline ch then Ok (set_state EAT_CRNL r)
          else start_field delimiter (set_state START_FIELD r) c
      end
  | START_FIELD => start_field delimiter r c
  | IN_FIELD =>
      match c with
      | None => Ok (set_state START_RECORD (parse_save_field r))
      | Some ch =>
          if is_newline ch then Ok (set_state EAT_CRNL (parse_save_field r))
          else if Ascii.eqb ch delimiter
               then Ok (set_state START_FIELD (parse_save_field r))
          else parse_add_char r ch
      end
  | IN_QUOTED_FIELD =>
      match c with
      | None => Ok r
      | Some ch =>
          if Ascii.eqb ch DQUOTE then Ok (set_state QUOTE_IN_QUOTED_FIELD r)
          else parse_add_char r ch
      end
  | QUOTE_IN_QUOTED_FIELD =>
      match c with
      | None => Ok (set_state START_RECORD (parse_save_field r))
      | Some ch =>
          if Ascii.eqb ch DQUOTE
          then let? r' := parse_add_char r ch in Ok (set_state IN_QUOTED_FIELD r')
          else if Ascii.eqb ch delimiter
               then Ok (set_state START_FIELD (parse_save_field r))
          else if is_newline ch
               then Ok (set_state EAT_CRNL (parse_save_field r))
          else let? r' := parse_add_char r ch in Ok (set_state IN_FIELD r')
      end
  | EAT_CRNL =>
      match c with
      | None => Ok (set_state START_RECORD r)
      | Some ch =>
          if is_newline ch then Ok r
          else Raise (csv_Error
                       ("new-line character seen in unquoted field - " ++
                        "do you need to open the file with newline=" ++
                        sq ++ sq ++ "?"))
      end
  end.

Fixpoint feed_line (delimiter : ascii) (r : ReaderObj) (line : string)
  : result ReaderObj :=
  match line with
  | "" => Ok r
  | String c rest =>
      let? r' := parse_process_char delimiter r (Some c) in
      feed_line delimiter r' rest
  end.

(** Iterating an [io.StringIO]: the text cut after every line feed, the
    line feed kept. *)
Fixpoint readlines_aux (cur : string) (s : string) : list string :=
  match s with
  | "" => match cur with "" => [] | _ => [cur] end
  | String c r =>
      if Ascii.eqb c LF then (cur ++ String c "") :: readlines_aux "" r
      else readlines_aux (cur ++ String c "") r
  end.

Definition readlines (s : string) : list string := readlines_aux "" s.

Definition is_START_RECORD (st : ParserState) : bool :=
  match st with START_RECORD => true | _ => false end.

Definition is_IN_QUOTED_FIELD (st : ParserState) : bool :=
  match st with IN_QUOTED_FIELD => true | _ => false end.

(** [list(reader)]: records are read until the input runs out; a record
    ends at the first end of line that leaves the automaton in
    [START_RECORD]. *)
Fixpoint read_all (delimiter : ascii) (r : ReaderObj) (lines : list string)
  : result (list (list string)) :=
  match lines with
  | [] =>
      if Str.truthy (field r) || is_IN_QUOTED_FIELD (state r)
      then Ok [fields (parse_save_field r)]
      else Ok []
  | line :: rest =>
      let? r1 := feed_line delimiter r line in
      let? r2 := parse_process_char delimiter r1 None in
      if is_START_RECORD (state r2)
      then let? rows := read_all delimiter parse_reset rest in
           Ok (fields r2 :: rows)
      else read_all delimiter r2 rest
  end.

Definition reader (response : string) (delimiter : ascii)
  : result (list (list string)) :=
  read_all delimiter parse_reset (readlines response).

End csv.

(** ** parse_csv_data *)

Definition header : list string :=
  ["filename"; "role"; "goal"; "backstory"; "assigned_task";
   "allow_delegation"].

(** [{h.lower(): h for h in header}] *)
Definition header_mapping : gmap string string :=
  foldl (fun m h => <[Str.lower h := h]> m) ∅ header.

(** [[header_mapping.get(h.lower()) for h in header_line]] *)
Definition header_indices (header_line : list string) : list (option string) :=
  (fun h => header_mapping !! Str.lower h) <$> header_line.

Definition is_dquote (c : ascii) : bool := Ascii.eqb c DQUOTE.

(** [for i, value in enumerate(line)], from index [i] on *)
Fixpoint assign_fields (indices : list (option string)) (i : nat)
    (line : list string) (agent_data : gmap string string)
  : result (gmap string string) :=
  match line with
  | [] => Ok agent_data
  | value :: rest =>
      let? header_name := list_index indices i in
      assign_fields indices (S i) rest
        match header_name with
        | Some h =>
            if Str.truthy h
            then <[h := Str.strip_chars is_dquote value]> agent_data
            else agent_data
        | None => agent_data
        end
  end.

Definition role_missing (agent_data : gmap string string) : bool :=
  match agent_data !! "role" with
  | None => true
  | Some r => negb (Str.truthy r)
  end.

(** The body of [for line in lines[1:]] *)
Definition parse_line (indices : list (option string)) (filename : string)
    (line : list string) : result (gmap string string) :=
  let? agent_data := assign_fields indices 0 line ∅ in
  if role_missing agent_data
  then Raise (ValueError "Role component missing in CSV data")
  else Ok (<["filename" := filename]> agent_data).

Fixpoint parse_lines (indices : list (option string)) (filename : string)
    (lines : list (list string)) : result (list (gmap string string)) :=
  match lines with
  | [] => Ok []
  | line :: rest =>
      let? agent_data := parse_line indices filename line in
      let? agents_data := parse_lines indices filename rest in
      Ok (agent_data :: agents_data)
  end.

Definition parse_csv_data (response : string) (delimiter : ascii)
    (filename : string) : result (list (gmap string string)) :=
  let? lines := csv.reader response delimiter in
  let? header_line := list_index lines 0 in
  parse_lines (header_indices header_line) filename (tail lines).

(** ** Rendering the CrewAI script *)

(** Line 69: spaces, then hyphens, then periods of the role become
    underscores. *)
Definition role_var (role : string) : string :=
  Str.replace "." "_" (Str.replace "-" "_" (Str.replace " " "_" role)).

(** Lines 70 and 71: a backslash goes in front of every double quote, then
    in front of every single quote. *)
Definition escape_both (s : string) : string :=
  Str.replace SQUOTE (bs ++ sq) (Str.replace DQUOTE (bs ++ dq) s).

Definition define_agent (agent : gmap string string) (search_tool : string)
  : result string :=
  let? role := getitem agent "role" in
  let role_var := role_var role in
  let role_value := escape_both role in
  let? backstory_raw := getitem agent "backstory" in
  let backstory := escape_both backstory_raw in
  let? allow_delegation := getitem agent "allow_delegation" in
  let delegation :=
    if String.eqb allow_delegation "True" then "True" else "False" in
  let? goal := getitem agent "goal" in
  Ok (role_var ++ " = Agent(" ++ nl ++
      "    role=" ++ dq ++ role_value ++ dq ++ "," ++ nl ++
      "    goal=" ++ dq ++ goal ++ dq ++ "," ++ nl ++
      "    backstory=" ++ dq ++ backstory ++ dq ++ "," ++ nl ++
      "    verbose=True," ++ nl ++
      "    allow_delegation=" ++ delegation ++ "," ++ nl ++
      "    llm=ollama_openhermes," ++ nl ++
      "    tools=[" ++ search_tool ++ "]" ++ nl ++
      ")" ++ nl ++ nl).

Definition get_task_var_name (role : string) : string :=
  "task_" ++
  Str.replace "." "_" (Str.replace "-" "_" (Str.replace " " "_" role)).

Definition define_task (agent : gmap string string) : result string :=
  let? role := getitem agent "role" in
  let task_var := get_task_var_name role in
  let? assigned_task := getitem agent "assigned_task" in
  let task_description :=
    Str.replace DQUOTE (bs ++ dq) (Str.strip assigned_task) in
  let? role' := getitem agent "role" in
  Ok (task_var ++ " = Task(" ++ nl ++
      " description=" ++ dq ++ task_description ++ dq ++ "," ++ nl ++
      " agent=" ++
        Str.replace "." "_" (Str.replace "-" "_" (Str.replace " " "_" role')) ++
        "," ++ nl ++
      " verbose=True," ++ nl ++
      ")" ++ nl ++ nl).

(** [[f(agent) for agent in agents_data]] for an [f] that may raise *)
Fixpoint list_comp {A B} (f : A -> result B) (l : list A) : result (list B) :=
  match l with
  | [] => Ok []
  | a :: r =>
      let? b := f a in
      let? bs := list_comp f r in
      Ok (b :: bs)
  end.

(** ** The environment and the effects *)

(** The parsed command line ([argparse]'s namespace). *)
Record Args : Type := mkArgs {
  overall_goal : option string;
  auto_run : bool;
  multiple : option Z;
  ranking : bool
}.

(** What the outside world answers.  [ollama_invoke n p] is the model's
    reply to prompt [p] on its [n]-th call, [strftime_now n] the formatted
    clock at its [n]-th reading, [set_order l] the order in which
    [list(set(l))] enumerates, [str_format] what [str.format] makes of a
    text with braces, [repr_list] Python's [str] of a list of strings,
    [strerror p] the message of the error a failed [open] of [p] raises. *)
Record World : Type := mkWorld {
  http_get : string -> result string;
  version_gt : string -> string -> result bool;
  ollama_invoke : nat -> string -> result string;
  strftime_now : nat -> string;
  getcwd : string;
  listdir : list string;
  disk : gmap string string;
  writable : string -> bool;
  strerror : string -> string;
  console : list string;
  set_order : list string -> list string;
  str_format : string -> result string;
  repr_list : list string -> string
}.

Inductive event : Type :=
| Print (text : string)
| PrintExc (e : exn)
| HttpGet (url : string)
| Invoke (prompt : string)
| FileCreate (path : string)
| FileWrite (path : string) (data : string)
| FileRead (path : string)
| Input (prompt : string)
| System (command : string).

Record State : Type := mkState {
  trace : list event;
  files : gmap string string;
  ticks : nat;
  invocations : nat;
  stdin : list string
}.

Definition init_state (w : World) : State :=
  mkState [] (disk w) 0 0 (console w).

Definition M (A : Type) : Type := State -> State * result A.

Definition ret {A} (a : A) : M A := fun s => (s, Ok a).

Definition raise {A} (e : exn) : M A := fun s => (s, Raise e).

Definition bind {A B} (c : M A) (k : A -> M B) : M B :=
  fun s =>
    match c s with
    | (s', Ok a) => k a s'
    | (s', Raise e) => (s', Raise e)
    end.

(** [try: c  except Exception as e: h e] *)
Definition try_except {A} (c : M A) (h : exn -> M A) : M A :=
  fun s =>
    match c s with
    | (s', Ok a) => (s', Ok a)
    | (s', Raise e) => h e s'
    end.

Definition lift {A} (r : result A) : M A := fun s => (s, r).

Notation "'let!' x := c 'in' k" := (bind c (fun x => k))
  (at level 10, x name, c at level 100, k at level 200).
Notation "c ;; k" := (bind c (fun _ => k))
  (at level 100, k at level 200, right associativity).

(** The state with the events [evs] appended to its trace *)
Definition log (evs : list event) (s : State) : State :=
  mkState (trace s ++ evs) (files s) (ticks s) (invocations s) (stdin s).

Definition emit (e : event) : M unit := fun s => (log [e] s, Ok tt).

Definition print (text : string) : M unit := emit (Print text).

(** [ollama.invoke(prompt)] *)
Definition invoke (w : World) (prompt : string) : M string :=
  fun s =>
    (mkState (trace s ++ [Invoke prompt]) (files s) (ticks s)
       (S (invocations s)) (stdin s),
     ollama_invoke w (invocations s) prompt).

(** [datetime.now().strftime("%Y%m%d-%H%M%S")] *)
Definition timestamp_now (w : World) : M string :=
  fun s =>
    (mkState (trace s) (files s) (S (ticks s)) (invocations s) (stdin s),
     Ok (strftime_now w (ticks s))).

(** [input(prompt)] *)
Definition input (prompt : string) : M string :=
  fun s =>
    match stdin s with
    | [] => (mkState (trace s ++ [Input prompt]) (files s) (ticks s)
               (invocations s) [], Raise EOFError)
    | l :: rest => (mkState (trace s ++ [Input prompt]) (files s) (ticks s)
                      (invocations s) rest, Ok l)
    end.

(** [open(path, 'w')]: the file is created or truncated. *)
Definition open_w (w : World) (path : string) : M unit :=
  fun s =>
    if writable w path
    then (mkState (trace s ++ [FileCreate path]) (<[path := ""]> (files s))
            (ticks s) (invocations s) (stdin s), Ok tt)
    else (s, Raise (OSError (strerror w path))).

(** [file.write(data)] on a file opened by [open_w] *)
Definition file_write (path data : string) : M unit :=
  fun s =>
    (mkState (trace s ++ [FileWrite path data])
       (<[path := default "" (files s !! path) ++ data]> (files s))
       (ticks s) (invocations s) (stdin s), Ok tt).

(** Reading in text mode turns CR LF and a lone CR into LF. *)
Fixpoint universal_newlines (s : string) : string :=
  match s with
  | "" => ""
  | String c r =>
      if Ascii.eqb c CR
      then match r with
           | String c' r' =>
               if Ascii.eqb c' LF then String LF (universal_newlines r')
               else String LF (universal_newlines r)
           | "" => String LF ""
           end
      else String c (universal_newlines r)
  end.

(** [with open(path, 'r') as file: file.read()] *)
Definition read_file (w : World) (path : string) : M string :=
  fun s =>
    match files s !! path with
    | Some data =>
        (mkState (trace s ++ [FileRead path]) (files s) (ticks s)
           (invocations s) (stdin s), Ok (universal_newlines data))
    | None => (s, Raise (OSError (strerror w path)))
    end.

(** [os.path.join(a, b)] on POSIX *)
Definition path_join (a b : string) : string :=
  if Str.startswith "/" b then b
  else if negb (Str.truthy a) || Str.endswith "/" a then a ++ b
  else a ++ "/" ++ b.

(** [os.path.basename(p)] on POSIX: what follows the last slash *)
Definition basename (p : string) : string :=
  List.last (Str.split "/" p) "".

(** [str(n)] for a natural number *)
Definition str_of_nat (n : nat) : string :=
  NilZero.string_of_uint (Nat.to_uint n).

(** [str(e)] for an exception *)
Definition exn_str (e : exn) : string :=
  match e with
  | ValueError msg => msg
  | IndexError => "list index out of range"
  | KeyError k => sq ++ k ++ sq
  | StopIteration => ""
  | csv_Error msg => msg
  | OSError msg => msg
  | EOFError => "EOF when reading a line"
  | ExternalError msg => msg
  end.

(** ** The script's own functions with effects *)

Definition autocrew_version : string := "1.1.1".

(** [get_agent_data]: the f-string is built, then passed through
    [str.format], which leaves a text without braces as it is. *)
Definition format_instruction (w : World) (instruction : string)
  : result string :=
  if Str.contains "{" instruction || Str.contains "}" instruction
  then str_format w instruction
  else Ok instruction.

Definition get_agent_data (w : World) (overall_goal : string)
    (delimiter : ascii) : M string :=
  let instruction :=
    "Create a dataset in a CSV format with each field enclosed in double quotes, for a team of agents with the goal: "
      ++ dq ++ overall_goal ++ dq ++ ". " ++
    "Use the delimiter " ++ dq ++ String delimiter "" ++ dq ++
      " to separate the fields. " ++
    "Include columns " ++ dq ++ "role" ++ dq ++ ", " ++ dq ++ "goal" ++ dq ++
      ", " ++ dq ++ "backstory" ++ dq ++ ", " ++ dq ++ "assigned_task" ++ dq ++
      ", " ++ dq ++ "allow_delegation" ++ dq ++ ". " ++
    "Each agent" ++ sq ++ "s details should be in quotes to avoid confusion with the delimiter. " ++
    "Provide a single-word role, specific goal, brief backstory, assigned task, and delegation ability (True/False) for each agent." in
  let! prompt := lift (format_instruction w instruction) in
  let! response := invoke w prompt in
  ret response.

Definition save_csv_output (w : World) (response overall_goal : string)
    (index : nat) : M string :=
  let! timestamp := timestamp_now w in
  let file_name :=
    "crewai-autocrew-" ++ timestamp ++ "-" ++
    Str.replace " " "-" (Str.take 40 overall_goal) ++ "-" ++
    str_of_nat index ++ ".csv" in
  let file_path := path_join (getcwd w) file_name in
  open_w w file_path ;;
  file_write file_path response ;;
  ret file_path.

(** The text of the first [file.write] of [write_crewai_script] *)
Definition script_preamble : string :=
  "import os" ++ nl ++
  "from langchain_community.chat_models import ChatOpenAI" ++ nl ++
  "from langchain_community.llms import Ollama" ++ nl ++
  "from langchain_community.tools import DuckDuckGoSearchRun" ++ nl ++
  "from crewai import Agent, Task, Crew, Process" ++ nl ++ nl ++
  "os.environ[" ++ dq ++ "OPENAI_API_KEY" ++ dq ++ "] = " ++ dq ++
    "your_OPENAI_api_key_here" ++ dq ++ nl ++ nl ++
  "ollama_openhermes = Ollama(model=" ++ dq ++ "openhermes" ++ dq ++ ")" ++ nl ++
  "search_tool = DuckDuckGoSearchRun()" ++ nl ++ nl.

(** The text of its last [file.write] *)
Definition crew_text (crew_agents crew_tasks : string) : string :=
  "crew = Crew(" ++ nl ++
  "    agents=[" ++ crew_agents ++ "]," ++ nl ++
  "    tasks=[" ++ crew_tasks ++ "]," ++ nl ++
  "    verbose=True," ++ nl ++
  "    process=Process.sequential," ++ nl ++
  ")" ++ nl ++ nl ++
  "# Kickoff the crew tasks" ++ nl ++
  "result = crew.kickoff()" ++ nl ++ nl ++
  "# Handle the " ++ dq ++ "result" ++ dq ++ " as needed" ++ nl.

(** [for agent in agents_data: file.write(f(agent))] followed by the write
    of a line feed *)
Fixpoint write_each (path : string) (f : gmap string string -> result string)
    (agents_data : list (gmap string string)) : M unit :=
  match agents_data with
  | [] => ret tt
  | agent :: rest =>
      let! text := lift (f agent) in
      file_write path text ;;
      file_write path nl ;;
      write_each path f rest
  end.

Definition write_crewai_script (w : World)
    (agents_data : list (gmap string string)) (crew_tasks file_name : string)
  : M unit :=
  let! names :=
    lift (list_comp
            (fun agent =>
               let? role := getitem agent "role" in
               Ok (Str.replace "." "_"
                     (Str.replace "-" "_" (Str.replace " " "_" role))))
            agents_data) in
  let crew_agents := Str.join ", " names in
  open_w w file_name ;;
  file_write file_name script_preamble ;;
  write_each file_name (fun agent => define_agent agent "search_tool")
    agents_data ;;
  write_each file_name define_task agents_data ;;
  file_write file_name (crew_text crew_agents crew_tasks).

(** [next(line for line in lines if line.startswith(prefix))] *)
Fixpoint next_startswith (prefix : string) (lines : list string)
  : result string :=
  match lines with
  | [] => Raise StopIteration
  | line :: rest =>
      if Str.startswith prefix line then Ok line
      else next_startswith prefix rest
  end.

Definition version_url : string :=
  "https://raw.githubusercontent.com/yanniedog/crewai-autocrew/main/crewai-autocrew.py".

Definition check_latest_version (w : World) : M (option string) :=
  try_except
    (emit (HttpGet version_url) ;;
     let! script_content := lift (http_get w version_url) in
     let! version_line :=
       lift (next_startswith "autocrew_version = "
               (Str.split LF script_content)) in
     let! rhs := lift (list_index (Str.split "=" version_line) 1) in
     let latest_version := Str.strip_chars is_dquote (Str.strip rhs) in
     let! newer := lift (version_gt w latest_version autocrew_version) in
     if newer then ret (Some latest_version) else ret None)
    (fun e =>
       print ("Error checking the latest version: " ++ exn_str e) ;;
       ret None).

Definition shared_header : string :=
  "filename,role,goal,backstory,assigned_task,allow_delegation".

(** The loop of [rank_crews] over the paths, [concatenated_csv_data]
    being the accumulator. *)
Fixpoint concat_csv_files (w : World) (csv_file_paths : list string)
    (concatenated_csv_data : string) : M string :=
  match csv_file_paths with
  | [] => ret concatenated_csv_data
  | file_path :: rest =>
      if Str.contains "ranking" (Str.lower file_path)
      then concat_csv_files w rest concatenated_csv_data
      else
        print (nl ++ "Processing CSV: " ++ file_path) ;;
        let! csv_data := read_file w file_path in
        let filename := basename file_path in
        let csv_data_with_filename :=
          Str.join nl
            ((fun row => filename ++ "," ++ row) <$>
               Str.split LF (Str.strip csv_data)) in
        concat_csv_files w rest
          (concatenated_csv_data ++ (csv_data_with_filename ++ nl))
  end.

Definition ranking_prompt (overall_goal concatenated_csv_data : string)
  : string :=
  "From a list of crews, you need to provide identify which crew is most likely to successfully complete the task: "
    ++ overall_goal ++ ". " ++
  "Each crew contains agents and tasks. The list of all agents is here: "
    ++ concatenated_csv_data ++ ". " ++
  "In this list, the information in the filename column is the crew name. " ++
  "I want you to return a CSV with the following columns: crewname, rank, explanation, recommendation. " ++
  "In rank, assign 1 to your preferred crew. In explanation, explain why you assigned this rank to this particular crew. " ++
  "In recommendation, outline changes that would further improve the performance of this crew.".

Definition rank_crews (w : World) (csv_file_paths : list string)
    (overall_goal : string)
  : M (list (list string * string * string) * string) :=
  let csv_file_paths := set_order w csv_file_paths in
  print "Invoking Ollama..." ;;
  let! concatenated_csv_data :=
    concat_csv_files w csv_file_paths (shared_header ++ nl) in
  print (nl ++ "Concatenated CSV Data:") ;;
  print concatenated_csv_data ;;
  let prompt := ranking_prompt overall_goal concatenated_csv_data in
  let! ranked_crew := invoke w prompt in
  print (nl ++ "Ollama Ranking:") ;;
  print ranked_crew ;;
  let critique := ranked_crew in
  print (nl ++ "Ollama Critique:") ;;
  print critique ;;
  let ranked_crews := [(csv_file_paths, ranked_crew, critique)] in
  let overall_summary :=
    nl ++ nl ++ "Crews in the following CSV files:" ++ nl ++
    String.concat "" ((fun file_path => file_path ++ nl) <$> csv_file_paths) ++
    "Ranking: " ++ ranked_crew ++ nl ++
    "Critique: " ++ critique ++ nl ++
    nl ++ "Overall Summary:" ++ nl ++
    "Ollama has ranked the crews based on their likelihood of success." ++ nl ++
    "It has provided a critique for each crew, highlighting their strengths and weaknesses." ++ nl ++
    "The ranking and critique can be used to make informed decisions about the crews." ++ nl in
  ret (ranked_crews, overall_summary).

(** [csv.writer(file).writerow(fields)], excel dialect: a field holding a
    comma, a double quote or a line break is quoted, its quotes doubled. *)
Fixpoint needs_quoting (s : string) : bool :=
  match s with
  | "" => false
  | String c r =>
      Ascii.eqb c "," || Ascii.eqb c DQUOTE || Ascii.eqb c CR ||
      Ascii.eqb c LF || needs_quoting r
  end.

Definition csv_field (s : string) : string :=
  if needs_quoting s
  then dq ++ Str.replace DQUOTE (dq ++ dq) s ++ dq
  else s.

Definition writerow (fields : list string) : string :=
  match fields with
  | [""] => dq ++ dq
  | _ => Str.join "," (csv_field <$> fields)
  end ++ String CR nl.

Definition ESC : ascii := "027"%char.
Definition bold (s : string) : string :=
  String ESC "[1m" ++ s ++ String ESC "[0m".

(** Truth value of [args.multiple], an [int] or [None] *)
Definition int_truthy (n : option Z) : bool :=
  match n with
  | Some z => negb (z =? 0)%Z
  | None => false
  end.

(** Line 294 of [main]: the task variable names, joined by a comma and a
    space. *)
Definition crew_tasks_of (agents_data : list (gmap string string))
  : result string :=
  let? task_names :=
    list_comp
      (fun agent =>
         let? role := getitem agent "role" in
         Ok ("task_" ++
             Str.replace "." "_"
               (Str.replace "-" "_" (Str.replace " " "_" role))))
      agents_data in
  Ok (Str.join ", " task_names).

(** The body of [for i in range(num_scripts)], for the [n] iterations from
    index [i] on. *)
Fixpoint generate_scripts (w : World) (args : Args) (overall_goal : string)
    (delimiter : ascii) (n i : nat) (csv_file_paths : list string)
  : M (list string) :=
  match n with
  | O => ret csv_file_paths
  | S n' =>
      let! response := get_agent_data w overall_goal delimiter in
      if negb (Str.truthy response)
      then raise (ValueError "No response from Ollama")
      else
        let! file_path := save_csv_output w response overall_goal (i + 1) in
        let! agents_data :=
          lift (parse_csv_data response delimiter file_path) in
        match agents_data with
        | [] => raise (ValueError "No agent data parsed")
        | _ =>
            let! timestamp := timestamp_now w in
            let overall_goal_filename :=
              Str.replace " " "-" (Str.take 50 overall_goal) in
            let file_name :=
              "crewai-autocrew-" ++ timestamp ++ "-" ++
              overall_goal_filename ++ "-" ++ str_of_nat (i + 1) ++ ".py" in
            let crewai_script_path := path_join (getcwd w) file_name in
            let! crew_tasks := lift (crew_tasks_of agents_data) in
            write_crewai_script w agents_data crew_tasks crewai_script_path ;;
            print (nl ++ "Script " ++ str_of_nat (i + 1) ++ " written to " ++
                   crewai_script_path) ;;
            let csv_file_paths := (csv_file_paths ++ [file_path])%list in
            (if auto_run args
             then print (nl ++ "Running script " ++ str_of_nat (i + 1) ++
                         "...") ;;
                  emit (System ("python3 " ++ crewai_script_path))
             else ret tt) ;;
            generate_scripts w args overall_goal delimiter n' (S i)
              csv_file_paths
        end
  end.

Definition report_error (e : exn) : M unit :=
  print ("Error: " ++ exn_str e) ;;
  emit (PrintExc e).

Definition is_artifact_for (overall_goal file : string) : bool :=
  Str.startswith "crewai-autocrew-" file && Str.endswith ".csv" file &&
  Str.contains overall_goal file.

(** [if latest_version and latest_version != autocrew_version: print(...)] *)
Definition announce (latest_version : option string) : M unit :=
  match latest_version with
  | Some v =>
      if Str.truthy v && negb (String.eqb v autocrew_version)
      then print (nl ++ bold ("New version available: " ++ v))
      else ret tt
  | None => ret tt
  end.

(** [main] from the check of the flags on (lines 241 to 330), [args] being
    what [parser.parse_args()] returned. *)
Definition main_with_args (w : World) (args : Args) : M unit :=
  if int_truthy (multiple args) && auto_run args
  then raise (ValueError
                "The -m and -a command line parameters must not be used simultaneously")
  else if ranking args
  then
    let! overall_goal :=
      match overall_goal args with
      | Some g =>
          if Str.truthy g then ret g
          else input "Please specify the overall goal: "
      | None => input "Please specify the overall goal: "
      end in
    let csv_file_paths :=
      List.filter (is_artifact_for overall_goal) (listdir w) in
    match csv_file_paths with
    | [] =>
        print ("No CSV files found for the provided overall goal: " ++
               overall_goal)
    | _ =>
        try_except
          (let! ranked := rank_crews w csv_file_paths overall_goal in ret tt)
          report_error
    end
  else
    let! overall_goal :=
      match overall_goal args with
      | None => input (bold "Please specify the overall goal:" ++ " ")
      | Some g => ret g
      end in
    let num_scripts :=
      if int_truthy (multiple args) then default 1%Z (multiple args)
      else 1%Z in
    try_except
      (let delimiter := ","%char in
       let! csv_file_paths :=
         generate_scripts w args overall_goal delimiter
           (Z.to_nat num_scripts) 0 [] in
       if (1 <? num_scripts)%Z
       then
         let! ranked := rank_crews w csv_file_paths overall_goal in
         let ranked_crews := fst ranked in
         let overall_summary := snd ranked in
         let! timestamp := timestamp_now w in
         let overall_goal_filename :=
           Str.replace " " "-" (Str.take 50 overall_goal) in
         let ranked_crews_file_name :=
           "crewai-autocrew-" ++ timestamp ++ "-" ++ overall_goal_filename ++
           "-ranking.csv" in
         let ranked_crews_file_path :=
           path_join (getcwd w) ranked_crews_file_name in
         open_w w ranked_crews_file_path ;;
         file_write ranked_crews_file_path
           (writerow ["CSV File"; "Ranking"; "Critique"]) ;;
         (fix rows (l : list (list string * string * string)) : M unit :=
            match l with
            | [] => ret tt
            | (paths, ranked_crew, critique) :: rest =>
                file_write ranked_crews_file_path
                  (writerow [repr_list w paths; ranked_crew; critique]) ;;
                rows rest
            end) ranked_crews ;;
         print (nl ++ "Ranked crews saved as " ++ ranked_crews_file_path) ;;
         print (nl ++ "Overall Summary:") ;;
         print overall_summary ;;
         let! reply := invoke w overall_summary in
         ret tt
       else ret tt)
      report_error.

Definition main (w : World) (args : Args) : M unit :=
  print "" ;;
  print ("Autocrew (v" ++ autocrew_version ++ ") for CrewAI ") ;;
  let! latest_version := check_latest_version w in
  announce latest_version ;;
  print (nl ++ "To see the available command line parameters, type: python3 crewai-autocrew.py -h") ;;
  print "" ;;
  main_with_args w args.

(** * Definitions for the statements *)

(** ** Identifier derivation *)

(** The rule in the specification's words: every space, hyphen and period
    becomes an underscore, every other character stays. *)
Definition derive_char (c : ascii) : ascii :=
  if Ascii.eqb c " " || Ascii.eqb c "-" || Ascii.eqb c "." then "_"%char
  else c.

Definition derive (role : string) : string := Str.map derive_char role.

(** ** Quote escaping *)

Definition is_quote (c : ascii) : bool := Ascii.eqb c DQUOTE || Ascii.eqb c SQUOTE.

(** Escaping in the specification's words: a backslash goes in front of
    every double quote and every single quote. *)
Fixpoint escape_quotes (s : string) : string :=
  match s with
  | "" => ""
  | String c r =>
      if is_quote c then String BACKSLASH (String c (escape_quotes r))
      else String c (escape_quotes r)
  end.

(** A backslash in front of every double quote only. *)
Fixpoint escape_dquotes (s : string) : string :=
  match s with
  | "" => ""
  | String c r =>
      if Ascii.eqb c DQUOTE then String BACKSLASH (String c (escape_dquotes r))
      else String c (escape_dquotes r)
  end.

(** [escaped p prev s]: every character of [s] that satisfies [p] comes
    right after a backslash; [prev] tells whether the character before [s]
    is one. *)
Fixpoint escaped (p : ascii -> bool) (prev : bool) (s : string) : bool :=
  match s with
  | "" => true
  | String c r => (if p c then prev else true) && escaped p (Ascii.eqb c BACKSLASH) r
  end.

Definition quotes_escaped (s : string) : bool := escaped is_quote false s.
Definition dquotes_escaped (s : string) : bool := escaped is_dquote false s.

(** ** The texts of the script *)

(** The value of field [k] of a record, the empty string when absent *)
Definition field_of (agent : gmap string string) (k : string) : string :=
  default "" (agent !! k).

(** A record the emitter can render: the five columns are present. *)
Definition complete (agent : gmap string string) : Prop :=
  is_Some (agent !! "role") /\ is_Some (agent !! "goal") /\
  is_Some (agent !! "backstory") /\ is_Some (agent !! "assigned_task") /\
  is_Some (agent !! "allow_delegation").

(** An agent construction: the variable [var], the three string literals and
    the delegation flag. *)
Definition agent_text (var role_lit goal_lit backstory_lit delegation tool : string)
  : string :=
  var ++ " = Agent(" ++ nl ++
  "    role=" ++ dq ++ role_lit ++ dq ++ "," ++ nl ++
  "    goal=" ++ dq ++ goal_lit ++ dq ++ "," ++ nl ++
  "    backstory=" ++ dq ++ backstory_lit ++ dq ++ "," ++ nl ++
  "    verbose=True," ++ nl ++
  "    allow_delegation=" ++ delegation ++ "," ++ nl ++
  "    llm=ollama_openhermes," ++ nl ++
  "    tools=[" ++ tool ++ "]" ++ nl ++
  ")" ++ nl ++ nl.

(** A task construction: the variable [var], the description literal and
    the variable of the agent it is bound to. *)
Definition task_text (var description_lit agent_var : string) : string :=
  var ++ " = Task(" ++ nl ++
  " description=" ++ dq ++ description_lit ++ dq ++ "," ++ nl ++
  " agent=" ++ agent_var ++ "," ++ nl ++
  " verbose=True," ++ nl ++
  ")" ++ nl ++ nl.

Definition delegation_of (agent : gmap string string) : string :=
  if String.eqb (field_of agent "allow_delegation") "True" then "True"
  else "False".

Definition quoting_agent : gmap string string :=
  {[ "role" := "Dev"; "goal" := "ship"; "backstory" := "old hand";
     "assigned_task" := "it" ++ sq ++ "s"; "allow_delegation" := "True" ]}.

(** The concatenation of a list of texts *)
Definition flat (l : list string) : string := foldr String.append "" l.

Definition agent_var (agent : gmap string string) : string :=
  derive (field_of agent "role").

Definition task_var (agent : gmap string string) : string :=
  "task_" ++ derive (field_of agent "role").

Definition agent_block (agent : gmap string string) : string :=
  agent_text (agent_var agent) (escape_quotes (field_of agent "role"))
    (field_of agent "goal") (escape_quotes (field_of agent "backstory"))
    (delegation_of agent) "search_tool".

Definition task_block (agent : gmap string string) : string :=
  task_text (task_var agent)
    (escape_dquotes (Str.strip (field_of agent "assigned_task")))
    (agent_var agent).

(** The crew construction: its two member lists hold the names
    [agent_names] and [task_names], each list separated by a comma and a
    space. *)
Definition crew_block (agent_names task_names : list string) : string :=
  "crew = Crew(" ++ nl ++
  "    agents=[" ++ Str.join ", " agent_names ++ "]," ++ nl ++
  "    tasks=[" ++ Str.join ", " task_names ++ "]," ++ nl ++
  "    verbose=True," ++ nl ++
  "    process=Process.sequential," ++ nl ++
  ")" ++ nl ++ nl ++
  "# Kickoff the crew tasks" ++ nl ++
  "result = crew.kickoff()" ++ nl ++ nl ++
  "# Handle the " ++ dq ++ "result" ++ dq ++ " as needed" ++ nl.

(** A script for a roster whose crew lists the names [agent_names] and
    [task_names]: after the preamble one agent construction per record, then
    one task construction per record, each followed by a line feed, then the
    crew. *)
Definition script_with (agents_data : list (gmap string string))
    (agent_names task_names : list string) : string :=
  script_preamble ++
  flat ((fun a => agent_block a ++ nl) <$> agents_data) ++
  flat ((fun a => task_block a ++ nl) <$> agents_data) ++
  crew_block agent_names task_names.

(** The script for a roster: the two member lists of its crew name the
    agent variables and the task variables of the records, in the order of
    the records. *)
Definition script_text (agents_data : list (gmap string string)) : string :=
  script_with agents_data (agent_var <$> agents_data)
    (task_var <$> agents_data).



(** ** Rows and records *)

(** Removal of the wrapping quote characters of a field *)
Definition unquote (value : string) : string := Str.strip_chars is_dquote value.

(** The header cell [h] names the expected column [k]: [k] is one of the
    expected names and [h] is [k] up to letter case. *)
Definition names_column (h k : string) : bool :=
  bool_decide (k ∈ header) && String.eqb (Str.lower h) k.

(** The value a row gives to column [k]: its field under the last header
    cell that names [k], unquoted; nothing when no field of the row stands
    under such a cell. *)
Fixpoint row_value (header_line line : list string) (k : string)
  : option string :=
  match header_line, line with
  | h :: hs, v :: vs =>
      match row_value hs vs k with
      | Some x => Some x
      | None => if names_column h k then Some (unquote v) else None
      end
  | _, _ => None
  end.

(** The row supplies a role that is not empty. *)
Definition has_role (header_line line : list string) : bool :=
  match row_value header_line line "role" with
  | Some r => Str.truthy r
  | None => false
  end.

(** What a record must hold for a row: the file name, and for every other
    key the value the row gives to it. *)
Definition record_for (header_line : list string) (filename : string)
    (line : list string) (agent_data : gmap string string) : Prop :=
  forall k, agent_data !! k =
            if decide (k = "filename") then Some filename
            else row_value header_line line k.

Definition role_error : exn := ValueError "Role component missing in CSV data".

(** One turn of the loop over the fields, header and row read in step *)
Definition assign_one (o : option string) (v : string)
    (m : gmap string string) : gmap string string :=
  match o with
  | Some h => if Str.truthy h then <[h := unquote v]> m else m
  | None => m
  end.

(** ** Sample replies of the model *)

(** The header the prompt asks the model for *)
Definition std_header : list string :=
  ["role"; "goal"; "backstory"; "assigned_task"; "allow_delegation"].

Definition std_header_line : string :=
  "role,goal,backstory,assigned_task,allow_delegation".

(** Two complete rows, quoted as the prompt asks. *)
Definition reply_two_agents : string :=
  std_header_line ++ nl ++
  dq ++ "Researcher" ++ dq ++ "," ++ dq ++ "find papers" ++ dq ++ "," ++
    dq ++ "veteran analyst" ++ dq ++ "," ++ dq ++ "scan arxiv" ++ dq ++ "," ++
    dq ++ "True" ++ dq ++ nl ++
  dq ++ "Writer" ++ dq ++ "," ++ dq ++ "summarise" ++ dq ++ "," ++
    dq ++ "former editor" ++ dq ++ "," ++ dq ++ "draft report" ++ dq ++ "," ++
    dq ++ "False" ++ dq ++ nl.

(** A complete row followed by a row whose role is empty. *)
Definition reply_second_role_empty : string :=
  std_header_line ++ nl ++
  "Researcher,find papers,veteran analyst,scan arxiv,True" ++ nl ++
  ",summarise,former editor,draft report,False" ++ nl.

(** A single row with an empty role and one field more than the header. *)
Definition reply_empty_role_wide : string :=
  "role,goal" ++ nl ++ ",summarise,former editor" ++ nl.

(** A row with an empty role, then a row wider than the header. *)
Definition reply_empty_role_then_wide : string :=
  "role,goal" ++ nl ++ ",summarise" ++ nl ++ "Writer,summarise,extra" ++ nl.

(** A complete row, then a row wider than the header. *)
Definition reply_then_wide : string :=
  "role,goal" ++ nl ++ "Researcher,find papers" ++ nl ++
  "Writer,summarise,extra" ++ nl.

(** A row that stops after the goal. *)
Definition reply_short_row : string :=
  std_header_line ++ nl ++ "Researcher,find papers" ++ nl.

(** A complete row, then a row with an empty role. *)
Definition reply_role_empty : string :=
  "role,goal" ++ nl ++ "Researcher,find papers" ++ nl ++ ",summarise" ++ nl.

(** ** Events of a run *)

Definition is_model_call (e : event) : bool :=
  match e with Invoke _ => true | _ => false end.

Definition is_file_creation (e : event) : bool :=
  match e with FileCreate _ | FileWrite _ _ => true | _ => false end.

(** Neither a model call nor the creation or writing of a file *)
Definition harmless (e : event) : Prop :=
  is_model_call e = false /\ is_file_creation e = false.

(** The goal of a ranking run: the one on the command line when it is not
    empty, otherwise the line typed at the prompt. *)
Definition supplied_goal (w : World) (args : Args) : option string :=
  match overall_goal args with
  | Some g => if Str.truthy g then Some g else head (console w)
  | None => head (console w)
  end.

Definition flags_error : exn :=
  ValueError
    "The -m and -a command line parameters must not be used simultaneously".

(** ** A sample environment

    The version file cannot be fetched, the model answers every prompt with
    [reply_two_agents], and the working directory holds two earlier rosters
    for the goal [research] next to an unrelated file. *)
Definition demo_world : World := {|
  http_get := fun _ => Raise (ExternalError "offline");
  version_gt := fun _ _ => Ok false;
  ollama_invoke := fun _ _ => Ok reply_two_agents;
  strftime_now := fun n => "20240101-12000" ++ str_of_nat n;
  getcwd := "/home/user";
  listdir := ["crewai-autocrew-20240101-115900-research-1.csv";
              "crewai-autocrew-20240101-115930-Ranking-research-2.csv";
              "notes.txt"];
  disk := {[ "crewai-autocrew-20240101-115900-research-1.csv" := reply_two_agents;
             "crewai-autocrew-20240101-115930-Ranking-research-2.csv" := reply_short_row;
             "notes.txt" := "todo" ]};
  writable := fun _ => true;
  strerror := fun path => "cannot open " ++ path;
  console := ["research"];
  set_order := remove_dups;
  str_format := fun _ => Raise (KeyError "goal");
  repr_list := fun l => "[" ++ Str.join ", " l ++ "]"
|}.

(** ** The ranking text *)

(** The test of [rank_crews] on a path: the path, in lower case, contains
    the word. *)
Definition ranking_path (file_path : string) : bool :=
  Str.contains "ranking" (Str.lower file_path).

(** The rows of a file as the ranking step cuts them: the text read, white
    space removed at both ends, cut at the line feeds. *)
Definition file_rows (data : string) : list string :=
  Str.split LF (Str.strip (universal_newlines data)).

(** What one file adds: each row after the base name of the file and a
    comma, each ended by a line feed. *)
Definition file_block (fs : gmap string string) (file_path : string) : string :=
  Str.join nl ((fun row => basename file_path ++ "," ++ row) <$>
                 file_rows (default "" (fs !! file_path))) ++ nl.

(** The one header under which the rows of all files are placed *)
Definition ranking_header : string :=
  "filename,role,goal,backstory,assigned_task,allow_delegation".

(** The concatenated CSV text made of the files [kept]: the shared header
    on a line of its own, then the block of each file. *)
Definition ranking_text (fs : gmap string string) (kept : list string) : string :=
  ranking_header ++ nl ++ flat (file_block fs <$> kept).

(** The text [text] is part of what was sent to the model in [prompt]. *)
Definition sent_within (text prompt : string) : Prop :=
  exists before after, prompt = before ++ text ++ after.

(** An event after the model call of the ranking step: a line printed *)
Definition is_print (e : event) : Prop := exists text, e = Print text.

(** The paths the test lets through, in order *)
Definition kept_paths (order : list string) : list string :=
  List.filter (fun p => negb (ranking_path p)) order.

(** An event of the loop over the files: not a model call, and if the
    reading of a file, then of one among [kept]. *)
Definition loop_event (kept : list string) (e : event) : Prop :=
  is_model_call e = false /\ forall p, e = FileRead p -> p ∈ kept.

Definition capital_ranking_file : string :=
  "crewai-autocrew-20240101-115930-Ranking-research-2.csv".

(** * Definitions for the further properties *)

(** A data row the parser accepts under a header: it is no wider than the
    header and supplies a role that is not empty. *)
Definition good_row (header_line line : list string) : Prop :=
  length line <= length header_line /\ has_role header_line line = true.

(** A character the derivation turns into an underscore, or the underscore
    itself *)
Definition is_separator (c : ascii) : bool :=
  Ascii.eqb (derive_char c) "_".

(** What the script file holds when the emitter stops in the agent loop
    after the records [done]: the preamble and their agent constructions. *)
Definition partial_script (done : list (gmap string string)) : string :=
  script_preamble ++ flat ((fun a => agent_block a ++ nl) <$> done).

(** The name [save_csv_output] gives the roster of run [index], [timestamp]
    being the clock reading. *)
Definition csv_file_name (timestamp overall_goal : string) (index : nat)
  : string :=
  "crewai-autocrew-" ++ timestamp ++ "-" ++
  Str.replace " " "-" (Str.take 40 overall_goal) ++ "-" ++
  str_of_nat index ++ ".csv".

(** The state after a call of the model with [prompt] *)
Definition invoked (prompt : string) (s : State) : State :=
  mkState (trace s ++ [Invoke prompt]) (files s) (ticks s)
    (S (invocations s)) (stdin s).

(** The two lines an exception caught in [main] leaves on the terminal *)
Definition error_report (e : exn) : list event :=
  [Print ("Error: " ++ exn_str e); PrintExc e].

(** The flags ask for at least one generation run: no count, or a count
    that is not negative (a count of zero counts as none). *)
Definition runs_at_least_once (args : Args) : Prop :=
  match multiple args with
  | None => True
  | Some n => (0 <= n)%Z
  end.

(** The number of generation runs [main] derives from the flags *)
Definition num_scripts_of (args : Args) : Z :=
  if int_truthy (multiple args) then default 1%Z (multiple args) else 1%Z.

(** The name [main] gives the script of run [index] *)
Definition script_file_name (timestamp overall_goal : string) (index : nat)
  : string :=
  "crewai-autocrew-" ++ timestamp ++ "-" ++
  Str.replace " " "-" (Str.take 50 overall_goal) ++ "-" ++
  str_of_nat index ++ ".py".

(** The state after [path] was opened for writing and [content] written to
    it, [evs] being the events of these writes *)
Definition wrote (path content : string) (evs : list event) (s : State)
  : State :=
  mkState (trace s ++ evs) (<[path := content]> (files s)) (ticks s)
    (invocations s) (stdin s).

(** The state after a reading of the clock *)
Definition ticked (s : State) : State :=
  mkState (trace s) (files s) (S (ticks s)) (invocations s) (stdin s).

(** The creation of the file at [path] or a write to it *)
Definition is_write_to (path : string) (e : event) : Prop :=
  e = FileCreate path \/ exists data, e = FileWrite path data.

(** What the model's first answer leads to when it is no usable reply: the
    error [main] reports. *)
Definition no_reply_error (r : result string) : exn :=
  match r with
  | Ok _ => ValueError "No response from Ollama"
  | Raise e => e
  end.

(** The sample environment with a model that answers [reply] to every
    prompt *)
Definition world_replying (reply : result string) : World := {|
  http_get := http_get demo_world;
  version_gt := version_gt demo_world;
  ollama_invoke := fun _ _ => reply;
  strftime_now := strftime_now demo_world;
  getcwd := getcwd demo_world;
  listdir := listdir demo_world;
  disk := disk demo_world;
  writable := writable demo_world;
  strerror := strerror demo_world;
  console := console demo_world;
  set_order := set_order demo_world;
  str_format := str_format demo_world;
  repr_list := repr_list demo_world
|}.

(** The sample environment with nothing to read on the input *)
Definition world_without_input : World := {|
  http_get := http_get demo_world;
  version_gt := version_gt demo_world;
  ollama_invoke := ollama_invoke demo_world;
  strftime_now := strftime_now demo_world;
  getcwd := getcwd demo_world;
  listdir := listdir demo_world;
  disk := disk demo_world;
  writable := writable demo_world;
  strerror := strerror demo_world;
  console := [];
  set_order := set_order demo_world;
  str_format := str_format demo_world;
  repr_list := repr_list demo_world
|}.


(** * Properties *)

(** ** Strings *)

Section StringFacts.

Lemma app_cons c (s t : string) : String c s ++ t = String c (s ++ t).
Proof. reflexivity. Qed.

Lemma app_nil_l_s (s : string) : "" ++ s = s.
Proof. reflexivity. Qed.

Lemma app_assoc_s (s t u : string) : (s ++ t) ++ u = s ++ (t ++ u).
Proof.
  induction s as [|c s IH]; [done |]. by rewrite !app_cons, IH.
Qed.

Lemma app_nil_r_s (s : string) : s ++ "" = s.
Proof. induction s as [|c s IH]; [done |]. by rewrite app_cons, IH. Qed.

Lemma map_map f g s : Str.map f (Str.map g s) = Str.map (fun c => f (g c)) s.
Proof. induction s as [|c s IH]; simpl; [done | by rewrite IH]. Qed.

Lemma map_ext f g s : (forall c, f c = g c) -> Str.map f s = Str.map g s.
Proof. intros E. induction s as [|c s IH]; simpl; [done | by rewrite E, IH]. Qed.

Lemma map_app f s t : Str.map f (s ++ t) = Str.map f s ++ Str.map f t.
Proof.
  induction s as [|c s IH]; [done |].
  rewrite app_cons. simpl. by rewrite IH, app_cons.
Qed.

(** Replacing one character by one character is a character-wise map. *)
Lemma replace_one old new s :
  Str.replace old (String new "") s =
  Str.map (fun c => if Ascii.eqb c old then new else c) s.
Proof.
  induction s as [|c s IH]; simpl; [done |].
  destruct (Ascii.eqb c old); by rewrite IH.
Qed.

Lemma replace_app old new s t :
  Str.replace old new (s ++ t) = Str.replace old new s ++ Str.replace old new t.
Proof.
  induction s as [|c s IH]; [done |].
  rewrite app_cons. cbn [Str.replace]. rewrite IH.
  destruct (Ascii.eqb c old); [by rewrite app_assoc_s | done].
Qed.

End StringFacts.

(** ** Identifier derivation *)

Lemma derive_char_chain c :
  (fun c => if Ascii.eqb c "." then "_"%char else c)
    ((fun c => if Ascii.eqb c "-" then "_"%char else c)
       ((fun c => if Ascii.eqb c " " then "_"%char else c) c)) = derive_char c.
Proof.
  unfold derive_char; cbv beta.
  destruct (Ascii.eqb_spec c " ") as [->|]; [done |].
  destruct (Ascii.eqb_spec c "-") as [->|]; [done |].
  destruct (Ascii.eqb_spec c ".") as [->|]; done.
Qed.

Lemma replace_chain_derive s :
  Str.replace "." "_" (Str.replace "-" "_" (Str.replace " " "_" s)) = derive s.
Proof.
  rewrite !replace_one, !map_map. apply map_ext, derive_char_chain.
Qed.

Lemma derive_char_idem c : derive_char (derive_char c) = derive_char c.
Proof.
  unfold derive_char.
  destruct (Ascii.eqb c " " || Ascii.eqb c "-" || Ascii.eqb c ".") eqn:E;
    [done | by rewrite E].
Qed.

Lemma derive_idem s : derive (derive s) = derive s.
Proof. unfold derive. rewrite map_map. apply map_ext, derive_char_idem. Qed.

(** C5. The derivation the script applies to a role (the replace chain of
    [define_agent], repeated in [get_task_var_name] after the prefix
    [task_]) is a total function that turns every space, hyphen and period
    into an underscore and leaves the other characters alone, and applying
    it twice gives the same string as applying it once. *)
Theorem derivation_idempotent (s : string) :
  role_var (role_var s) = role_var s /\
  role_var s = derive s /\
  get_task_var_name s = "task_" ++ role_var s.
Proof.
  unfold role_var, get_task_var_name.
  rewrite !replace_chain_derive. split; [apply derive_idem | done].
Qed.

(** ** Quote escaping *)

Lemma replace_cons_eq old new r :
  Str.replace old new (String old r) = new ++ Str.replace old new r.
Proof. cbn [Str.replace]. by rewrite Ascii.eqb_refl. Qed.

Lemma replace_cons_ne old new c r :
  c <> old ->
  Str.replace old new (String c r) = String c (Str.replace old new r).
Proof.
  intros Hne. cbn [Str.replace]. by destruct (Ascii.eqb_spec c old).
Qed.

Lemma escape_both_spec s : escape_both s = escape_quotes s.
Proof.
  unfold escape_both. induction s as [|c s IH]; [done |].
  cbn [escape_quotes]. unfold is_quote.
  destruct (Ascii.eqb_spec c DQUOTE) as [->|Hd].
  - rewrite replace_cons_eq.
    change ((bs ++ dq) ++ ?x) with (String BACKSLASH (String DQUOTE x)).
    rewrite !replace_cons_ne by done. by rewrite IH.
  - rewrite (replace_cons_ne DQUOTE) by done. cbn [orb].
    destruct (Ascii.eqb_spec c SQUOTE) as [->|Hs].
    + rewrite replace_cons_eq. by rewrite IH.
    + rewrite replace_cons_ne by done. by rewrite IH.
Qed.

Lemma escape_dquotes_spec s : Str.replace DQUOTE (bs ++ dq) s = escape_dquotes s.
Proof.
  induction s as [|c s IH]; [done |]. cbn [escape_dquotes].
  destruct (Ascii.eqb_spec c DQUOTE) as [->|Hd].
  - rewrite replace_cons_eq. by rewrite IH.
  - rewrite replace_cons_ne by done. by rewrite IH.
Qed.

Lemma escape_quotes_escaped prev s : escaped is_quote prev (escape_quotes s) = true.
Proof.
  revert prev. induction s as [|c s IH]; intros prev; [done |].
  cbn [escape_quotes]. destruct (is_quote c) eqn:Hq.
  - cbn [escaped]. rewrite Hq, IH. done.
  - cbn [escaped]. by rewrite Hq, IH.
Qed.

Lemma escape_dquotes_escaped prev s : escaped is_dquote prev (escape_dquotes s) = true.
Proof.
  revert prev. induction s as [|c s IH]; intros prev; [done |].
  cbn [escape_dquotes]. fold (is_dquote c). destruct (is_dquote c) eqn:Hq.
  - cbn [escaped]. rewrite Hq, IH. done.
  - cbn [escaped]. by rewrite Hq, IH.
Qed.

(** ** The texts the script writes *)

Lemma getitem_complete agent k :
  is_Some (agent !! k) -> getitem agent k = Ok (field_of agent k).
Proof. intros [v Hv]. unfold getitem, field_of. by rewrite Hv. Qed.

Lemma define_agent_text agent tool :
  complete agent ->
  define_agent agent tool =
  Ok (agent_text (derive (field_of agent "role"))
        (escape_quotes (field_of agent "role")) (field_of agent "goal")
        (escape_quotes (field_of agent "backstory")) (delegation_of agent) tool).
Proof.
  intros (Hr & Hg & Hb & _ & Hd). unfold define_agent.
  rewrite !getitem_complete by done. cbn [rbind].
  unfold role_var. by rewrite replace_chain_derive, !escape_both_spec.
Qed.

Lemma define_task_text agent :
  complete agent ->
  define_task agent =
  Ok (task_text ("task_" ++ derive (field_of agent "role"))
        (escape_dquotes (Str.strip (field_of agent "assigned_task")))
        (derive (field_of agent "role"))).
Proof.
  intros (Hr & _ & _ & Ht & _). unfold define_task.
  rewrite !getitem_complete by done. cbn [rbind].
  unfold get_task_var_name.
  rewrite !replace_chain_derive, escape_dquotes_spec.
  unfold task_text. by rewrite !app_assoc_s.
Qed.

Lemma quoting_agent_complete : complete quoting_agent.
Proof. repeat split; by eexists. Qed.

(** C3, as stated, fails: a single quote in [assigned_task] reaches the
    description literal of the task without a backslash. *)
Lemma task_single_quote_unescaped :
  define_task quoting_agent = Ok (task_text "task_Dev" ("it" ++ sq ++ "s") "Dev") /\
  quotes_escaped ("it" ++ sq ++ "s") = false.
Proof. split; reflexivity. Qed.

(** C3, amended. In the agent construction the role and backstory literals
    carry a backslash in front of every double and single quote and the goal
    literal is the goal as it is; in the task construction the description
    literal is the assigned task with surrounding white space removed and a
    backslash in front of every double quote only. *)
Theorem quote_escaping agent tool :
  complete agent ->
  define_agent agent tool =
    Ok (agent_text (derive (field_of agent "role"))
          (escape_quotes (field_of agent "role")) (field_of agent "goal")
          (escape_quotes (field_of agent "backstory")) (delegation_of agent) tool) /\
  define_task agent =
    Ok (task_text ("task_" ++ derive (field_of agent "role"))
          (escape_dquotes (Str.strip (field_of agent "assigned_task")))
          (derive (field_of agent "role"))) /\
  quotes_escaped (escape_quotes (field_of agent "role")) = true /\
  quotes_escaped (escape_quotes (field_of agent "backstory")) = true /\
  dquotes_escaped (escape_dquotes (Str.strip (field_of agent "assigned_task"))) = true.
Proof.
  intros Hc. split; [by apply define_agent_text |].
  split; [by apply define_task_text |].
  unfold quotes_escaped, dquotes_escaped.
  by rewrite !escape_quotes_escaped, escape_dquotes_escaped.
Qed.

Lemma quote_escaping_witness :
  complete quoting_agent /\
  define_task quoting_agent =
    Ok (task_text ("task_" ++ derive (field_of quoting_agent "role"))
          (escape_dquotes (Str.strip (field_of quoting_agent "assigned_task")))
          (derive (field_of quoting_agent "role"))).
Proof.
  split; [exact quoting_agent_complete |].
  exact (proj1 (proj2 (quote_escaping quoting_agent "search_tool"
                         quoting_agent_complete))).
Defined.

(** ** The emitted script *)

Section Emitter.

Lemma list_comp_map {A B} (f : A -> result B) (g : A -> B) (l : list A) :
  Forall (fun a => f a = Ok (g a)) l -> list_comp f l = Ok (g <$> l).
Proof.
  induction 1 as [|a l Ha _ IH]; [done |].
  cbn [list_comp]. by rewrite Ha, IH.
Qed.

Lemma crew_tasks_of_complete agents_data :
  Forall complete agents_data ->
  crew_tasks_of agents_data = Ok (Str.join ", " (task_var <$> agents_data)).
Proof.
  intros Hc. unfold crew_tasks_of.
  rewrite (list_comp_map _ task_var); [done |].
  eapply Forall_impl; [exact Hc |]. intros a (Hr & _).
  rewrite getitem_complete by done. cbn [rbind].
  by rewrite replace_chain_derive.
Qed.

Lemma bind_run {A B} (c : M A) (k : A -> M B) s s1 a :
  c s = (s1, Ok a) -> bind c k s = k a s1.
Proof. intros E. unfold bind. by rewrite E. Qed.

Lemma file_write_run path data s :
  exists s', file_write path data s = (s', Ok tt) /\
    files s' !! path = Some (default "" (files s !! path) ++ data).
Proof.
  eexists. split; [reflexivity |]. cbn [files]. apply lookup_insert_eq.
Qed.








End Emitter.






(** ** Parsing *)

Section Parser.

Lemma header_mapping_lookup x :
  header_mapping !! x = if bool_decide (x ∈ header) then Some x else None.
Proof.
  assert (E : header_mapping =
    <["allow_delegation" := "allow_delegation"]>
      (<["assigned_task" := "assigned_task"]>
         (<["backstory" := "backstory"]>
            (<["goal" := "goal"]>
               (<["role" := "role"]>
                  (<["filename" := "filename"]> ∅)))))) by reflexivity.
  rewrite E. unfold header.
  repeat (rewrite lookup_insert;
          match goal with
          | |- context [decide (?a = x)] =>
              destruct (decide (a = x)) as [<-|?]; [reflexivity |]
          end).
  rewrite lookup_empty. rewrite bool_decide_eq_false_2; [done |].
  rewrite !elem_of_cons, elem_of_nil. intros H.
  repeat (destruct H as [H|H]; [done |]). done.
Qed.

Lemma header_truthy x : x ∈ header -> Str.truthy x = true.
Proof.
  unfold header. rewrite !elem_of_cons, elem_of_nil.
  intros H; repeat (destruct H as [->|H]; [done |]); done.
Qed.

Lemma assign_fields_shift indices i line m :
  assign_fields indices i line m = assign_fields (drop i indices) 0 line m.
Proof.
  revert indices i m. induction line as [|v vs IH]; intros indices i m; [done |].
  cbn [assign_fields]. unfold list_index. rewrite lookup_drop, Nat.add_0_r.
  destruct (indices !! i) as [o|]; [|done]. cbn [rbind].
  rewrite (IH indices (S i)), (IH (drop i indices) 1), drop_drop.
  by replace (i + 1) with (S i) by lia.
Qed.

Lemma assign_fields_cons o indices v vs m :
  assign_fields (o :: indices) 0 (v :: vs) m =
  assign_fields indices 0 vs (assign_one o v m).
Proof.
  cbn [assign_fields list_index]. cbn. rewrite assign_fields_shift.
  by destruct o as [h|].
Qed.

Lemma assign_one_lookup h v m k :
  assign_one (header_mapping !! Str.lower h) v m !! k =
  if names_column h k then Some (unquote v) else m !! k.
Proof.
  rewrite header_mapping_lookup. unfold names_column, assign_one.
  destruct (bool_decide_reflect (Str.lower h ∈ header)) as [Hin|Hin].
  - rewrite (header_truthy _ Hin).
    destruct (String.eqb_spec (Str.lower h) k) as [E|Hne].
    + rewrite E in *. rewrite lookup_insert_eq.
      by rewrite bool_decide_eq_true_2.
    + rewrite lookup_insert_ne by done. by rewrite andb_false_r.
  - destruct (bool_decide_reflect (k ∈ header)) as [Hk|Hk]; [|done].
    destruct (String.eqb_spec (Str.lower h) k) as [E|Hne]; [|done].
    by rewrite E in Hin.
Qed.

(** A row no wider than the header is read without error, and the map it
    leaves holds, for every key, the value the row gives to it. *)
Lemma assign_fields_fits header_line line m :
  length line <= length header_line ->
  exists m', assign_fields (header_indices header_line) 0 line m = Ok m' /\
    forall k, m' !! k = match row_value header_line line k with
                        | Some x => Some x
                        | None => m !! k
                        end.
Proof.
  revert header_line m. induction line as [|v vs IH]; intros hl m Hlen.
  - exists m. split; [done |]. intros k. by destruct hl.
  - destruct hl as [|h hs]; [cbn in Hlen; lia |]. cbn in Hlen.
    unfold header_indices. rewrite fmap_cons, assign_fields_cons.
    destruct (IH hs (assign_one (header_mapping !! Str.lower h) v m))
      as (m' & E & Hm'); [lia |].
    exists m'. split; [exact E |]. intros k. rewrite Hm'. cbn [row_value].
    destruct (row_value hs vs k); [done |]. rewrite assign_one_lookup.
    by destruct (names_column h k).
Qed.

(** A row wider than the header runs off the end of the index list. *)
Lemma assign_fields_wide header_line line m :
  length header_line < length line ->
  assign_fields (header_indices header_line) 0 line m = Raise IndexError.
Proof.
  revert header_line m. induction line as [|v vs IH]; intros hl m Hlen.
  - cbn in Hlen; lia.
  - destruct hl as [|h hs]; [done |]. cbn in Hlen.
    unfold header_indices. rewrite fmap_cons, assign_fields_cons.
    apply IH. lia.
Qed.

Lemma parse_line_wide header_line filename line :
  length header_line < length line ->
  parse_line (header_indices header_line) filename line = Raise IndexError.
Proof.
  intros Hlen. unfold parse_line. by rewrite assign_fields_wide.
Qed.

Lemma parse_line_role header_line filename line :
  length line <= length header_line ->
  has_role header_line line = true ->
  exists agent_data,
    parse_line (header_indices header_line) filename line = Ok agent_data /\
    record_for header_line filename line agent_data.
Proof.
  intros Hlen Hrole. unfold parse_line.
  destruct (assign_fields_fits header_line line ∅ Hlen) as (m & -> & Hm).
  cbn [rbind]. unfold role_missing. rewrite Hm. unfold has_role in Hrole.
  destruct (row_value header_line line "role") as [r|]; [|done].
  rewrite Hrole. cbn [negb]. eexists. split; [done |].
  intros k. rewrite lookup_insert. case_decide as Hk.
  - subst k. by rewrite decide_True.
  - rewrite decide_False by done. rewrite Hm.
    destruct (row_value header_line line k); [done | apply lookup_empty].
Qed.

Lemma parse_line_no_role header_line filename line :
  length line <= length header_line ->
  has_role header_line line = false ->
  parse_line (header_indices header_line) filename line = Raise role_error.
Proof.
  intros Hlen Hrole. unfold parse_line.
  destruct (assign_fields_fits header_line line ∅ Hlen) as (m & -> & Hm).
  cbn [rbind]. unfold role_missing. rewrite Hm. unfold has_role in Hrole.
  destruct (row_value header_line line "role") as [r|].
  - by rewrite Hrole.
  - by rewrite lookup_empty.
Qed.

Lemma parse_lines_app_raise indices filename pre line post e :
  (exists recs, parse_lines indices filename pre = Ok recs) ->
  parse_line indices filename line = Raise e ->
  parse_lines indices filename (pre ++ line :: post)%list = Raise e.
Proof.
  intros [recs Hpre] Hline. revert recs Hpre.
  induction pre as [|x pre IH]; intros recs Hpre.
  - cbn [app parse_lines]. by rewrite Hline.
  - cbn [app parse_lines] in *.
    destruct (parse_line indices filename x) as [a|]; [|done].
    cbn [rbind] in *.
    destruct (parse_lines indices filename pre) as [l|] eqn:El; [|done].
    by rewrite (IH l).
Qed.

(** Reading well-formed rows yields their records, one for one. *)
Lemma parse_lines_ok header_line filename rows :
  Forall (fun row => length row <= length header_line /\
                     has_role header_line row = true) rows ->
  exists recs,
    parse_lines (header_indices header_line) filename rows = Ok recs /\
    Forall2 (record_for header_line filename) rows recs.
Proof.
  induction 1 as [|row rows [Hlen Hrole] _ (recs & E & HF)].
  - exists []. by split.
  - destruct (parse_line_role header_line filename row Hlen Hrole)
      as (a & Ea & Ha).
    exists (a :: recs). cbn [parse_lines]. rewrite Ea, E. split; [done |].
    by constructor.
Qed.

Lemma parse_csv_data_rows response delimiter filename header_line rows :
  csv.reader response delimiter = Ok (header_line :: rows) ->
  parse_csv_data response delimiter filename =
  parse_lines (header_indices header_line) filename rows.
Proof. intros E. unfold parse_csv_data. by rewrite E. Qed.

End Parser.

Section ParserOutcomes.

Lemma truthy_ne s : s <> "" -> Str.truthy s = true.
Proof. by destruct s. Qed.

Lemma truthy_false s : Str.truthy s = false -> s = "".
Proof. by destruct s. Qed.

(** Under the standard header the value of the [i]-th column is the
    [i]-th field of the row. *)
Lemma row_value_std line i k :
  std_header !! i = Some k ->
  row_value std_header line k = unquote <$> line !! i.
Proof.
  intros Hk.
  do 5 (destruct i as [|i]; [injection Hk as <-;
    destruct line as [|a [|b [|c [|d [|e r]]]]]; reflexivity |]).
  done.
Qed.

Lemma row_value_absent header_line line k :
  (forall i h, header_line !! i = Some h -> names_column h k = true ->
               length line <= i) ->
  row_value header_line line k = None.
Proof.
  revert line. induction header_line as [|h hs IH]; intros line Hcol; [done |].
  destruct line as [|v vs]; [done |]. cbn [row_value].
  rewrite IH.
  - destruct (names_column h k) eqn:Hn; [|done].
    specialize (Hcol 0 h eq_refl Hn). cbn in Hcol. lia.
  - intros i h' Hi Hn. specialize (Hcol (S i) h' Hi Hn). cbn in Hcol. lia.
Qed.

Lemma parse_lines_app indices filename pre rows :
  parse_lines indices filename (pre ++ rows)%list =
  (let? a := parse_lines indices filename pre in
   let? b := parse_lines indices filename rows in
   Ok (a ++ b)%list).
Proof.
  induction pre as [|x pre IH]; cbn [app parse_lines rbind].
  - by destruct (parse_lines indices filename rows).
  - destruct (parse_line indices filename x); [|done]. cbn [rbind].
    rewrite IH. destruct (parse_lines indices filename pre); [|done].
    cbn [rbind]. by destruct (parse_lines indices filename rows).
Qed.

(** The three ways the loop body can end *)
Lemma parse_line_outcome header_line filename line :
  (exists a, parse_line (header_indices header_line) filename line = Ok a) \/
  parse_line (header_indices header_line) filename line = Raise role_error \/
  parse_line (header_indices header_line) filename line = Raise IndexError.
Proof.
  destruct (le_lt_dec (length line) (length header_line)) as [Hle|Hlt].
  - destruct (has_role header_line line) eqn:Hr.
    + left. destruct (parse_line_role _ filename _ Hle Hr) as (a & E & _).
      by exists a.
    + right; left. by apply parse_line_no_role.
  - right; right. by apply parse_line_wide.
Qed.

Lemma parse_lines_cons_raise indices filename x rows e :
  parse_line indices filename x = Raise e ->
  parse_lines indices filename (x :: rows) = Raise e.
Proof. intros E. cbn [parse_lines]. by rewrite E. Qed.

Lemma parse_lines_cons_ok indices filename x rows a e :
  parse_line indices filename x = Ok a ->
  parse_lines indices filename rows = Raise e ->
  parse_lines indices filename (x :: rows) = Raise e.
Proof. intros E1 E2. cbn [parse_lines]. by rewrite E1, E2. Qed.

(** Once some row fails, the parse fails, with one of the two errors. *)
Lemma parse_lines_fails header_line filename pre line post :
  parse_line (header_indices header_line) filename line = Raise role_error \/
  parse_line (header_indices header_line) filename line = Raise IndexError ->
  parse_lines (header_indices header_line) filename (pre ++ line :: post)%list
    = Raise role_error \/
  parse_lines (header_indices header_line) filename (pre ++ line :: post)%list
    = Raise IndexError.
Proof.
  intros Hline. induction pre as [|x pre IH]; cbn [app].
  - destruct Hline as [E|E]; [left | right]; by apply parse_lines_cons_raise.
  - destruct (parse_line_outcome header_line filename x) as [[a Ea]|[Ex|Ex]].
    + destruct IH as [E|E]; [left | right];
        by apply (parse_lines_cons_ok _ _ _ _ a).
    + left. by apply parse_lines_cons_raise.
    + right. by apply parse_lines_cons_raise.
Qed.

Lemma parse_lines_role_error header_line filename pre line post :
  Forall (fun row => length row <= length header_line) (pre ++ [line])%list ->
  has_role header_line line = false ->
  parse_lines (header_indices header_line) filename (pre ++ line :: post)%list
    = Raise role_error.
Proof.
  intros Hfit Hrole. induction pre as [|x pre IH]; cbn [app] in *.
  - apply parse_lines_cons_raise, parse_line_no_role; [|done].
    by inversion Hfit.
  - inversion Hfit as [|? ? Hx Hrest]; subst.
    destruct (has_role header_line x) eqn:Hr.
    + destruct (parse_line_role _ filename _ Hx Hr) as (a & Ea & _).
      apply (parse_lines_cons_ok _ _ _ _ a); [done | by apply IH].
    + by apply parse_lines_cons_raise, parse_line_no_role.
Qed.

Lemma parse_lines_index_error header_line filename pre line post :
  length header_line < length line ->
  Forall (fun row => has_role header_line row = true) pre ->
  parse_lines (header_indices header_line) filename (pre ++ line :: post)%list
    = Raise IndexError.
Proof.
  intros Hwide Hpre. induction Hpre as [|x pre Hx _ IH]; cbn [app].
  - by apply parse_lines_cons_raise, parse_line_wide.
  - destruct (le_lt_dec (length x) (length header_line)) as [Hle|Hlt].
    + destruct (parse_line_role _ filename _ Hle Hx) as (a & Ea & _).
      by apply (parse_lines_cons_ok _ _ _ _ a).
    + by apply parse_lines_cons_raise, parse_line_wide.
Qed.

End ParserOutcomes.

(** *** The claims about the parser *)

(** C1, as stated, fails: the reply starts with the expected header and its
    first data row has a role, yet the empty role of the second row makes
    the parse raise instead of returning two records. *)
Lemma second_row_without_role_raises :
  csv.reader reply_second_role_empty "," =
    Ok [std_header;
        ["Researcher"; "find papers"; "veteran analyst"; "scan arxiv"; "True"];
        [""; "summarise"; "former editor"; "draft report"; "False"]] /\
  parse_csv_data reply_second_role_empty "," "crew.csv" = Raise role_error.
Proof. split; reflexivity. Qed.

(** C1, amended. When the first row is the header
    role,goal,backstory,assigned_task,allow_delegation and every data row
    has at most five fields and a role that is not empty once its wrapping
    quote characters are removed, the parse returns exactly one record per
    data row, in the order of the rows; each record holds the file name and,
    for every column, the unquoted field of its row at that column. *)
Theorem one_record_per_row response delimiter filename rows :
  csv.reader response delimiter = Ok (std_header :: rows) ->
  Forall (fun row => length row <= 5 /\
                     exists v, row !! 0 = Some v /\ unquote v <> "") rows ->
  exists recs,
    parse_csv_data response delimiter filename = Ok recs /\
    length recs = length rows /\
    Forall2 (fun row rec =>
               rec !! "filename" = Some filename /\
               forall i k, std_header !! i = Some k ->
                           rec !! k = unquote <$> row !! i) rows recs.
Proof.
  intros Hread Hrows.
  rewrite (parse_csv_data_rows _ _ _ _ _ Hread).
  destruct (parse_lines_ok std_header filename rows) as (recs & E & HF).
  { eapply Forall_impl; [exact Hrows |]. intros row (Hlen & v & Hv & Hne).
    split; [exact Hlen |]. unfold has_role.
    rewrite (row_value_std row 0 "role" eq_refl), Hv. by apply truthy_ne. }
  exists recs. split; [exact E |].
  split; [symmetry; by eapply Forall2_length |].
  eapply Forall2_impl; [exact HF |]. intros row rec Hrec. split.
  - by rewrite (Hrec "filename").
  - intros i k Hk. rewrite (Hrec k), <- (row_value_std row i k Hk).
    do 5 (destruct i as [|i]; [by injection Hk as <- |]). done.
Qed.

Lemma one_record_per_row_witness :
  exists recs,
    parse_csv_data reply_two_agents "," "crew.csv" = Ok recs /\
    length recs = 2.
Proof.
  destruct (one_record_per_row reply_two_agents "," "crew.csv"
              [["Researcher"; "find papers"; "veteran analyst"; "scan arxiv";
                "True"];
               ["Writer"; "summarise"; "former editor"; "draft report";
                "False"]])
    as (recs & E & L & _).
  - reflexivity.
  - repeat constructor; cbn; try lia; eexists; (split; [reflexivity | discriminate]).
  - exists recs. split; [exact E | exact L].
Defined.

(** C2, as stated, fails: the only data row has an empty role and its other
    fields are present, but it is wider than the header and the parse ends
    in the indexing error, not in the validation error. *)
Lemma empty_role_in_wide_row_raises_index_error :
  csv.reader reply_empty_role_wide "," =
    Ok [["role"; "goal"]; [""; "summarise"; "former editor"]] /\
  has_role ["role"; "goal"] [""; "summarise"; "former editor"] = false /\
  parse_csv_data reply_empty_role_wide "," "crew.csv" = Raise IndexError.
Proof. repeat split; reflexivity. Qed.

(** C2, amended. A data row that supplies no role, or an empty one, makes
    the parse fail whatever its other fields hold: with the validation error
    when neither that row nor a row before it has more fields than the
    header, and otherwise with the validation error or the indexing
    error. *)
Theorem missing_role_is_fatal response delimiter filename header_line
    pre line post :
  csv.reader response delimiter = Ok (header_line :: pre ++ line :: post)%list ->
  has_role header_line line = false ->
  (parse_csv_data response delimiter filename = Raise role_error \/
   parse_csv_data response delimiter filename = Raise IndexError) /\
  (Forall (fun row => length row <= length header_line) (pre ++ [line])%list ->
   parse_csv_data response delimiter filename = Raise role_error).
Proof.
  intros Hread Hrole. rewrite (parse_csv_data_rows _ _ _ _ _ Hread). split.
  - apply parse_lines_fails.
    destruct (parse_line_outcome header_line filename line) as [[a Ea]|H];
      [|exact H].
    destruct (le_lt_dec (length line) (length header_line)) as [Hle|Hlt].
    + rewrite (parse_line_no_role _ filename _ Hle Hrole) in Ea. done.
    + rewrite (parse_line_wide _ filename _ Hlt) in Ea. done.
  - intros Hfit. by apply parse_lines_role_error.
Qed.

Lemma missing_role_is_fatal_witness :
  parse_csv_data reply_role_empty "," "crew.csv" = Raise role_error.
Proof.
  refine (proj2 (missing_role_is_fatal reply_role_empty "," "crew.csv"
                   ["role"; "goal"] [["Researcher"; "find papers"]]
                   [""; "summarise"] [] _ _) _).
  - reflexivity.
  - reflexivity.
  - repeat constructor; cbn; lia.
Defined.

(** C9. A data row with fewer fields than the header, whose role is present
    and not empty, does not stop the parse: the loop body returns a record
    for it that holds the file name and the values of the columns the row
    reaches, the columns it does not reach being absent, and when the rows
    before it are read without error the parse goes on to the rows after
    it. *)
Theorem short_row_tolerated response delimiter filename header_line
    pre line post :
  csv.reader response delimiter = Ok (header_line :: pre ++ line :: post)%list ->
  length line < length header_line ->
  has_role header_line line = true ->
  exists rec,
    parse_line (header_indices header_line) filename line = Ok rec /\
    record_for header_line filename line rec /\
    (forall k, k <> "filename" ->
       (forall i h, header_line !! i = Some h -> names_column h k = true ->
                    length line <= i) ->
       rec !! k = None) /\
    (forall recs_pre,
       parse_lines (header_indices header_line) filename pre = Ok recs_pre ->
       parse_csv_data response delimiter filename =
       (let? recs_post := parse_lines (header_indices header_line) filename post in
        Ok (recs_pre ++ rec :: recs_post)%list)).
Proof.
  intros Hread Hshort Hrole.
  destruct (parse_line_role header_line filename line) as (rec & E & Hrec);
    [lia | done |].
  exists rec. split; [exact E |]. split; [exact Hrec |]. split.
  - intros k Hk Hcol. rewrite (Hrec k), decide_False by done.
    by apply row_value_absent.
  - intros recs_pre Hpre. rewrite (parse_csv_data_rows _ _ _ _ _ Hread).
    rewrite parse_lines_app, Hpre. cbn [rbind parse_lines]. rewrite E.
    cbn [rbind].
    by destruct (parse_lines (header_indices header_line) filename post).
Qed.

Lemma short_row_tolerated_witness :
  exists rec,
    parse_csv_data reply_short_row "," "crew.csv" = Ok [rec] /\
    rec !! "role" = Some "Researcher" /\ rec !! "backstory" = None.
Proof.
  destruct (short_row_tolerated reply_short_row "," "crew.csv" std_header []
              ["Researcher"; "find papers"] [])
    as (rec & _ & Hrec & _ & Hparse).
  - reflexivity.
  - cbn; lia.
  - reflexivity.
  - exists rec. split; [exact (Hparse [] eq_refl) |].
    split; [exact (Hrec "role") | exact (Hrec "backstory")].
Defined.

(** C10, as stated, fails: the second data row is wider than the header,
    but the empty role of the first data row ends the parse before, with
    the validation error. *)
Lemma wide_row_after_empty_role_raises_role_error :
  csv.reader reply_empty_role_then_wide "," =
    Ok [["role"; "goal"]; [""; "summarise"]; ["Writer"; "summarise"; "extra"]] /\
  parse_csv_data reply_empty_role_then_wide "," "crew.csv" = Raise role_error.
Proof. split; reflexivity. Qed.

(** C10, amended. A data row with strictly more fields than the header
    makes the parse raise the out-of-bounds indexing error, not the
    validation error, when every data row before it supplies a role that is
    not empty. *)
Theorem wide_row_index_error response delimiter filename header_line
    pre line post :
  csv.reader response delimiter = Ok (header_line :: pre ++ line :: post)%list ->
  length header_line < length line ->
  Forall (fun row => has_role header_line row = true) pre ->
  parse_csv_data response delimiter filename = Raise IndexError.
Proof.
  intros Hread Hwide Hpre. rewrite (parse_csv_data_rows _ _ _ _ _ Hread).
  by apply parse_lines_index_error.
Qed.

Lemma wide_row_index_error_witness :
  parse_csv_data reply_then_wide "," "crew.csv" = Raise IndexError.
Proof.
  apply (wide_row_index_error reply_then_wide "," "crew.csv" ["role"; "goal"]
           [["Researcher"; "find papers"]] ["Writer"; "summarise"; "extra"] []).
  - reflexivity.
  - cbn; lia.
  - repeat constructor.
Defined.

(** ** The run loop *)

Section RunLoop.

Lemma log_log evs1 evs2 s : log evs2 (log evs1 s) = log (evs1 ++ evs2) s.
Proof. unfold log. cbn. by rewrite app_assoc. Qed.

Lemma log_nil s : log [] s = s.
Proof. destruct s. unfold log. cbn. by rewrite app_nil_r. Qed.

Lemma print_run text s : print text s = (log [Print text] s, Ok tt).
Proof. reflexivity. Qed.

(** The version check never raises and only fetches and prints. *)
Lemma check_latest_version_run w s :
  exists r evs, check_latest_version w s = (log evs s, Ok r) /\
                Forall harmless evs.
Proof.
  unfold check_latest_version, try_except.
  rewrite (bind_run _ _ s (log [HttpGet version_url] s) tt) by done.
  unfold bind, lift, ret, print, emit.
  assert (Hh : forall t, Forall harmless [HttpGet version_url; Print t]).
  { intros t. by repeat constructor. }
  assert (Hg : Forall harmless [HttpGet version_url]) by by repeat constructor.
  destruct (http_get w version_url) as [c|e];
    [|eexists _, _; split; [by rewrite log_log | apply Hh]].
  destruct (next_startswith _ _) as [l|e];
    [|eexists _, _; split; [by rewrite log_log | apply Hh]].
  destruct (list_index _ 1) as [rhs|e];
    [|eexists _, _; split; [by rewrite log_log | apply Hh]].
  destruct (version_gt w _ _) as [[|]|e];
    [eexists _, _; split; [done | apply Hg] ..
    |eexists _, _; split; [by rewrite log_log | apply Hh]].
Qed.

Lemma announce_run latest_version s :
  exists evs, announce latest_version s = (log evs s, Ok tt) /\
              Forall harmless evs.
Proof.
  unfold announce. destruct latest_version as [v|].
  - destruct (Str.truthy v && negb (String.eqb v autocrew_version)).
    + eexists. split; [apply print_run | by repeat constructor].
    + exists []. split; [by rewrite log_nil | constructor].
  - exists []. split; [by rewrite log_nil | constructor].
Qed.

(** Before it looks at the flags [main] prints its banner, checks for a
    newer version and prints the usage hint. *)
Lemma main_run w args s :
  exists evs, Forall harmless evs /\
              main w args s = main_with_args w args (log evs s).
Proof.
  unfold main.
  rewrite !(bind_run _ _ _ _ _ (print_run _ _)).
  destruct (check_latest_version_run w
              (log [Print ("Autocrew (v" ++ autocrew_version ++ ") for CrewAI ")]
                 (log [Print ""] s))) as (r & evs & E & Hq).
  rewrite (bind_run _ _ _ _ _ E).
  destruct (announce_run r (log evs
              (log [Print ("Autocrew (v" ++ autocrew_version ++ ") for CrewAI ")]
                 (log [Print ""] s)))) as (evs2 & E2 & Hq2).
  rewrite (bind_run _ _ _ _ _ E2).
  rewrite !(bind_run _ _ _ _ _ (print_run _ _)). rewrite !log_log.
  eexists. split; [|reflexivity].
  repeat (apply Forall_app; split); try done; by repeat constructor.
Qed.

End RunLoop.

Lemma filter_none {A} (p : A -> bool) (l : list A) :
  (forall x, x ∈ l -> p x = false) -> List.filter p l = [].
Proof.
  induction l as [|x l IH]; intros H; [done |]. cbn [List.filter].
  rewrite (H x) by apply list_elem_of_here. apply IH.
  intros y Hy. apply H. by apply list_elem_of_further.
Qed.

(** C6. When [--multiple] carries a count other than zero and [--auto_run]
    is set, the program ends by raising the configuration error; up to that
    point it has called the model not once and has created or written no
    file, so the files are those it started with. *)
Theorem incompatible_flags_fail_fast (w : World) (args : Args) (n : Z) :
  multiple args = Some n -> n <> 0%Z -> auto_run args = true ->
  exists s',
    main w args (init_state w) = (s', Raise flags_error) /\
    Forall harmless (trace s') /\
    invocations s' = 0 /\
    files s' = disk w.
Proof.
  intros Hm Hn Ha.
  destruct (main_run w args (init_state w)) as (evs & Hq & ->).
  exists (log evs (init_state w)). split; [|by repeat split].
  unfold main_with_args, int_truthy. rewrite Hm, Ha.
  by destruct (Z.eqb_spec n 0).
Qed.

Lemma incompatible_flags_fail_fast_witness :
  exists s',
    main demo_world (mkArgs (Some "research") true (Some 3%Z) false)
      (init_state demo_world) = (s', Raise flags_error) /\
    invocations s' = 0.
Proof.
  destruct (incompatible_flags_fail_fast demo_world
              (mkArgs (Some "research") true (Some 3%Z) false) 3%Z)
    as (s' & E & _ & Hi & _).
  - reflexivity.
  - discriminate.
  - reflexivity.
  - exists s'. split; [exact E | exact Hi].
Defined.

(** C7. In a ranking run (the [--ranking] flag, without the combination of
    flags that C6 rejects) for which a goal is supplied, when no name in the
    working directory starts with [crewai-autocrew-], ends in [.csv] and
    contains the goal, the program prints that no CSV files were found for
    the goal as its last action and returns normally, without a call to the
    model. *)
Theorem ranking_without_artifacts (w : World) (args : Args) (goal : string) :
  ranking args = true ->
  int_truthy (multiple args) && auto_run args = false ->
  supplied_goal w args = Some goal ->
  (forall file, file ∈ listdir w ->
     ~ (Str.startswith "crewai-autocrew-" file = true /\
        Str.endswith ".csv" file = true /\
        Str.contains goal file = true)) ->
  exists s',
    main w args (init_state w) = (s', Ok tt) /\
    last (trace s') =
      Some (Print ("No CSV files found for the provided overall goal: " ++ goal)) /\
    Forall (fun e => is_model_call e = false) (trace s') /\
    invocations s' = 0.
Proof.
  intros Hr Hflags Hgoal Hnone.
  destruct (main_run w args (init_state w)) as (evs & Hq & ->).
  unfold main_with_args. rewrite Hflags, Hr.
  assert (Hfilter : List.filter (is_artifact_for goal) (listdir w) = []).
  { apply filter_none. intros file Hin. unfold is_artifact_for.
    specialize (Hnone file Hin).
    destruct (Str.startswith _ file), (Str.endswith _ file),
      (Str.contains goal file); try done. by destruct Hnone. }
  assert (Hquiet : Forall (fun e => is_model_call e = false) evs).
  { eapply Forall_impl; [exact Hq |]. by intros e [? _]. }
  unfold supplied_goal in Hgoal.
  assert (Hinput : head (console w) = Some goal ->
    exists s1, input "Please specify the overall goal: " (log evs (init_state w))
               = (s1, Ok goal) /\
      trace s1 = (evs ++ [Input "Please specify the overall goal: "])%list /\
      invocations s1 = 0).
  { intros Hc. unfold input. cbn [stdin log init_state].
    destruct (console w) as [|l rest]; [done |]. injection Hc as ->.
    eexists. split; [reflexivity |]. by split. }
  assert (Hsplit : forall s1 tr,
    trace s1 = tr -> invocations s1 = 0 ->
    Forall (fun e => is_model_call e = false) tr ->
    exists s',
      print ("No CSV files found for the provided overall goal: " ++ goal) s1
        = (s', Ok tt) /\
      last (trace s') =
        Some (Print ("No CSV files found for the provided overall goal: " ++ goal)) /\
      Forall (fun e => is_model_call e = false) (trace s') /\
      invocations s' = 0).
  { intros s1 tr Ht Hi Hf. eexists. split; [apply print_run |].
    cbn [log trace invocations]. rewrite Ht, last_snoc.
    split; [done |]. split; [|done].
    apply Forall_app. split; [done | by repeat constructor]. }
  destruct (overall_goal args) as [g|].
  - destruct (Str.truthy g).
    + injection Hgoal as ->.
      rewrite (bind_run _ _ _ (log evs (init_state w)) goal) by done.
      cbv zeta. rewrite Hfilter. by eapply Hsplit.
    + destruct (Hinput Hgoal) as (s1 & E1 & T1 & I1).
      rewrite (bind_run _ _ _ _ _ E1). cbv zeta. rewrite Hfilter.
      eapply Hsplit; [exact T1 | exact I1 |].
      apply Forall_app. split; [done | by repeat constructor].
  - destruct (Hinput Hgoal) as (s1 & E1 & T1 & I1).
    rewrite (bind_run _ _ _ _ _ E1). cbv zeta. rewrite Hfilter.
    eapply Hsplit; [exact T1 | exact I1 |].
    apply Forall_app. split; [done | by repeat constructor].
Qed.

Lemma ranking_without_artifacts_witness :
  exists s',
    main demo_world (mkArgs (Some "gardening") false None true)
      (init_state demo_world) = (s', Ok tt) /\
    invocations s' = 0.
Proof.
  destruct (ranking_without_artifacts demo_world
              (mkArgs (Some "gardening") false None true) "gardening")
    as (s' & E & _ & _ & Hi).
  - reflexivity.
  - reflexivity.
  - reflexivity.
  - intros file Hin (_ & _ & Hc). revert Hc.
    cbn [listdir demo_world] in Hin.
    rewrite !elem_of_cons, elem_of_nil in Hin.
    destruct Hin as [->|[->|[->|[]]]]; vm_compute; discriminate.
  - exists s'. split; [exact E | exact Hi].
Defined.

(** ** The ranking step *)

Section Ranking.

Lemma prefix_map f n s :
  String.prefix n s = true -> String.prefix (Str.map f n) (Str.map f s) = true.
Proof.
  revert n. induction s as [|d s IH]; intros [|c n]; try done.
  cbn [String.prefix Str.map].
  destruct (ascii_dec c d) as [->|]; [|done].
  destruct (ascii_dec (f d) (f d)); [apply IH | done].
Qed.

Lemma contains_map f n s :
  Str.contains n s = true -> Str.contains (Str.map f n) (Str.map f s) = true.
Proof.
  induction s as [|c s IH]; cbn [Str.contains Str.map].
  - rewrite !orb_false_r. apply (prefix_map f n "").
  - intros [Hp|Hc]%orb_true_iff.
    + pose proof (prefix_map f n (String c s) Hp) as Hp'.
      cbn [Str.map] in Hp'. by rewrite Hp'.
    + rewrite (IH Hc). apply orb_true_r.
Qed.

Lemma contains_app_r n a s :
  Str.contains n s = true -> Str.contains n (a ++ s) = true.
Proof.
  intros H. induction a as [|c a IH]; [done |].
  rewrite app_cons. cbn [Str.contains]. rewrite IH. apply orb_true_r.
Qed.

Lemma split_aux_nonempty sep cur s : Str.split_aux sep cur s <> [].
Proof.
  revert cur. induction s as [|c s IH]; intros cur; cbn [Str.split_aux];
    [done |]. destruct (Ascii.eqb c sep); [done | apply IH].
Qed.

Lemma last_cons_nonempty {A} (x d : A) l : l <> [] -> List.last (x :: l) d = List.last l d.
Proof. by destruct l. Qed.

Lemma split_aux_last sep cur s :
  exists a, cur ++ s = a ++ List.last (Str.split_aux sep cur s) "".
Proof.
  revert cur. induction s as [|c s IH]; intros cur; cbn [Str.split_aux].
  - exists "". by rewrite app_nil_r_s.
  - destruct (Ascii.eqb c sep).
    + destruct (IH "") as [a Ha].
      rewrite last_cons_nonempty by apply split_aux_nonempty.
      exists (cur ++ String c a).
      rewrite app_assoc_s, app_cons, <- Ha. done.
    + destruct (IH (cur ++ String c "")) as [a Ha]. exists a.
      rewrite <- Ha. by rewrite app_assoc_s.
Qed.

(** The base name is the end of the path. *)
Lemma basename_suffix p : exists a, p = a ++ basename p.
Proof. apply (split_aux_last "/" "" p). Qed.

(** A path whose name contains the word, in any letter case, is one the
    test stops. *)
Lemma ranking_name_path p :
  Str.contains "ranking" (Str.lower (basename p)) = true -> ranking_path p = true.
Proof.
  intros H. destruct (basename_suffix p) as [a Ha].
  unfold ranking_path. rewrite Ha. unfold Str.lower. rewrite map_app.
  by apply contains_app_r.
Qed.

Lemma flat_app l1 l2 : flat (l1 ++ l2)%list = flat l1 ++ flat l2.
Proof.
  induction l1 as [|x l1 IH]; [done |].
  cbn [app]. unfold flat in *. cbn [foldr]. by rewrite IH, app_assoc_s.
Qed.

Lemma flat_elem x l : x ∈ l -> exists a b, flat l = a ++ x ++ b.
Proof.
  intros (l1 & l2 & ->)%list_elem_of_split.
  exists (flat l1), (flat l2). by rewrite flat_app.
Qed.

Lemma join_rows (f : string -> string) row rows :
  row ∈ rows ->
  exists a b, Str.join nl (f <$> rows) ++ nl = a ++ (f row ++ nl) ++ b.
Proof.
  unfold Str.join. induction rows as [|x xs IH]; intros Hin.
  - by apply elem_of_nil in Hin.
  - apply elem_of_cons in Hin. destruct xs as [|y ys].
    + destruct Hin as [->|Hin]; [|by apply elem_of_nil in Hin].
      exists "", "". cbn [fmap list_fmap String.concat].
      by rewrite app_nil_l_s, app_nil_r_s.
    + change (String.concat nl (f <$> x :: y :: ys))
        with (f x ++ nl ++ String.concat nl (f <$> y :: ys)).
      destruct Hin as [->|Hin].
      * exists "", (String.concat nl (f <$> y :: ys) ++ nl).
        by rewrite app_nil_l_s, !app_assoc_s.
      * destruct (IH Hin) as (a & b & E). exists (f x ++ nl ++ a), b.
        rewrite !app_assoc_s. rewrite E. by rewrite !app_assoc_s.
Qed.

Lemma read_file_run w path data s :
  files s !! path = Some data ->
  read_file w path s = (log [FileRead path] s, Ok (universal_newlines data)).
Proof. intros H. unfold read_file. by rewrite H. Qed.

Lemma loop_event_mono kept kept' e :
  (forall p, p ∈ kept -> p ∈ kept') -> loop_event kept e -> loop_event kept' e.
Proof. intros Hsub [Hm Hr]. split; [done |]. intros p Hp. by apply Hsub, Hr. Qed.

(** The loop over the paths reads the files the test lets through, in
    order, and appends their blocks. *)
Lemma concat_csv_files_run w paths acc s :
  (forall p, p ∈ paths -> ranking_path p = false -> is_Some (files s !! p)) ->
  exists evs,
    concat_csv_files w paths acc s =
      (log evs s, Ok (acc ++ flat (file_block (files s) <$> kept_paths paths))) /\
    Forall (loop_event (kept_paths paths)) evs.
Proof.
  revert acc s. induction paths as [|p paths IH]; intros acc s Hfs.
  - exists []. rewrite log_nil. cbn. by rewrite app_nil_r_s.
  - unfold kept_paths. cbn [concat_csv_files List.filter].
    fold (ranking_path p). fold (kept_paths paths).
    assert (Hrest : forall q, q ∈ paths -> ranking_path q = false ->
                              is_Some (files s !! q)).
    { intros q Hq. apply Hfs. by apply list_elem_of_further. }
    destruct (ranking_path p) eqn:Hp; cbn [negb].
    + by apply IH.
    + destruct (Hfs p (list_elem_of_here _ _) Hp) as [data Hdata].
      rewrite (bind_run _ _ _ _ _ (print_run _ _)).
      rewrite (bind_run _ _ _ _ _
                 (read_file_run w p data (log _ s) Hdata)).
      cbv zeta. rewrite !log_log.
      match goal with |- context [concat_csv_files w paths ?acc' (log ?evs0 s)] =>
        destruct (IH acc' (log evs0 s) Hrest) as (evs & E & Hevs) end.
      exists ([Print (nl ++ "Processing CSV: " ++ p); FileRead p] ++ evs)%list.
      rewrite E, log_log. split.
      * f_equal. f_equal. cbn [fmap list_fmap]. unfold flat at 2.
        cbn [foldr]. fold (flat (file_block (files s) <$> kept_paths paths)).
        cbn [files log]. unfold file_block at 2, file_rows. rewrite Hdata.
        cbn [from_option id]. by rewrite !app_assoc_s.
      * apply Forall_app. split.
        -- constructor; [split; [done | by intros q] |].
           constructor; [|constructor]. split; [done |].
           intros q [= <-]. apply list_elem_of_here.
        -- eapply Forall_impl; [exact Hevs |]. intros e.
           apply loop_event_mono. intros q. apply list_elem_of_further.
Qed.

Lemma kept_paths_sublist order : sublist (kept_paths order) order.
Proof.
  induction order as [|p order IH]; [constructor |].
  unfold kept_paths. cbn [List.filter]. fold (kept_paths order).
  destruct (negb (ranking_path p)); by constructor.
Qed.

Lemma kept_paths_elem order p :
  p ∈ kept_paths order <-> p ∈ order /\ ranking_path p = false.
Proof.
  unfold kept_paths. rewrite !list_elem_of_In, filter_In.
  by rewrite negb_true_iff.
Qed.

End Ranking.

(** C8, as stated, fails: the name of this roster does not contain the
    substring of the claim, for its letter R is a capital, and the file can
    be read and has rows; yet the only model call carries the shared header
    and no row of the file. *)
Lemma capital_ranking_name_is_skipped :
  Str.contains "ranking" (basename capital_ranking_file) = false /\
  disk demo_world !! capital_ranking_file = Some reply_short_row /\
  "Researcher,find papers" ∈ file_rows reply_short_row /\
  exists prompt,
    List.filter is_model_call
      (trace (fst (rank_crews demo_world [capital_ranking_file] "research"
                     (init_state demo_world)))) = [Invoke prompt] /\
    Str.contains (ranking_header ++ nl) prompt = true /\
    Str.contains "Researcher,find papers" prompt = false.
Proof.
  split; [reflexivity |]. split; [reflexivity |]. split.
  - change (file_rows reply_short_row)
      with [std_header_line; "Researcher,find papers"].
    apply list_elem_of_further, list_elem_of_here.
  - exists (ranking_prompt "research" (shared_header ++ nl)).
    split; [reflexivity |]. split; reflexivity.
Qed.

Lemma invoke_run w prompt s :
  invoke w prompt s =
  (mkState (trace s ++ [Invoke prompt]) (files s) (ticks s)
     (S (invocations s)) (stdin s),
   ollama_invoke w (invocations s) prompt).
Proof. reflexivity. Qed.

(** The header the ranking step starts its text with is the shared header. *)
Lemma shared_header_spec : shared_header = ranking_header.
Proof. reflexivity. Qed.

(** The prompt of the ranking step carries the concatenated text. *)
Lemma ranking_prompt_sends goal text :
  sent_within text (ranking_prompt goal text).
Proof.
  exists ("From a list of crews, you need to provide identify which crew is most likely to successfully complete the task: "
            ++ goal ++ ". " ++
          "Each crew contains agents and tasks. The list of all agents is here: "),
    (". " ++
     "In this list, the information in the filename column is the crew name. " ++
     "I want you to return a CSV with the following columns: crewname, rank, explanation, recommendation. " ++
     "In rank, assign 1 to your preferred crew. In explanation, explain why you assigned this rank to this particular crew. " ++
     "In recommendation, outline changes that would further improve the performance of this crew.").
  unfold ranking_prompt. by rewrite !app_assoc_s.
Qed.

(** C8, amended. The ranking step calls the model once, and the prompt it
    sends holds a text that is the one shared header
    filename,role,goal,backstory,assigned_task,allow_delegation on a line of
    its own followed by the blocks of some of the given paths, in order.  A
    path whose name contains the word ranking, in any letter case, is not
    among them, and its file is not read: before the call only files among
    them are read, and after the call lines are printed and nothing else is
    done.  Every path that contains the word nowhere, in no letter case, is
    among them, and each row of its file stands in the text after the base
    name of the file and a comma, as an extra leading field. *)
Theorem ranking_concatenation (w : World) (paths : list string)
    (goal : string) (s : State) :
  (forall p, p ∈ set_order w paths <-> p ∈ paths) ->
  (forall p, p ∈ paths -> ranking_path p = false -> is_Some (files s !! p)) ->
  exists s' r before after kept prompt,
    rank_crews w paths goal s = (s', r) /\
    trace s' = (trace s ++ before ++ Invoke prompt :: after)%list /\
    sent_within (ranking_text (files s) kept) prompt /\
    Forall (loop_event kept) before /\
    Forall is_print after /\
    sublist kept (set_order w paths) /\
    (forall p, Str.contains "ranking" (Str.lower (basename p)) = true ->
               p ∉ kept) /\
    (forall p data row,
       p ∈ paths -> ranking_path p = false -> files s !! p = Some data ->
       row ∈ file_rows data ->
       p ∈ kept /\
       exists a b,
         ranking_text (files s) kept =
         ranking_header ++ nl ++ a ++ (basename p ++ "," ++ row ++ nl) ++ b).
Proof.
  intros Horder Hfs. unfold rank_crews. cbv zeta.
  rewrite (bind_run _ _ _ _ _ (print_run _ _)).
  destruct (concat_csv_files_run w (set_order w paths) (shared_header ++ nl)
              (log [Print "Invoking Ollama..."] s)) as (evs & E & Hevs).
  { intros p Hp. apply Hfs. by apply Horder. }
  cbn [files log] in E. rewrite app_assoc_s, shared_header_spec in E.
  set (kept := kept_paths (set_order w paths)) in *.
  fold (ranking_text (files s) kept) in E.
  rewrite (bind_run _ _ _ _ _ E).
  rewrite !(bind_run _ _ _ _ _ (print_run _ _)). rewrite !log_log.
  set (text := ranking_text (files s) kept).
  set (before := ([Print "Invoking Ollama..."] ++ evs ++
                  [Print (nl ++ "Concatenated CSV Data:")] ++ [Print text])%list).
  assert (Hbefore : Forall (loop_event kept) before).
  { unfold before. repeat (apply Forall_app; split); try done;
      repeat constructor; done. }
  assert (Htail :
    sublist kept (set_order w paths) /\
    (forall p, Str.contains "ranking" (Str.lower (basename p)) = true ->
               p ∉ kept) /\
    (forall p data row,
       p ∈ paths -> ranking_path p = false -> files s !! p = Some data ->
       row ∈ file_rows data ->
       p ∈ kept /\
       exists a b,
         text = ranking_header ++ nl ++ a ++ (basename p ++ "," ++ row ++ nl) ++ b)).
  { split; [apply kept_paths_sublist |]. split.
    - intros p Hname [_ Hkeep]%kept_paths_elem.
      by rewrite (ranking_name_path p Hname) in Hkeep.
    - intros p data row Hp Hkeep Hdata Hrow.
      assert (Hin : p ∈ kept) by (apply kept_paths_elem; by rewrite Horder).
      split; [exact Hin |]. unfold text, ranking_text.
      destruct (flat_elem (file_block (files s) p) (file_block (files s) <$> kept))
        as (a & b & Eab).
      { apply list_elem_of_fmap. by exists p. }
      rewrite Eab. unfold file_block. rewrite Hdata. cbn [from_option id].
      destruct (join_rows (fun row => basename p ++ "," ++ row) row
                  (file_rows data) Hrow) as (a' & b' & E').
      rewrite E'. exists (a ++ a'), (b' ++ b). by rewrite !app_assoc_s. }
  pose proof (ranking_prompt_sends goal text) as Hsent.
  unfold bind at 1. rewrite invoke_run. cbn [trace files log].
  destruct (ollama_invoke w _ _) as [ranked_crew|e].
  - rewrite !(bind_run _ _ _ _ _ (print_run _ _)). rewrite !log_log.
    eexists _, _, before,
      [Print (nl ++ "Ollama Ranking:"); Print ranked_crew;
       Print (nl ++ "Ollama Critique:"); Print ranked_crew], kept,
      (ranking_prompt goal text).
    split; [reflexivity |]. split.
    + cbn [trace log]. unfold before. by rewrite <- !app_assoc.
    + split; [exact Hsent |]. split; [done |].
      split; [| done]. repeat constructor; by eexists.
  - eexists _, _, before, [], kept, (ranking_prompt goal text).
    split; [reflexivity |]. split.
    + cbn [trace]. unfold before. by rewrite <- !app_assoc.
    + split; [exact Hsent |]. split; [done |]. split; [constructor | done].
Qed.

Lemma ranking_concatenation_witness :
  exists kept prompt a b,
    sent_within (ranking_text (disk demo_world) kept) prompt /\
    ranking_text (disk demo_world) kept =
    ranking_header ++ nl ++ a ++
    ("crewai-autocrew-20240101-115900-research-1.csv" ++ "," ++
     std_header_line ++ nl) ++ b.
Proof.
  destruct (ranking_concatenation demo_world
              ["crewai-autocrew-20240101-115900-research-1.csv";
               capital_ranking_file] "research" (init_state demo_world))
    as (s' & r & before & after & kept & prompt & _ & _ & Hsent & _ & _ & _ & _
        & Hrows).
  - intros p. cbn [set_order demo_world]. apply elem_of_remove_dups.
  - intros p Hp Hkeep. rewrite !elem_of_cons, elem_of_nil in Hp.
    destruct Hp as [->|[->|[]]]; [by eexists | discriminate Hkeep].
  - exists kept, prompt.
    destruct (Hrows "crewai-autocrew-20240101-115900-research-1.csv"
                reply_two_agents std_header_line) as (_ & a & b & E).
    + apply list_elem_of_here.
    + reflexivity.
    + reflexivity.
    + vm_compute. apply list_elem_of_here.
    + exists a, b. split; [exact Hsent | exact E].
Defined.


(** * Further properties of the code *)

(** ** The parser, for any header *)

Section ParserMore.

Lemma parse_line_ok_inv header_line filename line a :
  parse_line (header_indices header_line) filename line = Ok a ->
  good_row header_line line.
Proof.
  intros H. destruct (le_lt_dec (length line) (length header_line)) as [Hle|Hlt].
  - split; [exact Hle |]. destruct (has_role header_line line) eqn:Hr; [done |].
    by rewrite (parse_line_no_role _ filename _ Hle Hr) in H.
  - by rewrite (parse_line_wide _ filename _ Hlt) in H.
Qed.

Lemma parse_lines_ok_inv header_line filename rows recs :
  parse_lines (header_indices header_line) filename rows = Ok recs ->
  Forall (good_row header_line) rows.
Proof.
  revert recs. induction rows as [|row rows IH]; intros recs H; [constructor |].
  cbn [parse_lines] in H.
  destruct (parse_line _ filename row) as [a|] eqn:Ea; [|done].
  cbn [rbind] in H.
  destruct (parse_lines _ filename rows) as [l|] eqn:El; [|done].
  constructor; [by eapply parse_line_ok_inv | by eapply IH].
Qed.

Lemma record_for_unique header_line filename line a b :
  record_for header_line filename line a ->
  record_for header_line filename line b -> a = b.
Proof. intros Ha Hb. apply map_eq. intros k. by rewrite (Ha k), (Hb k). Qed.

Lemma records_for_unique header_line filename rows l1 l2 :
  Forall2 (record_for header_line filename) rows l1 ->
  Forall2 (record_for header_line filename) rows l2 -> l1 = l2.
Proof.
  intros H1. revert l2. induction H1 as [|row a rows l1 Ha _ IH]; intros l2 H2.
  - by inversion H2.
  - inversion H2 as [|? b ? l2' Hb Hrest]; subst. f_equal.
    + by eapply record_for_unique.
    + by apply IH.
Qed.

Lemma row_value_expected header_line line k x :
  row_value header_line line k = Some x -> k ∈ header.
Proof.
  revert line x. induction header_line as [|h hs IH]; intros [|v vs] x; try done.
  cbn [row_value]. destruct (row_value hs vs k) eqn:E; [intros _; by eapply IH |].
  unfold names_column. destruct (bool_decide_reflect (k ∈ header)); done.
Qed.

Lemma rstrip_idem p s : Str.rstrip p (Str.rstrip p s) = Str.rstrip p s.
Proof.
  induction s as [|c s IH]; [done |]. cbn [Str.rstrip].
  destruct (Str.rstrip p s) as [|d r] eqn:E.
  - destruct (p c) eqn:Hc; [done |]. cbn [Str.rstrip]. by rewrite Hc.
  - cbn [Str.rstrip]. cbn [Str.rstrip] in IH.
    destruct (Str.rstrip p r) as [|d' r'] eqn:E'.
    + destruct (p d) eqn:Hd; [done |]. by injection IH as ->.
    + by rewrite IH.
Qed.

Lemma rstrip_head p c s :
  p c = false -> exists r, Str.rstrip p (String c s) = String c r.
Proof.
  intros Hc. cbn [Str.rstrip]. destruct (Str.rstrip p s).
  - rewrite Hc. by eexists.
  - by eexists.
Qed.

Lemma lstrip_head p s :
  Str.lstrip p s = "" \/ exists c r, Str.lstrip p s = String c r /\ p c = false.
Proof.
  induction s as [|c s IH]; [by left |]. cbn [Str.lstrip].
  destruct (p c) eqn:Hc; [exact IH |]. right. by exists c, s.
Qed.

(** Stripping a character set twice is stripping it once. *)
Lemma strip_chars_idem p s :
  Str.strip_chars p (Str.strip_chars p s) = Str.strip_chars p s.
Proof.
  unfold Str.strip_chars. destruct (lstrip_head p s) as [->|(c & r & -> & Hc)];
    [done |].
  destruct (rstrip_head p c r Hc) as [r' E]. rewrite E.
  cbn [Str.lstrip]. rewrite Hc, <- E. apply rstrip_idem.
Qed.

Lemma row_value_unquoted header_line line k x :
  row_value header_line line k = Some x -> unquote x = x.
Proof.
  revert line x. induction header_line as [|h hs IH]; intros [|v vs] x; try done.
  cbn [row_value]. destruct (row_value hs vs k) eqn:E.
  - intros [= <-]. by eapply IH.
  - destruct (names_column h k); [|done]. intros [= <-].
    apply strip_chars_idem.
Qed.

End ParserMore.

(** X1. [parse_csv_data] returns records exactly when the reader yields a
    header row and every data row is no wider than the header and supplies a
    role that is not empty; the records are then those of the rows, one for
    one and in order.  In particular a reply without any row, not even a
    header, does not return. *)
Theorem parse_returns_iff response delimiter filename recs :
  parse_csv_data response delimiter filename = Ok recs <->
  exists header_line rows,
    csv.reader response delimiter = Ok (header_line :: rows) /\
    Forall (good_row header_line) rows /\
    Forall2 (record_for header_line filename) rows recs.
Proof.
  split.
  - unfold parse_csv_data. intros H.
    destruct (csv.reader response delimiter) as [[|hl rows]|]; try done.
    cbn in H. exists hl, rows. split; [done |].
    pose proof (parse_lines_ok_inv _ _ _ _ H) as Hgood. split; [exact Hgood |].
    destruct (parse_lines_ok hl filename rows Hgood) as (recs' & E & HF).
    rewrite H in E. by injection E as <-.
  - intros (hl & rows & Hread & Hgood & HF).
    rewrite (parse_csv_data_rows _ _ _ _ _ Hread).
    destruct (parse_lines_ok hl filename rows Hgood) as (recs' & E & HF').
    rewrite E. f_equal. by eapply records_for_unique.
Qed.

(** X2. Whatever the reply, every record that [parse_csv_data] returns holds
    the file name it was given under [filename] (a column of that name in
    the reply is overwritten), holds a role that is not empty, has no key
    besides the six expected names, and its values read from the reply
    neither start nor end with a double quote: stripping them again changes
    nothing. *)
Theorem parsed_records_invariant response delimiter filename recs :
  parse_csv_data response delimiter filename = Ok recs ->
  Forall (fun rec =>
            rec !! "filename" = Some filename /\
            (exists r, rec !! "role" = Some r /\ r <> "") /\
            (forall k, is_Some (rec !! k) -> k ∈ header) /\
            (forall k v, k <> "filename" -> rec !! k = Some v -> unquote v = v))
         recs.
Proof.
  intros H. unfold parse_csv_data in H.
  destruct (csv.reader response delimiter) as [[|hl rows]|]; try done.
  cbn in H. pose proof (parse_lines_ok_inv _ _ _ _ H) as Hgood.
  destruct (parse_lines_ok hl filename rows Hgood) as (recs' & E & HF).
  rewrite H in E. injection E as <-.
  clear H. induction HF as [|row rec rows recs Hrec _ IH]; [constructor |].
  inversion Hgood as [|? ? [_ Hrole] Hrest]; subst.
  constructor; [|by apply IH]. repeat split.
  - by rewrite (Hrec "filename").
  - unfold has_role in Hrole. rewrite (Hrec "role"). cbn.
    destruct (row_value hl row "role") as [r|]; [|done].
    exists r. split; [done |]. by destruct r.
  - intros k [v Hv]. rewrite (Hrec k) in Hv. case_decide as Hk.
    + subst k. unfold header. apply list_elem_of_here.
    + by eapply row_value_expected.
  - intros k v Hk Hv. rewrite (Hrec k), decide_False in Hv by done.
    by eapply row_value_unquoted.
Qed.

Lemma parsed_records_invariant_witness :
  exists recs,
    parse_csv_data reply_two_agents "," "crew.csv" = Ok recs /\
    Forall (fun rec => rec !! "filename" = Some "crew.csv") recs.
Proof.
  destruct (parse_lines_ok std_header "crew.csv"
              [["Researcher"; "find papers"; "veteran analyst"; "scan arxiv";
                "True"];
               ["Writer"; "summarise"; "former editor"; "draft report";
                "False"]]) as (recs & E & _).
  { repeat constructor; cbn; lia. }
  assert (R : csv.reader reply_two_agents "," =
              Ok [std_header;
                  ["Researcher"; "find papers"; "veteran analyst"; "scan arxiv";
                   "True"];
                  ["Writer"; "summarise"; "former editor"; "draft report";
                   "False"]]) by reflexivity.
  rewrite <- (parse_csv_data_rows _ _ "crew.csv" _ _ R) in E.
  exists recs. split; [exact E |].
  eapply Forall_impl; [exact (parsed_records_invariant _ _ _ _ E) |].
  intros rec H. exact (proj1 H).
Defined.

Lemma row_value_delete header_line line k i h :
  header_line !! i = Some h -> Str.lower h ∉ header ->
  row_value (delete i header_line) (delete i line) k =
  row_value header_line line k.
Proof.
  intros Hi Hh. revert header_line line Hi.
  induction i as [|i IH]; intros [|h0 hs] [|v vs] Hi; try done.
  - injection Hi as ->. cbn [delete list_delete row_value]. by destruct hs.
  - injection Hi as ->. cbn [delete list_delete row_value].
    unfold names_column.
    destruct (String.eqb_spec (Str.lower h) k) as [E|_].
    + rewrite E in Hh. rewrite (bool_decide_eq_false_2 _ Hh).
      by destruct (row_value hs vs k).
    + rewrite andb_false_r. by destruct (row_value hs vs k).
  - change (row_value (h0 :: delete i hs) (v :: delete i vs) k =
            row_value (h0 :: hs) (v :: vs) k).
    cbn [row_value]. by rewrite (IH hs vs Hi).
Qed.

Lemma has_role_delete header_line line i h :
  header_line !! i = Some h -> Str.lower h ∉ header ->
  has_role (delete i header_line) (delete i line) = has_role header_line line.
Proof. intros Hi Hh. unfold has_role. by rewrite (row_value_delete _ _ _ i h). Qed.

Lemma delete_beyond {A} (l : list A) i : length l <= i -> delete i l = l.
Proof.
  intros H. rewrite delete_take_drop, take_ge, drop_ge by lia.
  apply app_nil_r.
Qed.

Lemma delete_fits {A B} (l : list A) (m : list B) i :
  i < length m ->
  (length l <= length m <-> length (delete i l) <= length (delete i m)).
Proof.
  intros Hi. rewrite (length_delete m i) by by apply lookup_lt_is_Some.
  destruct (le_lt_dec (length l) i) as [Hl|Hl].
  - rewrite (delete_beyond l i) by done. lia.
  - rewrite (length_delete l i) by by apply lookup_lt_is_Some. lia.
Qed.

Lemma parse_line_delete header_line filename line i h :
  header_line !! i = Some h -> Str.lower h ∉ header ->
  parse_line (header_indices (delete i header_line)) filename (delete i line) =
  parse_line (header_indices header_line) filename line.
Proof.
  intros Hi Hh.
  assert (Hlt : i < length header_line) by by eapply lookup_lt_Some.
  pose proof (delete_fits line header_line i Hlt) as Hfit.
  destruct (le_lt_dec (length line) (length header_line)) as [Hle|Hwide].
  - pose proof (proj1 Hfit Hle) as Hle'.
    destruct (has_role header_line line) eqn:Hr.
    + destruct (parse_line_role _ filename _ Hle Hr) as (a & -> & Ha).
      destruct (parse_line_role (delete i header_line) filename (delete i line))
        as (b & -> & Hb); [done | by rewrite (has_role_delete _ _ i h) |].
      f_equal. apply map_eq. intros k.
      by rewrite (Ha k), (Hb k), (row_value_delete _ _ _ i h).
    + rewrite (parse_line_no_role _ filename _ Hle Hr).
      apply parse_line_no_role; [done | by rewrite (has_role_delete _ _ i h)].
  - rewrite (parse_line_wide _ filename _ Hwide).
    apply parse_line_wide. destruct Hfit as [_ Hfit].
    destruct (le_lt_dec (length (delete i line))
                (length (delete i header_line))) as [H|H]; [|done].
    specialize (Hfit H). lia.
Qed.

(** X3. A header cell that names none of the expected columns is ignored:
    taking that column out of the header and out of every row leaves the
    outcome of the parse, records or error, as it was. *)
Theorem unknown_column_ignored header_line filename rows i h :
  header_line !! i = Some h -> Str.lower h ∉ header ->
  parse_lines (header_indices (delete i header_line)) filename
    (delete i <$> rows) =
  parse_lines (header_indices header_line) filename rows.
Proof.
  intros Hi Hh. induction rows as [|row rows IH]; [done |].
  rewrite fmap_cons. cbn [parse_lines].
  by rewrite (parse_line_delete _ _ _ i h), IH.
Qed.

Lemma unknown_column_ignored_witness :
  parse_lines (header_indices ["role"; "goal"]) "crew.csv"
    [["Researcher"; "find papers"]] =
  parse_lines (header_indices ["role"; "salary"; "goal"]) "crew.csv"
    [["Researcher"; "high"; "find papers"]].
Proof.
  apply (unknown_column_ignored ["role"; "salary"; "goal"] "crew.csv"
           [["Researcher"; "high"; "find papers"]] 1 "salary").
  - reflexivity.
  - vm_compute. intros H. repeat (inversion H as [|? ? ? H']; clear H; rename H' into H).
Defined.

(** ** Identifiers *)

Section Identifiers.

Lemma prefix_empty s : String.prefix "" s = true.
Proof. by destruct s. Qed.

Lemma contains_char_nil c : Str.contains (String c "") "" = false.
Proof. reflexivity. Qed.

Lemma contains_char_cons c d s :
  Str.contains (String c "") (String d s) =
  Ascii.eqb d c || Str.contains (String c "") s.
Proof.
  cbn [Str.contains String.prefix]. rewrite prefix_empty.
  destruct (ascii_dec c d) as [->|Hne].
  - by rewrite Ascii.eqb_refl.
  - destruct (Ascii.eqb_spec d c) as [->|]; done.
Qed.

Lemma contains_char_app c s t :
  Str.contains (String c "") (s ++ t) =
  Str.contains (String c "") s || Str.contains (String c "") t.
Proof.
  induction s as [|d s IH]; [done |].
  rewrite app_cons, !contains_char_cons, IH. by rewrite orb_assoc.
Qed.

Lemma derive_no_char c s :
  (forall d, derive_char d <> c) -> Str.contains (String c "") (derive s) = false.
Proof.
  intros Hc. induction s as [|d s IH]; [done |]. unfold derive in *.
  cbn [Str.map]. rewrite contains_char_cons, IH.
  destruct (Ascii.eqb_spec (derive_char d) c) as [E|]; [by destruct (Hc d) | done].
Qed.

Lemma derive_char_not c :
  (c = " " \/ c = "-" \/ c = ".")%char -> forall d, derive_char d <> c.
Proof.
  intros Hc d. unfold derive_char.
  destruct (Ascii.eqb_spec d " ") as [->|H1]; cbn [orb].
  { destruct Hc as [-> | [-> | ->]]; discriminate. }
  destruct (Ascii.eqb_spec d "-") as [->|H2]; cbn [orb].
  { destruct Hc as [-> | [-> | ->]]; discriminate. }
  destruct (Ascii.eqb_spec d ".") as [->|H3]; cbn [orb].
  { destruct Hc as [-> | [-> | ->]]; discriminate. }
  destruct Hc as [-> | [-> | ->]]; done.
Qed.

Lemma derive_fixed s :
  derive s = s <->
  Str.contains " " s = false /\ Str.contains "-" s = false /\
  Str.contains "." s = false.
Proof.
  induction s as [|d s IH]; [done |]. unfold derive in *. cbn [Str.map].
  rewrite !contains_char_cons, !orb_false_iff. unfold derive_char at 1.
  destruct (Ascii.eqb_spec d " ") as [->|H1]; cbn [orb].
  { split; [discriminate |]. intros (Ha & Hb & Hc). by destruct Ha. }
  destruct (Ascii.eqb_spec d "-") as [->|H2]; cbn [orb].
  { split; [discriminate |]. intros (Ha & Hb & Hc). by destruct Hb. }
  destruct (Ascii.eqb_spec d ".") as [->|H3]; cbn [orb].
  { split; [discriminate |]. intros (Ha & Hb & Hc). by destruct Hc. }
  split.
  - intros E. injection E as E. apply IH in E as (Ea & Eb & Ec). by repeat split.
  - intros (Ha & Hb & Hc). destruct Ha as [_ Ha], Hb as [_ Hb], Hc as [_ Hc].
    f_equal. by apply IH.
Qed.

Lemma map_length f s : String.length (Str.map f s) = String.length s.
Proof. induction s as [|c s IH]; [done |]. cbn. by rewrite IH. Qed.

End Identifiers.

(** X4. The variable name made from a role has the length of the role and
    contains no space, no hyphen and no period; it is the role itself
    exactly when the role contains none of the three. *)
Theorem derived_name_shape (s : string) :
  String.length (role_var s) = String.length s /\
  Str.contains " " (role_var s) = false /\
  Str.contains "-" (role_var s) = false /\
  Str.contains "." (role_var s) = false /\
  (role_var s = s <->
   Str.contains " " s = false /\ Str.contains "-" s = false /\
   Str.contains "." s = false).
Proof.
  unfold role_var. rewrite replace_chain_derive.
  split; [apply map_length |].
  split; [apply derive_no_char, derive_char_not; auto |].
  split; [apply derive_no_char, derive_char_not; auto |].
  split; [apply derive_no_char, derive_char_not; auto |].
  apply derive_fixed.
Qed.

(** X5. The derivation does not tell the separators apart: a role in which
    every occurrence of a space, hyphen, period or underscore is replaced by
    another of these four gets the same agent variable and the same task
    variable, so two such roles in one roster define the same names twice. *)
Theorem separators_collide (s : string) (a b : ascii) :
  is_separator a = true -> is_separator b = true ->
  role_var (Str.replace a (String b "") s) = role_var s /\
  get_task_var_name (Str.replace a (String b "") s) = get_task_var_name s.
Proof.
  unfold is_separator. intros Ha%Ascii.eqb_eq Hb%Ascii.eqb_eq.
  assert (E : derive (Str.replace a (String b "") s) = derive s).
  { rewrite replace_one. unfold derive. rewrite map_map. apply map_ext.
    intros c. destruct (Ascii.eqb_spec c a) as [->|]; [by rewrite Ha, Hb | done]. }
  unfold role_var, get_task_var_name. by rewrite !replace_chain_derive, E.
Qed.

Lemma separators_collide_witness :
  role_var "Data-Analyst" = role_var "Data Analyst" /\
  get_task_var_name "Data-Analyst" = get_task_var_name "Data Analyst".
Proof.
  exact (separators_collide "Data Analyst" " " "-" eq_refl eq_refl).
Defined.

(** ** The emitter on records it cannot render *)

Section EmitterErrors.

Lemma record_std_lookup filename row rec j k :
  record_for std_header filename row rec ->
  std_header !! j = Some k ->
  rec !! k = unquote <$> row !! j.
Proof.
  intros Hrec Hk. rewrite (Hrec k), <- (row_value_std row j k Hk).
  do 5 (destruct j as [|j]; [by injection Hk as <- |]). done.
Qed.

Lemma bind_raise {A B} (c : M A) (k : A -> M B) s s1 e :
  c s = (s1, Raise e) -> bind c k s = (s1, Raise e).
Proof. intros E. unfold bind. by rewrite E. Qed.

Lemma file_write_some path data c s :
  files s !! path = Some c ->
  exists s', file_write path data s = (s', Ok tt) /\
             files s' !! path = Some (c ++ data).
Proof.
  intros Hc. destruct (file_write_run path data s) as (s' & E & F).
  exists s'. split; [exact E |]. by rewrite F, Hc.
Qed.

Lemma write_each_fail path f g pre a post e c s :
  Forall (fun x => f x = Ok (g x)) pre ->
  f a = Raise e ->
  files s !! path = Some c ->
  exists s',
    write_each path f (pre ++ a :: post)%list s = (s', Raise e) /\
    files s' !! path = Some (c ++ flat ((fun x => g x ++ nl) <$> pre)).
Proof.
  intros Hpre Ha. revert c s. induction Hpre as [|x pre Hx _ IH]; intros c s Hc.
  - cbn [app write_each].
    exists s. rewrite (bind_raise _ _ s s e) by (unfold lift; by rewrite Ha).
    split; [done |]. cbn. by rewrite app_nil_r_s.
  - cbn [app write_each].
    rewrite (bind_run _ _ s s (g x)) by (unfold lift; by rewrite Hx).
    destruct (file_write_some path (g x) c s Hc) as (s1 & E1 & F1).
    rewrite (bind_run _ _ _ _ _ E1).
    destruct (file_write_some path nl _ s1 F1) as (s2 & E2 & F2).
    rewrite (bind_run _ _ _ _ _ E2).
    destruct (IH _ s2 F2) as (s3 & E3 & F3). exists s3. split; [exact E3 |].
    rewrite F3. unfold flat. cbn [fmap list_fmap foldr].
    by rewrite !app_assoc_s.
Qed.

Lemma list_comp_raise_inv {A B} (f : A -> result B) l e :
  list_comp f l = Raise e -> exists a, a ∈ l /\ f a = Raise e.
Proof.
  induction l as [|a l IH]; [done |]. cbn [list_comp].
  destruct (f a) as [b|e'] eqn:Ea.
  - cbn [rbind]. destruct (list_comp f l) as [bs|e'']; [done |].
    intros [= ->]. destruct (IH eq_refl) as (x & Hx & Ex).
    exists x. split; [by apply list_elem_of_further | done].
  - intros [= ->]. exists a. split; [apply list_elem_of_here | done].
Qed.

Lemma list_comp_ok_inv {A B} (f : A -> result B) l bs :
  list_comp f l = Ok bs -> Forall (fun a => exists b, f a = Ok b) l.
Proof.
  revert bs. induction l as [|a l IH]; intros bs; [constructor |].
  cbn [list_comp]. destruct (f a) as [b|] eqn:Ea; [|done]. cbn [rbind].
  destruct (list_comp f l) as [bs'|] eqn:El; [|done]. intros _.
  constructor; [by exists b | by eapply IH].
Qed.

End EmitterErrors.

(** X6. Under the standard header a data row with fewer than five fields
    passes the parser, yet [define_agent] raises a key error on its record:
    for backstory when the row has at most two fields, for allow_delegation
    otherwise; and [define_task] raises the key error for assigned_task
    when the row has at most three fields. *)
Theorem short_row_breaks_emitter response delimiter filename rows recs i row tool :
  csv.reader response delimiter = Ok (std_header :: rows) ->
  parse_csv_data response delimiter filename = Ok recs ->
  rows !! i = Some row ->
  length row < 5 ->
  exists rec,
    recs !! i = Some rec /\
    define_agent rec tool =
      Raise (KeyError (if (length row <=? 2)%nat then "backstory"
                       else "allow_delegation")) /\
    (length row <= 3 -> define_task rec = Raise (KeyError "assigned_task")).
Proof.
  intros Hread Hparse Hrow Hlen.
  rewrite (parse_csv_data_rows _ _ _ _ _ Hread) in Hparse.
  pose proof (parse_lines_ok_inv _ _ _ _ Hparse) as Hgood.
  destruct (parse_lines_ok std_header filename rows Hgood) as (recs' & E & HF).
  rewrite Hparse in E. injection E as <-.
  destruct (Forall2_lookup_l _ _ _ _ _ HF Hrow) as (rec & Hrec & Hfor).
  exists rec. split; [exact Hrec |].
  destruct (proj1 (Forall_lookup _ _) Hgood i row Hrow) as [_ Hrole].
  unfold has_role in Hrole.
  rewrite (row_value_std row 0 "role" eq_refl) in Hrole.
  pose proof (record_std_lookup _ _ _ 0 "role" Hfor eq_refl) as H0.
  pose proof (record_std_lookup _ _ _ 1 "goal" Hfor eq_refl) as H1.
  pose proof (record_std_lookup _ _ _ 2 "backstory" Hfor eq_refl) as H2.
  pose proof (record_std_lookup _ _ _ 3 "assigned_task" Hfor eq_refl) as H3.
  pose proof (record_std_lookup _ _ _ 4 "allow_delegation" Hfor eq_refl) as H4.
  unfold define_agent, define_task, getitem.
  destruct row as [|a [|b [|c [|d [|e r]]]]]; cbn in Hlen, Hrole; try lia;
    try done; cbn in H0, H1, H2, H3, H4; rewrite ?H0, ?H1, ?H2, ?H3, ?H4;
    cbn [rbind]; (split; [reflexivity |]); intros Hle; cbn in Hle;
    try reflexivity; lia.
Qed.

Lemma short_row_breaks_emitter_witness :
  exists recs rec,
    parse_csv_data reply_short_row "," "crew.csv" = Ok recs /\
    recs !! 0 = Some rec /\
    define_agent rec "search_tool" = Raise (KeyError "backstory").
Proof.
  assert (R : csv.reader reply_short_row "," =
              Ok [std_header; ["Researcher"; "find papers"]]) by reflexivity.
  destruct (parse_lines_ok std_header "crew.csv"
              [["Researcher"; "find papers"]]) as (recs & E & _).
  { repeat constructor; cbn; lia. }
  rewrite <- (parse_csv_data_rows _ _ "crew.csv" _ _ R) in E.
  destruct (short_row_breaks_emitter reply_short_row "," "crew.csv"
              [["Researcher"; "find papers"]] recs 0
              ["Researcher"; "find papers"] "search_tool" R E eq_refl)
    as (rec & Hrec & Hagent & _).
  - cbn; lia.
  - exists recs, rec. split; [exact E |]. split; [exact Hrec | exact Hagent].
Defined.

(** X7. [write_crewai_script] fails before it touches anything when a record
    has no role or the path cannot be opened for writing: it raises the key
    error for role, or the error of the failed open, and the state (files
    and trace) is as before; an existing file at the path keeps its
    content. *)
Theorem emitter_fails_before_opening (w : World)
    (agents_data : list (gmap string string)) (crew_tasks file_name : string)
    (s : State) :
  Exists (fun a => a !! "role" = None) agents_data \/
    writable w file_name = false ->
  exists e,
    write_crewai_script w agents_data crew_tasks file_name s = (s, Raise e) /\
    (e = KeyError "role" \/ e = OSError (strerror w file_name)).
Proof.
  intros H. unfold write_crewai_script.
  match goal with |- context [lift (list_comp ?f agents_data)] =>
    destruct (list_comp f agents_data) as [names|e] eqn:El end.
  - rewrite (bind_run _ _ s s names) by done.
    apply list_comp_ok_inv in El. destruct H as [Hex|Hw].
    + apply Exists_exists in Hex as (a & Ha & Hnone).
      rewrite Forall_forall in El. destruct (El a Ha) as [b Hb].
      unfold getitem in Hb. by rewrite Hnone in Hb.
    + exists (OSError (strerror w file_name)). split; [|by right].
      apply bind_raise. unfold open_w. by rewrite Hw.
  - exists e. split.
    + by apply bind_raise.
    + left. apply list_comp_raise_inv in El as (a & _ & Ea).
      unfold getitem in Ea. destruct (a !! "role"); [done |].
      by injection Ea as <-.
Qed.

Lemma emitter_fails_before_opening_witness :
  exists e,
    write_crewai_script demo_world [{[ "goal" := "ship" ]}] "" "crew.py"
      (init_state demo_world) = (init_state demo_world, Raise e).
Proof.
  destruct (emitter_fails_before_opening demo_world [{[ "goal" := "ship" ]}]
              "" "crew.py" (init_state demo_world)) as (e & He & _).
  - left. constructor. reflexivity.
  - exists e. exact He.
Defined.

(** X8. When every record has a role and the path can be written but
    [define_agent] raises on some record, [write_crewai_script] raises the
    same error and leaves a truncated script behind: the file holds the
    preamble and the agent constructions of the records before the failing
    one, and neither a task nor the crew. *)
Theorem failed_emission_leaves_partial_script (w : World)
    (pre post : list (gmap string string)) (a : gmap string string)
    (crew_tasks file_name : string) (e : exn) (s : State) :
  Forall (fun x => is_Some (x !! "role")) (pre ++ a :: post)%list ->
  writable w file_name = true ->
  Forall complete pre ->
  define_agent a "search_tool" = Raise e ->
  exists s',
    write_crewai_script w (pre ++ a :: post)%list crew_tasks file_name s
      = (s', Raise e) /\
    files s' !! file_name = Some (partial_script pre).
Proof.
  intros Hrole Hw Hpre Ha. unfold write_crewai_script.
  rewrite (list_comp_map _ agent_var); cycle 1.
  { eapply Forall_impl; [exact Hrole |]. intros x Hx.
    rewrite getitem_complete by done. cbn [rbind].
    by rewrite replace_chain_derive. }
  rewrite (bind_run _ _ s s (agent_var <$> (pre ++ a :: post)%list)) by done.
  rewrite (bind_run _ _ s _ tt) by (unfold open_w; by rewrite Hw).
  match goal with |- context [bind (file_write file_name script_preamble) _ ?s0] =>
    destruct (file_write_some file_name script_preamble "" s0) as (s1 & E1 & F1) end.
  { cbn [files]. apply lookup_insert_eq. }
  rewrite (bind_run _ _ _ _ _ E1).
  destruct (write_each_fail file_name
              (fun agent => define_agent agent "search_tool") agent_block
              pre a post e ("" ++ script_preamble) s1)
    as (s2 & E2 & F2); [|exact Ha | exact F1 |].
  { eapply Forall_impl; [exact Hpre |]. intros x Hx. by apply define_agent_text. }
  exists s2. split; [by apply bind_raise |].
  rewrite F2. unfold partial_script. by rewrite app_nil_l_s.
Qed.

Lemma failed_emission_leaves_partial_script_witness :
  exists s',
    write_crewai_script demo_world
      [quoting_agent; {[ "role" := "Scout"; "goal" := "look" ]}]
      "task_Dev, task_Scout" "crew.py" (init_state demo_world)
      = (s', Raise (KeyError "backstory")) /\
    files s' !! "crew.py" = Some (partial_script [quoting_agent]).
Proof.
  apply (failed_emission_leaves_partial_script demo_world [quoting_agent] []
           {[ "role" := "Scout"; "goal" := "look" ]}).
  - repeat constructor; by eexists.
  - reflexivity.
  - constructor; [exact quoting_agent_complete | constructor].
  - reflexivity.
Defined.

(** ** The prompt and the saved roster *)

Section PromptAndRoster.

Lemma prefix_app n b : String.prefix n (n ++ b) = true.
Proof.
  induction n as [|c n IH]; [apply prefix_empty |].
  rewrite app_cons. cbn [String.prefix]. by destruct (ascii_dec c c).
Qed.

Lemma contains_here n b : Str.contains n (n ++ b) = true.
Proof.
  destruct (n ++ b) eqn:E; cbn [Str.contains]; rewrite <- E, prefix_app; done.
Qed.

Lemma contains_middle n a b : Str.contains n (a ++ n ++ b) = true.
Proof. apply contains_app_r, contains_here. Qed.

Lemma prefix_inv n s : String.prefix n s = true -> exists b, s = n ++ b.
Proof.
  revert n. induction s as [|d s IH]; intros [|c n]; try done.
  - by exists "".
  - by exists (String d s).
  - cbn [String.prefix]. destruct (ascii_dec c d) as [->|]; [|done].
    intros H. destruct (IH n H) as [b ->]. by exists b.
Qed.

Lemma contains_inv n s :
  Str.contains n s = true -> exists a b, s = a ++ n ++ b.
Proof.
  induction s as [|d s IH]; cbn [Str.contains].
  - rewrite orb_false_r. intros H. destruct (prefix_inv n "" H) as [b E].
    by exists "", b.
  - intros [H|H]%orb_true_iff.
    + destruct (prefix_inv n _ H) as [b E]. by exists "", b.
    + destruct (IH H) as (a & b & ->). by exists (String d a), b.
Qed.

Lemma map_no_char f c s :
  (forall d, f d <> c) -> Str.contains (String c "") (Str.map f s) = false.
Proof.
  intros Hc. induction s as [|d s IH]; [done |].
  cbn [Str.map]. rewrite contains_char_cons, IH.
  destruct (Ascii.eqb_spec (f d) c) as [E|]; [by destruct (Hc d) | done].
Qed.

Lemma replace_absent old new s :
  Str.contains (String old "") s = false -> Str.replace old new s = s.
Proof.
  induction s as [|d s IH]; [done |]. rewrite contains_char_cons.
  intros [Hd Hs]%orb_false_iff. cbn [Str.replace]. by rewrite Hd, IH.
Qed.

Lemma take_all n s : String.length s <= n -> Str.take n s = s.
Proof.
  unfold Str.take. revert n. induction s as [|c s IH]; intros [|n] H; try done.
  - cbn in H. lia.
  - cbn in H. cbn [String.substring]. rewrite IH; [done | lia].
Qed.

Lemma rev_acc_spec acc s : Str.rev_acc acc s = Str.rev s ++ acc.
Proof.
  unfold Str.rev. revert acc. induction s as [|c s IH]; intros acc; [done |].
  cbn [Str.rev_acc]. rewrite (IH (String c acc)), (IH (String c "")).
  by rewrite app_assoc_s.
Qed.

Lemma rev_app s t : Str.rev (s ++ t) = Str.rev t ++ Str.rev s.
Proof.
  induction s as [|c s IH]; [by rewrite app_nil_r_s |].
  rewrite app_cons. unfold Str.rev at 1 3. cbn [Str.rev_acc].
  rewrite !rev_acc_spec, IH. by rewrite app_assoc_s.
Qed.

Lemma endswith_app p s : Str.endswith p (s ++ p) = true.
Proof. unfold Str.endswith. rewrite rev_app. apply prefix_app. Qed.

Lemma digits_no_space d :
  Str.contains " " (NilEmpty.string_of_uint d) = false.
Proof.
  induction d; cbn [NilEmpty.string_of_uint]; [done | ..];
    by rewrite contains_char_cons, IHd.
Qed.

Lemma str_of_nat_no_space n : Str.contains " " (str_of_nat n) = false.
Proof.
  unfold str_of_nat, NilZero.string_of_uint.
  destruct (Nat.to_uint n) eqn:E; [done | ..]; rewrite <- E; apply digits_no_space.
Qed.

End PromptAndRoster.

Lemma get_agent_data_plain (w : World) (goal : string)
    (delimiter : ascii) (s : State) :
  Str.contains "{" goal = false -> Str.contains "}" goal = false ->
  delimiter <> "{"%char -> delimiter <> "}"%char ->
  exists prompt,
    get_agent_data w goal delimiter s =
      (invoked prompt s, ollama_invoke w (invocations s) prompt) /\
    Str.contains (dq ++ goal ++ dq) prompt = true.
Proof.
  intros Hg1 Hg2 Hd1 Hd2. unfold get_agent_data. cbv zeta.
  match goal with |- context [format_instruction w ?t] => set (instruction := t) end.
  assert (Hfmt : format_instruction w instruction = Ok instruction).
  { assert (Hb : Str.contains "{" instruction || Str.contains "}" instruction
                 = false).
    { unfold instruction. rewrite !contains_char_app, Hg1, Hg2.
      rewrite (contains_char_cons "{" delimiter ""),
        (contains_char_cons "}" delimiter "").
      destruct (Ascii.eqb_spec delimiter "{") as [|_]; [done |].
      destruct (Ascii.eqb_spec delimiter "}") as [|_]; [done |].
      vm_compute. reflexivity. }
    unfold format_instruction. by rewrite Hb. }
  exists instruction.
  rewrite (bind_run _ _ s s instruction) by (unfold lift; by rewrite Hfmt).
  split.
  - unfold bind. rewrite invoke_run. fold (invoked instruction s).
    by destruct (ollama_invoke w (invocations s) instruction).
  - unfold instruction.
    match goal with |- Str.contains _ (?l ++ dq ++ goal ++ dq ++ ?r) = true =>
      replace (l ++ dq ++ goal ++ dq ++ r) with (l ++ (dq ++ goal ++ dq) ++ r)
        by (by rewrite !app_assoc_s) end.
    apply contains_middle.
Qed.

(** X9. For a goal and a delimiter without braces [get_agent_data] calls
    the model exactly once, with a prompt that holds the goal between double
    quotes, and hands back what the model gave: its reply unchanged, or its
    exception.  Nothing else happens: the files, the clock and the input are
    as before. *)
Theorem agent_prompt_carries_goal (w : World) (goal : string)
    (delimiter : ascii) (s : State) :
  Str.contains "{" goal = false -> Str.contains "}" goal = false ->
  delimiter <> "{"%char -> delimiter <> "}"%char ->
  exists prompt,
    get_agent_data w goal delimiter s =
      (invoked prompt s, ollama_invoke w (invocations s) prompt) /\
    Str.contains (dq ++ goal ++ dq) prompt = true.
Proof. apply get_agent_data_plain. Qed.

Lemma agent_prompt_carries_goal_witness :
  exists prompt,
    get_agent_data demo_world "research AI safety" "," (init_state demo_world) =
      (invoked prompt (init_state demo_world), Ok reply_two_agents).
Proof.
  destruct (agent_prompt_carries_goal demo_world "research AI safety" ","
              (init_state demo_world)) as (prompt & H & _);
    [reflexivity | reflexivity | discriminate | discriminate |].
  exists prompt. exact H.
Defined.

(** X10. A goal with a brace puts the instruction at the mercy of
    [str.format]: [get_agent_data] passes a text that contains the goal to
    it, and when [str.format] raises, that exception is raised with no call
    to the model and no change of state; when it returns, the model is
    called once with the text it returned. *)
Theorem braces_reach_str_format (w : World) (goal : string)
    (delimiter : ascii) (s : State) :
  Str.contains "{" goal = true \/ Str.contains "}" goal = true ->
  exists text,
    Str.contains goal text = true /\
    match str_format w text with
    | Raise e => get_agent_data w goal delimiter s = (s, Raise e)
    | Ok prompt =>
        get_agent_data w goal delimiter s =
          (invoked prompt s, ollama_invoke w (invocations s) prompt)
    end.
Proof.
  intros Hg. unfold get_agent_data. cbv zeta.
  match goal with |- context [format_instruction w ?t] => set (instruction := t) end.
  exists instruction. split.
  { unfold instruction.
    match goal with |- Str.contains _ (?l ++ dq ++ goal ++ ?r) = true =>
      replace (l ++ dq ++ goal ++ r) with ((l ++ dq) ++ goal ++ r)
        by (by rewrite !app_assoc_s) end.
    apply contains_middle. }
  assert (Hfmt : format_instruction w instruction = str_format w instruction).
  { unfold format_instruction.
    assert (Str.contains "{" instruction || Str.contains "}" instruction = true)
      as ->; [|done].
    unfold instruction. rewrite !contains_char_app.
    destruct Hg as [-> | ->]; by rewrite ?orb_true_r. }
  destruct (str_format w instruction) as [prompt|e] eqn:Ef.
  - rewrite (bind_run _ _ s s prompt) by (unfold lift; by rewrite Hfmt).
    unfold bind. rewrite invoke_run. fold (invoked prompt s).
    by destruct (ollama_invoke w (invocations s) prompt).
  - apply bind_raise. unfold lift. by rewrite Hfmt.
Qed.

Lemma braces_reach_str_format_witness :
  get_agent_data demo_world "plan {goal}" "," (init_state demo_world) =
    (init_state demo_world, Raise (KeyError "goal")).
Proof.
  destruct (braces_reach_str_format demo_world "plan {goal}" ","
              (init_state demo_world)) as (text & _ & H);
    [left; reflexivity |].
  exact H.
Defined.

(** X11. When the path can be opened, [save_csv_output] reads the clock
    once, stores the reply unchanged under the path made of the working
    directory and the roster name, replacing what was there, leaves every
    other file alone and returns that path; reading the file back gives the
    reply with its line ends normalised. *)
Theorem saved_roster_round_trip (w : World) (response goal : string)
    (index : nat) (s : State) :
  let path :=
    path_join (getcwd w) (csv_file_name (strftime_now w (ticks s)) goal index) in
  writable w path = true ->
  exists s',
    save_csv_output w response goal index s = (s', Ok path) /\
    files s' = <[path := response]> (files s) /\
    ticks s' = S (ticks s) /\
    trace s' = (trace s ++ [FileCreate path; FileWrite path response])%list /\
    snd (read_file w path s') = Ok (universal_newlines response).
Proof.
  intros path Hw. unfold save_csv_output.
  unfold bind at 1, timestamp_now at 1. cbv zeta.
  fold (csv_file_name (strftime_now w (ticks s)) goal index). fold path.
  unfold bind at 1, open_w at 1. rewrite Hw.
  unfold bind, file_write, ret. cbn [files trace ticks].
  eexists. split; [reflexivity |]. cbn [files trace ticks].
  rewrite lookup_insert_eq. cbn [from_option id]. rewrite app_nil_l_s.
  rewrite insert_insert_eq. repeat split.
  - by rewrite <- app_assoc.
  - unfold read_file. cbn [files]. by rewrite lookup_insert_eq.
Qed.

Lemma saved_roster_round_trip_witness :
  exists s',
    save_csv_output demo_world reply_two_agents "research" 1
      (init_state demo_world) =
      (s', Ok "/home/user/crewai-autocrew-20240101-120000-research-1.csv") /\
    files s' !! "/home/user/crewai-autocrew-20240101-120000-research-1.csv" =
      Some reply_two_agents.
Proof.
  destruct (saved_roster_round_trip demo_world reply_two_agents "research" 1
              (init_state demo_world) eq_refl) as (s' & Hrun & Hfiles & _).
  exists s'. split; [exact Hrun |]. rewrite Hfiles. apply lookup_insert_eq.
Defined.

(** X12. The name of a roster saved for a goal that has no space and at
    most forty characters passes the test by which a ranking-only run with
    the same goal picks its files. *)
Theorem saved_roster_is_found (timestamp goal : string) (index : nat) :
  Str.contains " " goal = false ->
  String.length goal <= 40 ->
  is_artifact_for goal (csv_file_name timestamp goal index) = true.
Proof.
  intros Hsp Hlen. unfold is_artifact_for, csv_file_name.
  rewrite (take_all 40 goal Hlen), (replace_absent " " "-" goal Hsp).
  rewrite andb_true_iff, andb_true_iff. repeat split.
  - apply prefix_app.
  - replace ("crewai-autocrew-" ++ timestamp ++ "-" ++ goal ++ "-" ++
             str_of_nat index ++ ".csv")
      with (("crewai-autocrew-" ++ timestamp ++ "-" ++ goal ++ "-" ++
             str_of_nat index) ++ ".csv") by (by rewrite !app_assoc_s).
    apply endswith_app.
  - replace ("crewai-autocrew-" ++ timestamp ++ "-" ++ goal ++ "-" ++
             str_of_nat index ++ ".csv")
      with (("crewai-autocrew-" ++ timestamp ++ "-") ++ goal ++ "-" ++
             str_of_nat index ++ ".csv") by (by rewrite !app_assoc_s).
    apply contains_middle.
Qed.

Lemma saved_roster_is_found_witness :
  is_artifact_for "research" (csv_file_name "20240101-120000" "research" 1) = true.
Proof.
  apply saved_roster_is_found; [reflexivity | cbn; lia].
Defined.

(** X13. A ranking-only run whose goal contains a space finds no roster that
    [save_csv_output] named, whatever goal it was saved for: with a clock
    reading free of spaces the name has no space at all, since the spaces of
    the goal became hyphens. *)
Theorem spaced_goal_finds_no_roster (timestamp goal saved_goal : string)
    (index : nat) :
  Str.contains " " goal = true ->
  Str.contains " " timestamp = false ->
  is_artifact_for goal (csv_file_name timestamp saved_goal index) = false.
Proof.
  intros Hsp Hts. unfold is_artifact_for.
  destruct (Str.contains goal (csv_file_name timestamp saved_goal index)) eqn:Hc;
    [|by rewrite andb_false_r].
  exfalso. apply contains_inv in Hc as (a & b & E).
  assert (Hname : Str.contains " " (csv_file_name timestamp saved_goal index)
                  = false).
  { unfold csv_file_name. rewrite !contains_char_app, Hts, str_of_nat_no_space.
    rewrite replace_one, map_no_char; [done |].
    intros d. by destruct (Ascii.eqb_spec d " ") as [->|]. }
  rewrite E, !contains_char_app, Hsp in Hname. by rewrite orb_true_r in Hname.
Qed.

Lemma spaced_goal_finds_no_roster_witness :
  is_artifact_for "research AI safety"
    (csv_file_name "20240101-120000" "research AI safety" 1) = false.
Proof.
  apply spaced_goal_finds_no_roster; reflexivity.
Defined.

(** X14. The version check is best effort: it never raises, it only fetches
    the remote file and prints, so no model call is made and no file is
    changed; it returns a version only when the comparison with the running
    version said that it is newer, and when the fetch fails it prints the
    error and returns nothing. *)
Theorem version_check_best_effort (w : World) (s : State) :
  exists r evs,
    check_latest_version w s = (log evs s, Ok r) /\
    Forall harmless evs /\
    (forall v, r = Some v -> version_gt w v autocrew_version = Ok true) /\
    (forall e, http_get w version_url = Raise e ->
       r = None /\
       evs = [HttpGet version_url;
              Print ("Error checking the latest version: " ++ exn_str e)]).
Proof.
  unfold check_latest_version, try_except.
  rewrite (bind_run _ _ s (log [HttpGet version_url] s) tt) by done.
  unfold bind, lift, ret, print, emit.
  assert (Hh : forall t, Forall harmless [HttpGet version_url; Print t]).
  { intros t. by repeat constructor. }
  assert (Hg : Forall harmless [HttpGet version_url]) by by repeat constructor.
  destruct (http_get w version_url) as [c|e].
  2: { eexists _, _. split; [by rewrite log_log |]. split; [apply Hh |].
       split; [done |]. by intros e' [= <-]. }
  destruct (next_startswith _ _) as [l|e].
  2: { eexists _, _. split; [by rewrite log_log |]. split; [apply Hh |]. done. }
  destruct (list_index _ 1) as [rhs|e].
  2: { eexists _, _. split; [by rewrite log_log |]. split; [apply Hh |]. done. }
  destruct (version_gt w _ _) as [[|]|e] eqn:Ev.
  - eexists _, _. split; [done |]. split; [apply Hg |]. split; [|done].
    by intros v [= <-].
  - eexists _, _. split; [done |]. split; [apply Hg |]. done.
  - eexists _, _. split; [by rewrite log_log |]. split; [apply Hh |]. done.
Qed.

(** ** The ranking step, whatever the files *)

Section RankingMore.

Lemma filter_calls_none evs :
  Forall (fun e => is_model_call e = false) evs ->
  List.filter is_model_call evs = [].
Proof.
  induction 1 as [|e evs He _ IH]; [done |]. cbn [List.filter]. by rewrite He.
Qed.

(** The loop over the paths either reads every file the test lets through
    and returns the text, or stops at the first of them that cannot be
    opened; it only prints and reads. *)
Lemma concat_csv_files_outcome w paths acc s :
  exists evs r,
    concat_csv_files w paths acc s = (log evs s, r) /\
    Forall (fun e => loop_event (kept_paths paths) e /\
                     is_file_creation e = false) evs /\
    match r with
    | Ok text =>
        text = acc ++ flat (file_block (files s) <$> kept_paths paths) /\
        Forall (fun p => is_Some (files s !! p)) (kept_paths paths)
    | Raise e =>
        exists p, p ∈ kept_paths paths /\ files s !! p = None /\
                  e = OSError (strerror w p)
    end.
Proof.
  revert acc s. induction paths as [|p paths IH]; intros acc s.
  - exists [], (Ok acc). rewrite log_nil. split; [done |].
    split; [constructor |]. split; [|constructor]. cbn. by rewrite app_nil_r_s.
  - unfold kept_paths. cbn [concat_csv_files List.filter].
    fold (ranking_path p). fold (kept_paths paths).
    destruct (ranking_path p) eqn:Hp; cbn [negb]; [apply IH |].
    rewrite (bind_run _ _ _ _ _ (print_run _ _)).
    destruct (files s !! p) as [data|] eqn:Hdata.
    + rewrite (bind_run _ _ _ _ _
                 (read_file_run w p data (log _ s) Hdata)).
      cbv zeta. rewrite !log_log.
      match goal with |- context [concat_csv_files w paths ?acc' (log ?evs0 s)] =>
        destruct (IH acc' (log evs0 s)) as (evs & r & E & Hevs & Hr) end.
      exists ([Print (nl ++ "Processing CSV: " ++ p); FileRead p] ++ evs)%list, r.
      rewrite E, log_log. split; [done |]. split.
      * apply Forall_app. split.
        -- constructor; [split; [split; [done | by intros q] | done] |].
           constructor; [|constructor]. split; [|done]. split; [done |].
           intros q [= <-]. apply list_elem_of_here.
        -- eapply Forall_impl; [exact Hevs |]. intros e [He ?]. split; [|done].
           eapply loop_event_mono; [|exact He]. intros q.
           apply list_elem_of_further.
      * cbn [files log] in Hr. destruct r as [text|e].
        -- destruct Hr as [-> Hall]. split; [|by constructor].
           cbn [fmap list_fmap]. unfold flat at 2. cbn [foldr].
           fold (flat (file_block (files s) <$> kept_paths paths)).
           unfold file_block at 2, file_rows. rewrite Hdata.
           cbn [from_option id]. by rewrite !app_assoc_s.
        -- destruct Hr as (q & Hq & Hnone & ->). exists q.
           split; [by apply list_elem_of_further | done].
    + exists [Print (nl ++ "Processing CSV: " ++ p)],
        (Raise (OSError (strerror w p))).
      split.
      * apply bind_raise. unfold read_file. cbn [files log]. by rewrite Hdata.
      * split; [by repeat constructor |]. exists p.
        split; [apply list_elem_of_here | done].
Qed.

End RankingMore.

(** X15. Whatever the paths and the files, [rank_crews] creates and writes
    no file and leaves the files, the clock and the input as they were; it
    calls the model at most once. *)
Theorem ranking_leaves_files_alone (w : World) (paths : list string)
    (goal : string) (s : State) :
  exists s' r evs,
    rank_crews w paths goal s = (s', r) /\
    files s' = files s /\ ticks s' = ticks s /\ stdin s' = stdin s /\
    trace s' = (trace s ++ evs)%list /\
    Forall (fun e => is_file_creation e = false) evs /\
    length (List.filter is_model_call evs) <= 1 /\
    invocations s' <= S (invocations s).
Proof.
  unfold rank_crews. cbv zeta.
  rewrite (bind_run _ _ _ _ _ (print_run _ _)).
  destruct (concat_csv_files_outcome w (set_order w paths) (shared_header ++ nl)
              (log [Print "Invoking Ollama..."] s)) as (evs & r & E & Hevs & _).
  assert (Hc : Forall (fun e => is_file_creation e = false) evs).
  { eapply Forall_impl; [exact Hevs |]. by intros e [_ ?]. }
  assert (Hm : Forall (fun e => is_model_call e = false) evs).
  { eapply Forall_impl; [exact Hevs |]. by intros e [[? _] _]. }
  assert (Hfin : forall s' (r' : result (list (list string * string * string) * string))
                        evs',
    files s' = files s -> ticks s' = ticks s -> stdin s' = stdin s ->
    trace s' = (trace s ++ evs')%list ->
    Forall (fun e => is_file_creation e = false) evs' ->
    length (List.filter is_model_call evs') <= 1 ->
    invocations s' <= S (invocations s) ->
    exists s'' r'' evs'',
      (s', r') = (s'', r'') /\
      files s'' = files s /\ ticks s'' = ticks s /\ stdin s'' = stdin s /\
      trace s'' = (trace s ++ evs'')%list /\
      Forall (fun e => is_file_creation e = false) evs'' /\
      length (List.filter is_model_call evs'') <= 1 /\
      invocations s'' <= S (invocations s)).
  { intros s' r' evs' ? ? ? ? ? ? ?. by exists s', r', evs'. }
  destruct r as [text|e].
  - rewrite (bind_run _ _ _ _ _ E).
    rewrite !(bind_run _ _ _ _ _ (print_run _ _)). rewrite !log_log.
    unfold bind at 1. rewrite invoke_run. cbn [trace files log].
    destruct (ollama_invoke w _ _) as [ranked_crew|e].
    + rewrite !(bind_run _ _ _ _ _ (print_run _ _)). rewrite !log_log.
      eapply Hfin; cbn [files ticks stdin trace log invocations];
        [done | done | done | by rewrite <- !app_assoc | | | lia].
      * repeat (apply Forall_app; split); try done; by repeat constructor.
      * rewrite !List.filter_app, (filter_calls_none evs Hm). cbn. lia.
    + eapply Hfin; cbn [files ticks stdin trace log invocations];
        [done | done | done | by rewrite <- !app_assoc | | | lia].
      * repeat (apply Forall_app; split); try done; by repeat constructor.
      * rewrite !List.filter_app, (filter_calls_none evs Hm). cbn. lia.
  - rewrite (bind_raise _ _ _ _ _ E). rewrite log_log.
    eapply Hfin; cbn [files ticks stdin trace log invocations];
      [done | done | done | reflexivity | | | lia].
    + apply Forall_app. split; [by repeat constructor | done].
    + rewrite List.filter_app, (filter_calls_none evs Hm). cbn. lia.
Qed.




Section RankingResult.

Lemma concat_csv_files_all_stopped w paths acc s :
  Forall (fun p => ranking_path p = true) paths ->
  concat_csv_files w paths acc s = (s, Ok acc).
Proof.
  induction 1 as [|p paths Hp _ IH]; [done |].
  cbn [concat_csv_files]. fold (ranking_path p). by rewrite Hp.
Qed.

Lemma concat_empty_sep l : String.concat "" l = flat l.
Proof.
  induction l as [|x l IH]; [done |]. cbn [String.concat].
  destruct l as [|y l]; [by cbn; rewrite app_nil_r_s |].
  rewrite IH. reflexivity.
Qed.

End RankingResult.

(** X17. When the test stops every path, and also when there is no path at
    all, [rank_crews] reads no file and still calls the model: the text it
    prints and sends is the shared header on a line of its own, with no row
    after it. *)
Theorem ranking_with_nothing_to_rank (w : World) (paths : list string)
    (goal : string) (s : State) :
  Forall (fun p => ranking_path p = true) (set_order w paths) ->
  exists s' r prompt after,
    rank_crews w paths goal s = (s', r) /\
    trace s' =
      (trace s ++
       [Print "Invoking Ollama..."; Print (nl ++ "Concatenated CSV Data:");
        Print (ranking_header ++ nl); Invoke prompt] ++ after)%list /\
    prompt = ranking_prompt goal (ranking_header ++ nl) /\
    sent_within (ranking_header ++ nl) prompt /\
    Forall is_print after.
Proof.
  intros Hall. unfold rank_crews. cbv zeta.
  rewrite (bind_run _ _ _ _ _ (print_run _ _)).
  rewrite (bind_run _ _ _ _ _
             (concat_csv_files_all_stopped w _ (shared_header ++ nl) _ Hall)).
  rewrite shared_header_spec.
  rewrite !(bind_run _ _ _ _ _ (print_run _ _)). rewrite !log_log.
  unfold bind at 1. rewrite invoke_run. cbn [trace files log].
  pose proof (ranking_prompt_sends goal (ranking_header ++ nl)) as Hsent.
  destruct (ollama_invoke w _ _) as [ranked_crew|e].
  - rewrite !(bind_run _ _ _ _ _ (print_run _ _)). rewrite !log_log.
    eexists _, _, _, _. split; [reflexivity |]. cbn [trace log]. split.
    + rewrite <- !app_assoc. reflexivity.
    + split; [reflexivity |]. split; [exact Hsent |].
      repeat constructor; by eexists.
  - eexists _, _, _, []. split; [reflexivity |]. cbn [trace]. split.
    + rewrite <- !app_assoc. reflexivity.
    + split; [reflexivity |]. split; [exact Hsent | constructor].
Qed.

Lemma ranking_with_nothing_to_rank_witness :
  exists s' r prompt after,
    rank_crews demo_world [capital_ranking_file] "research"
      (init_state demo_world) = (s', r) /\
    trace s' =
      ([Print "Invoking Ollama..."; Print (nl ++ "Concatenated CSV Data:");
        Print (ranking_header ++ nl); Invoke prompt] ++ after)%list.
Proof.
  destruct (ranking_with_nothing_to_rank demo_world [capital_ranking_file]
              "research" (init_state demo_world))
    as (s' & r & prompt & after & H & Ht & _).
  - constructor; [reflexivity | constructor].
  - exists s', r, prompt, after. split; [exact H | exact Ht].
Defined.

(** X18. When every file the test lets through can be read and the model
    answers, [rank_crews] returns a single entry whose ranking and critique
    are both the model's reply unchanged and whose file list is the whole
    deduplicated list, the stopped paths included; the summary names every
    one of these paths and carries the reply as ranking and as critique. *)
Theorem ranking_result (w : World) (paths : list string) (goal reply : string)
    (s : State) :
  (forall p, p ∈ set_order w paths -> ranking_path p = false ->
             is_Some (files s !! p)) ->
  (forall prompt, ollama_invoke w (invocations s) prompt = Ok reply) ->
  exists s' summary,
    rank_crews w paths goal s =
      (s', Ok ([(set_order w paths, reply, reply)], summary)) /\
    invocations s' = S (invocations s) /\
    Str.contains ("Ranking: " ++ reply ++ nl ++ "Critique: " ++ reply ++ nl)
      summary = true /\
    (forall p, p ∈ set_order w paths -> Str.contains (p ++ nl) summary = true).
Proof.
  intros Hfs Hreply. unfold rank_crews. cbv zeta.
  rewrite (bind_run _ _ _ _ _ (print_run _ _)).
  destruct (concat_csv_files_run w (set_order w paths) (shared_header ++ nl)
              (log [Print "Invoking Ollama..."] s) Hfs) as (evs & E & _).
  rewrite (bind_run _ _ _ _ _ E).
  rewrite !(bind_run _ _ _ _ _ (print_run _ _)). rewrite !log_log.
  unfold bind at 1. rewrite invoke_run. cbn [trace files log invocations].
  rewrite Hreply.
  rewrite !(bind_run _ _ _ _ _ (print_run _ _)). rewrite !log_log.
  eexists _, _. split; [reflexivity |]. cbn [invocations log].
  split; [done |]. rewrite concat_empty_sep. split.
  - match goal with |- Str.contains ?n (?a ++ ?b ++ ?c ++ ?d ++ ?e ++ ?r) = true =>
      replace (a ++ b ++ c ++ d ++ e ++ r) with ((a ++ b ++ c ++ d ++ e) ++ r)
        by (by rewrite !app_assoc_s) end.
    match goal with |- Str.contains ?n (?l ++ ?r) = true =>
      replace r with (n ++ (nl ++ "Overall Summary:" ++ nl ++
        "Ollama has ranked the crews based on their likelihood of success." ++ nl ++
        "It has provided a critique for each crew, highlighting their strengths and weaknesses." ++ nl ++
        "The ranking and critique can be used to make informed decisions about the crews." ++ nl))
        by (by rewrite !app_assoc_s) end.
    apply contains_middle.
  - intros p Hp.
    destruct (flat_elem (p ++ nl)
                ((fun file_path => file_path ++ nl) <$> set_order w paths))
      as (a & b & Eab).
    { apply list_elem_of_fmap. by exists p. }
    rewrite Eab.
    match goal with |- Str.contains ?n (?x1 ++ ?x2 ++ ?x3 ++ ?x4 ++ (a ++ ?n ++ b) ++ ?r) = true =>
      replace (x1 ++ x2 ++ x3 ++ x4 ++ (a ++ n ++ b) ++ r)
        with ((x1 ++ x2 ++ x3 ++ x4 ++ a) ++ n ++ (b ++ r))
        by (by rewrite !app_assoc_s) end.
    apply contains_middle.
Qed.

Lemma ranking_result_witness :
  exists s' summary,
    rank_crews demo_world
      ["crewai-autocrew-20240101-115900-research-1.csv"; capital_ranking_file]
      "research" (init_state demo_world) =
      (s', Ok ([(["crewai-autocrew-20240101-115900-research-1.csv";
                  capital_ranking_file], reply_two_agents, reply_two_agents)],
               summary)).
Proof.
  destruct (ranking_result demo_world
              ["crewai-autocrew-20240101-115900-research-1.csv";
               capital_ranking_file] "research" reply_two_agents
              (init_state demo_world)) as (s' & summary & H & _).
  - intros p Hp Hkeep. cbn [set_order demo_world] in Hp.
    rewrite elem_of_remove_dups, !elem_of_cons, elem_of_nil in Hp.
    destruct Hp as [-> | [-> | []]]; [by eexists | discriminate Hkeep].
  - reflexivity.
  - exists s', summary. exact H.
Defined.

(** ** The run loop as a whole *)

Section MainMore.

Lemma try_report_ok (c : M unit) s s1 :
  c s = (s1, Ok tt) -> try_except c report_error s = (s1, Ok tt).
Proof. intros E. unfold try_except. by rewrite E. Qed.

Lemma try_report_raise (c : M unit) s s1 e :
  c s = (s1, Raise e) ->
  try_except c report_error s = (log (error_report e) s1, Ok tt).
Proof.
  intros E. unfold try_except. rewrite E. unfold report_error.
  rewrite (bind_run _ _ _ _ _ (print_run _ _)). unfold emit.
  by rewrite log_log.
Qed.



Lemma input_eof prompt s :
  stdin s = [] ->
  input prompt s = (log [Input prompt] s, Raise EOFError).
Proof. intros H. unfold input. rewrite H. unfold log. by rewrite <- H. Qed.

(** The last thing [main] prints before it looks at the flags is the blank
    line after the usage hint. *)
Lemma main_run_tail w args s :
  exists evs, Forall harmless evs /\
              main w args s = main_with_args w args (log (evs ++ [Print ""]) s).
Proof.
  unfold main.
  rewrite !(bind_run _ _ _ _ _ (print_run _ _)).
  destruct (check_latest_version_run w
              (log [Print ("Autocrew (v" ++ autocrew_version ++ ") for CrewAI ")]
                 (log [Print ""] s))) as (r & evs & E & Hq).
  rewrite (bind_run _ _ _ _ _ E).
  destruct (announce_run r (log evs
              (log [Print ("Autocrew (v" ++ autocrew_version ++ ") for CrewAI ")]
                 (log [Print ""] s)))) as (evs2 & E2 & Hq2).
  rewrite (bind_run _ _ _ _ _ E2).
  rewrite !(bind_run _ _ _ _ _ (print_run _ _)). rewrite !log_log.
  eexists. split; [|by rewrite !app_assoc].
  repeat (apply Forall_app; split); try done; by repeat constructor.
Qed.

Lemma to_nat_negative n : (n < 0)%Z -> Z.to_nat n = 0.
Proof. destruct n; [lia | lia | done]. Qed.

End MainMore.



(** X20. With compatible flags, no goal on the command line and nothing to
    read on the input, [main] ends with the end-of-file error of the prompt:
    the prompt stands outside the handler.  Up to then no model call is
    made and no file is created. *)
Theorem missing_goal_raises_eof (w : World) (args : Args) :
  int_truthy (multiple args) && auto_run args = false ->
  overall_goal args = None ->
  console w = [] ->
  exists s',
    main w args (init_state w) = (s', Raise EOFError) /\
    Forall harmless (trace s') /\ files s' = disk w.
Proof.
  intros Hflags Hgoal Hc.
  destruct (main_run w args (init_state w)) as (evs & Hq & ->).
  unfold main_with_args. rewrite Hflags, Hgoal.
  assert (Hin : forall prompt,
            input prompt (log evs (init_state w)) =
            (log [Input prompt] (log evs (init_state w)), Raise EOFError)).
  { intros prompt. by apply input_eof. }
  destruct (ranking args).
  - rewrite (bind_raise _ _ _ _ _ (Hin _)). eexists. split; [reflexivity |].
    split; [|done]. cbn [trace log init_state app].
    apply Forall_app. split; [done | by repeat constructor].
  - rewrite (bind_raise _ _ _ _ _ (Hin _)). eexists. split; [reflexivity |].
    split; [|done]. cbn [trace log init_state app].
    apply Forall_app. split; [done | by repeat constructor].
Qed.

Lemma missing_goal_raises_eof_witness :
  exists s',
    main world_without_input (mkArgs None false None false)
      (init_state world_without_input) = (s', Raise EOFError).
Proof.
  destruct (missing_goal_raises_eof world_without_input
              (mkArgs None false None false)) as (s' & H & _);
    [reflexivity | reflexivity | reflexivity |].
  exists s'. exact H.
Defined.

(** X21. A negative count is taken as it is: with [--multiple] below zero
    (and neither [--auto_run] nor [--ranking]) and a goal on the command
    line, the generation loop does not run once and no ranking follows;
    [main] returns normally having called the model not once and created no
    file, and the blank line after its usage hint is the last thing it
    prints. *)
Theorem negative_count_does_nothing (w : World) (args : Args) (n : Z)
    (goal : string) :
  multiple args = Some n -> (n < 0)%Z ->
  auto_run args = false -> ranking args = false ->
  overall_goal args = Some goal ->
  exists s',
    main w args (init_state w) = (s', Ok tt) /\
    Forall harmless (trace s') /\
    last (trace s') = Some (Print "") /\
    invocations s' = 0 /\ files s' = disk w.
Proof.
  intros Hm Hn Ha Hr Hg.
  destruct (main_run_tail w args (init_state w)) as (evs & Hq & ->).
  unfold main_with_args. rewrite Ha, Hr, Hg, Hm, andb_false_r.
  assert (Ht : int_truthy (Some n) = true).
  { unfold int_truthy. destruct (Z.eqb_spec n 0); [lia | done]. }
  rewrite Ht. cbn [default from_option id].
  rewrite (bind_run _ _ _ (log (evs ++ [Print ""]) (init_state w)) goal) by done.
  rewrite (to_nat_negative n Hn). cbn [generate_scripts].
  assert (Hlt : (1 <? n)%Z = false) by (apply Z.ltb_ge; lia).
  exists (log (evs ++ [Print ""]) (init_state w)). split.
  - apply try_report_ok.
    rewrite (bind_run _ _ _ (log (evs ++ [Print ""]) (init_state w)) []) by done.
    by rewrite Hlt.
  - cbn [trace files invocations log init_state app].
    split; [apply Forall_app; split; [done | by repeat constructor] |].
    split; [apply last_snoc | done].
Qed.

Lemma negative_count_does_nothing_witness :
  exists s',
    main demo_world (mkArgs (Some "research") false (Some (-2)%Z) false)
      (init_state demo_world) = (s', Ok tt) /\
    invocations s' = 0.
Proof.
  destruct (negative_count_does_nothing demo_world
              (mkArgs (Some "research") false (Some (-2)%Z) false) (-2)%Z
              "research") as (s' & H & _ & _ & Hi & _);
    [reflexivity | lia | reflexivity | reflexivity | reflexivity |].
  exists s'. split; [exact H | exact Hi].
Defined.

(** ** Generation runs *)

Section Generation.

Lemma num_scripts_positive args :
  runs_at_least_once args -> exists n', Z.to_nat (num_scripts_of args) = S n'.
Proof.
  unfold runs_at_least_once, num_scripts_of, int_truthy.
  destruct (multiple args) as [n|]; [|by exists 0].
  intros Hn. destruct (Z.eqb_spec n 0) as [->|Hne]; cbn [negb]; [by exists 0 |].
  cbn [default from_option id]. exists (Z.to_nat n - 1). lia.
Qed.

(** The start of a generation run under compatible flags: the banner, then
    the loop inside the handler. *)
Lemma main_generation w args goal :
  int_truthy (multiple args) && auto_run args = false ->
  ranking args = false ->
  overall_goal args = Some goal ->
  exists evs,
    Forall harmless evs /\
    main w args (init_state w) =
    try_except
      (let! csv_file_paths :=
         generate_scripts w args goal "," (Z.to_nat (num_scripts_of args)) 0 [] in
       if (1 <? num_scripts_of args)%Z
       then
         let! ranked := rank_crews w csv_file_paths goal in
         let! timestamp := timestamp_now w in
         let ranked_crews_file_path :=
           path_join (getcwd w)
             ("crewai-autocrew-" ++ timestamp ++ "-" ++
              Str.replace " " "-" (Str.take 50 goal) ++ "-ranking.csv") in
         open_w w ranked_crews_file_path ;;
         file_write ranked_crews_file_path
           (writerow ["CSV File"; "Ranking"; "Critique"]) ;;
         (fix rows (l : list (list string * string * string)) : M unit :=
            match l with
            | [] => ret tt
            | (paths, ranked_crew, critique) :: rest =>
                file_write ranked_crews_file_path
                  (writerow [repr_list w paths; ranked_crew; critique]) ;;
                rows rest
            end) (fst ranked) ;;
         print (nl ++ "Ranked crews saved as " ++ ranked_crews_file_path) ;;
         print (nl ++ "Overall Summary:") ;;
         print (snd ranked) ;;
         let! reply := invoke w (snd ranked) in
         ret tt
       else ret tt)
      report_error (log (evs ++ [Print ""]) (init_state w)).
Proof.
  intros Hflags Hr Hg.
  destruct (main_run_tail w args (init_state w)) as (evs & Hq & ->).
  exists evs. split; [exact Hq |].
  unfold main_with_args. rewrite Hflags, Hr, Hg.
  by rewrite (bind_run _ _ _ (log (evs ++ [Print ""]) (init_state w)) goal).
Qed.

(** A run whose first call of the model brings no usable reply stops
    there. *)
Lemma generate_no_reply w args goal n' i paths s s1 r :
  get_agent_data w goal "," s = (s1, r) ->
  r = Ok "" \/ (exists e, r = Raise e) ->
  generate_scripts w args goal "," (S n') i paths s =
    (s1, Raise (no_reply_error r)).
Proof.
  intros E Hr. cbn [generate_scripts]. destruct Hr as [->|[e ->]].
  - by rewrite (bind_run _ _ _ _ _ E).
  - by rewrite (bind_raise _ _ _ _ _ E).
Qed.

End Generation.

(** X22. In a generation run for a goal without braces, when the model's
    first answer is the empty text or an exception, [main] reports the error
    (for the empty text: that there was no response) and returns normally;
    the model was called once, no further run is tried even if several were
    asked for, and no file was created. *)
Theorem no_reply_creates_nothing (w : World) (args : Args) (goal : string)
    (r : result string) :
  int_truthy (multiple args) && auto_run args = false ->
  ranking args = false ->
  runs_at_least_once args ->
  overall_goal args = Some goal ->
  Str.contains "{" goal = false -> Str.contains "}" goal = false ->
  (forall prompt, ollama_invoke w 0 prompt = r) ->
  r = Ok "" \/ (exists e, r = Raise e) ->
  exists s' evs prompt,
    main w args (init_state w) = (s', Ok tt) /\
    trace s' = (evs ++ [Invoke prompt] ++ error_report (no_reply_error r))%list /\
    Forall harmless evs /\
    invocations s' = 1 /\
    files s' = disk w.
Proof.
  intros Hflags Hr Hruns Hg Hb1 Hb2 Hreply Hbad.
  destruct (main_generation w args goal Hflags Hr Hg) as (evs & Hq & ->).
  destruct (num_scripts_positive args Hruns) as [n' ->].
  destruct (get_agent_data_plain w goal "," (log (evs ++ [Print ""]) (init_state w)))
    as (prompt & E & _); [done | done | done | done |].
  cbn [invocations log init_state] in E. rewrite Hreply in E.
  pose proof (generate_no_reply w args goal n' 0 [] _ _ r E Hbad) as Egen.
  rewrite (try_report_raise _ _ _ _ (bind_raise _ _ _ _ _ Egen)).
  eexists _, (evs ++ [Print ""])%list, prompt. split; [reflexivity |].
  cbn [trace files invocations log invoked init_state app].
  split; [by rewrite <- !app_assoc |].
  split; [apply Forall_app; split; [done | by repeat constructor] | done].
Qed.

Lemma no_reply_creates_nothing_witness :
  exists s',
    main (world_replying (Ok ""))
      (mkArgs (Some "research") false (Some 3%Z) false)
      (init_state (world_replying (Ok ""))) = (s', Ok tt) /\
    invocations s' = 1.
Proof.
  destruct (no_reply_creates_nothing (world_replying (Ok ""))
              (mkArgs (Some "research") false (Some 3%Z) false) "research"
              (Ok ""))
    as (s' & evs & prompt & H & _ & _ & Hi & _);
    [reflexivity | reflexivity | cbn; lia | reflexivity | reflexivity
    | reflexivity | reflexivity | by left |].
  exists s'. split; [exact H | exact Hi].
Defined.

Section GenerationSteps.

Lemma save_csv_output_run w response goal index s :
  writable w (path_join (getcwd w)
                (csv_file_name (strftime_now w (ticks s)) goal index)) = true ->
  save_csv_output w response goal index s =
    (wrote (path_join (getcwd w)
              (csv_file_name (strftime_now w (ticks s)) goal index))
       response
       [FileCreate (path_join (getcwd w)
                      (csv_file_name (strftime_now w (ticks s)) goal index));
        FileWrite (path_join (getcwd w)
                     (csv_file_name (strftime_now w (ticks s)) goal index))
          response]
       (ticked s),
     Ok (path_join (getcwd w)
           (csv_file_name (strftime_now w (ticks s)) goal index))).
Proof.
  intros Hw. unfold save_csv_output.
  unfold bind at 1, timestamp_now at 1. cbv zeta.
  fold (csv_file_name (strftime_now w (ticks s)) goal index).
  unfold bind at 1, open_w at 1. rewrite Hw.
  unfold bind, file_write, ret, wrote, ticked. cbn [files trace ticks invocations stdin].
  rewrite lookup_insert_eq. cbn [from_option id].
  by rewrite app_nil_l_s, insert_insert_eq, <- app_assoc.
Qed.

Lemma open_w_wrote w path s :
  writable w path = true ->
  open_w w path s = (wrote path "" [FileCreate path] s, Ok tt).
Proof. intros Hw. unfold open_w. by rewrite Hw. Qed.

Lemma file_write_wrote path data c evs s :
  file_write path data (wrote path c evs s) =
    (wrote path (c ++ data) (evs ++ [FileWrite path data]) s, Ok tt).
Proof.
  unfold file_write, wrote. cbn [files trace ticks invocations stdin].
  rewrite lookup_insert_eq. cbn [from_option id].
  by rewrite insert_insert_eq, <- app_assoc.
Qed.

Lemma write_each_wrote path f g agents_data c evs s :
  Forall (fun a => f a = Ok (g a)) agents_data ->
  exists evs',
    write_each path f agents_data (wrote path c evs s) =
      (wrote path (c ++ flat ((fun a => g a ++ nl) <$> agents_data))
         (evs ++ evs') s, Ok tt) /\
    Forall (is_write_to path) evs'.
Proof.
  intros Hf. revert c evs. induction Hf as [|a l Ha _ IH]; intros c evs.
  - exists []. cbn. by rewrite app_nil_r_s, app_nil_r.
  - cbn [write_each].
    rewrite (bind_run _ _ _ (wrote path c evs s) (g a))
      by (unfold lift; by rewrite Ha).
    rewrite (bind_run _ _ _ _ _ (file_write_wrote path (g a) c evs s)).
    rewrite (bind_run _ _ _ _ _ (file_write_wrote path nl _ _ s)).
    destruct (IH ((c ++ g a) ++ nl)
                ((evs ++ [FileWrite path (g a)]) ++ [FileWrite path nl])%list)
      as (evs' & E & Hevs).
    exists ([FileWrite path (g a); FileWrite path nl] ++ evs')%list.
    rewrite E. split.
    + unfold flat. cbn [fmap list_fmap foldr].
      by rewrite !app_assoc_s, <- !app_assoc.
    + apply Forall_app. split; [|done].
      repeat (apply Forall_cons; split; [right; by eexists |]).
      apply Forall_nil_2.
Qed.

(** The emitter on a roster it can render: the script replaces what was at
    the path, and nothing else changes. *)
Lemma write_crewai_script_wrote w agents_data file_name s :
  Forall complete agents_data ->
  writable w file_name = true ->
  exists evs,
    write_crewai_script w agents_data
      (Str.join ", " (task_var <$> agents_data)) file_name s =
      (wrote file_name (script_text agents_data) evs s, Ok tt) /\
    Forall (is_write_to file_name) evs.
Proof.
  intros Hc Hw. unfold write_crewai_script.
  rewrite (list_comp_map _ agent_var); cycle 1.
  { eapply Forall_impl; [exact Hc |]. intros a (Hr & _).
    rewrite getitem_complete by done. cbn [rbind].
    by rewrite replace_chain_derive. }
  rewrite (bind_run _ _ s s (agent_var <$> agents_data)) by done.
  rewrite (bind_run _ _ _ _ _ (open_w_wrote w file_name s Hw)).
  rewrite (bind_run _ _ _ _ _ (file_write_wrote file_name script_preamble _ _ s)).
  destruct (write_each_wrote file_name
              (fun agent => define_agent agent "search_tool") agent_block
              agents_data ("" ++ script_preamble)
              ([FileCreate file_name] ++ [FileWrite file_name script_preamble])%list
              s) as (evs1 & E1 & H1).
  { eapply Forall_impl; [exact Hc |]. intros a Ha. by apply define_agent_text. }
  rewrite (bind_run _ _ _ _ _ E1).
  match type of E1 with _ = (wrote _ ?c ?evs _, _) =>
    destruct (write_each_wrote file_name define_task task_block agents_data
                c evs s) as (evs2 & E2 & H2) end.
  { eapply Forall_impl; [exact Hc |]. intros a Ha. by apply define_task_text. }
  rewrite (bind_run _ _ _ _ _ E2).
  rewrite file_write_wrote. eexists. split.
  - f_equal. f_equal. unfold script_text.
    by rewrite app_nil_l_s, !app_assoc_s.
  - repeat (apply Forall_app; split); try done.
    + apply Forall_cons; split; [by left | apply Forall_nil_2].
    + apply Forall_cons; split; [right; by eexists | apply Forall_nil_2].
    + apply Forall_cons; split; [right; by eexists | apply Forall_nil_2].
Qed.

Lemma timestamp_now_run w s :
  timestamp_now w s = (ticked s, Ok (strftime_now w (ticks s))).
Proof. reflexivity. Qed.

End GenerationSteps.

Section GenerationRuns.

(** The first generation run up to the saved roster: the model is asked
    once and its reply is written to the roster file. *)
Lemma generate_saves_reply w args goal n' paths s reply :
  Str.contains "{" goal = false -> Str.contains "}" goal = false ->
  (forall prompt, ollama_invoke w (invocations s) prompt = Ok reply) ->
  reply <> "" ->
  writable w (path_join (getcwd w)
                (csv_file_name (strftime_now w (ticks s)) goal 1)) = true ->
  exists prompt,
    generate_scripts w args goal "," (S n') 0 paths s =
    (let file_path :=
       path_join (getcwd w) (csv_file_name (strftime_now w (ticks s)) goal 1) in
     let! agents_data := lift (parse_csv_data reply "," file_path) in
     match agents_data with
     | [] => raise (ValueError "No agent data parsed")
     | _ =>
         let! timestamp := timestamp_now w in
         let crewai_script_path :=
           path_join (getcwd w) (script_file_name timestamp goal 1) in
         let! crew_tasks := lift (crew_tasks_of agents_data) in
         write_crewai_script w agents_data crew_tasks crewai_script_path ;;
         print (nl ++ "Script " ++ str_of_nat 1 ++ " written to " ++
                crewai_script_path) ;;
         (if auto_run args
          then print (nl ++ "Running script " ++ str_of_nat 1 ++ "...") ;;
               emit (System ("python3 " ++ crewai_script_path))
          else ret tt) ;;
         generate_scripts w args goal "," n' 1 (paths ++ [file_path])%list
     end)
      (wrote (path_join (getcwd w)
                (csv_file_name (strftime_now w (ticks s)) goal 1))
         reply
         [FileCreate (path_join (getcwd w)
                        (csv_file_name (strftime_now w (ticks s)) goal 1));
          FileWrite (path_join (getcwd w)
                       (csv_file_name (strftime_now w (ticks s)) goal 1))
            reply]
         (ticked (invoked prompt s))).
Proof.
  intros Hb1 Hb2 Hreply Hne Hw.
  destruct (get_agent_data_plain w goal "," s) as (prompt & E & _);
    [done | done | done | done |].
  rewrite Hreply in E. exists prompt.
  cbn [generate_scripts]. rewrite (bind_run _ _ _ _ _ E).
  rewrite (truthy_ne _ Hne). cbn [negb].
  change (0 + 1) with 1.
  by rewrite (bind_run _ _ _ _ _
                (save_csv_output_run w reply goal 1 (invoked prompt s) Hw)).
Qed.

(** X23. A reply of the model that is not empty but gives no roster (the
    parser raises, or finds no data row) is still saved: the run ends
    normally with the error reported, the model asked once, and the roster
    file holding the reply the only change on the disk; no script is
    written. *)
Theorem unusable_reply_is_still_saved (w : World) (args : Args)
    (goal reply : string) (e : exn) :
  int_truthy (multiple args) && auto_run args = false ->
  ranking args = false ->
  runs_at_least_once args ->
  overall_goal args = Some goal ->
  Str.contains "{" goal = false -> Str.contains "}" goal = false ->
  (forall prompt, ollama_invoke w 0 prompt = Ok reply) ->
  reply <> "" ->
  writable w (path_join (getcwd w)
                (csv_file_name (strftime_now w 0) goal 1)) = true ->
  parse_csv_data reply ","
    (path_join (getcwd w) (csv_file_name (strftime_now w 0) goal 1)) = Raise e \/
  (parse_csv_data reply ","
     (path_join (getcwd w) (csv_file_name (strftime_now w 0) goal 1)) = Ok [] /\
   e = ValueError "No agent data parsed") ->
  exists s' evs,
    main w args (init_state w) = (s', Ok tt) /\
    trace s' = (evs ++ error_report e)%list /\
    invocations s' = 1 /\
    files s' =
      <[path_join (getcwd w) (csv_file_name (strftime_now w 0) goal 1) := reply]>
        (disk w).
Proof.
  intros Hflags Hr Hruns Hg Hb1 Hb2 Hreply Hne Hw Hbad.
  destruct (main_generation w args goal Hflags Hr Hg) as (evs & Hq & ->).
  destruct (num_scripts_positive args Hruns) as [n' ->].
  destruct (generate_saves_reply w args goal n' []
              (log (evs ++ [Print ""]) (init_state w)) reply)
    as (prompt & E); [done | done | done | done | done |].
  cbn [ticks log init_state] in E. cbv zeta in E.
  match type of E with _ = ?c ?s1 =>
    assert (Egen : generate_scripts w args goal "," (S n') 0 []
                     (log (evs ++ [Print ""]) (init_state w)) =
                   (s1, Raise e)) end.
  { rewrite E. destruct Hbad as [Hp | [Hp ->]].
    - apply bind_raise. unfold lift. by rewrite Hp.
    - erewrite bind_run; [| unfold lift; by rewrite Hp]. done. }
  rewrite (try_report_raise _ _ _ _ (bind_raise _ _ _ _ _ Egen)).
  eexists _, _. split; [reflexivity |].
  cbn [trace files invocations log invoked wrote ticked init_state].
  split; [reflexivity |]. done.
Qed.

Lemma unusable_reply_is_still_saved_witness :
  exists s',
    main (world_replying (Ok "role"))
      (mkArgs (Some "research") false None false)
      (init_state (world_replying (Ok "role"))) = (s', Ok tt) /\
    files s' =
      <["/home/user/crewai-autocrew-20240101-120000-research-1.csv" := "role"]>
        (disk (world_replying (Ok "role"))).
Proof.
  destruct (unusable_reply_is_still_saved (world_replying (Ok "role"))
              (mkArgs (Some "research") false None false) "research" "role"
              (ValueError "No agent data parsed"))
    as (s' & evs & H & _ & _ & Hf);
    [reflexivity | reflexivity | exact I | reflexivity | reflexivity
    | reflexivity | reflexivity | done | reflexivity
    | right; split; reflexivity |].
  exists s'. split; [exact H | exact Hf].
Defined.

(** Rows of five fields under the standard header give records with all
    five columns. *)
Lemma full_rows_complete filename rows recs :
  Forall2 (record_for std_header filename) rows recs ->
  Forall (fun row => length row = 5) rows ->
  Forall complete recs.
Proof.
  induction 1 as [|row rec rows recs Hrec _ IH]; intros Hl; [constructor |].
  apply Forall_cons in Hl as [Hrow Hl]. constructor; [| by apply IH].
  destruct row as [|a [|b [|c [|d [|e' [|? ?]]]]]]; try done.
  repeat split;
    [rewrite (record_std_lookup _ _ _ 0 "role" Hrec eq_refl)
    |rewrite (record_std_lookup _ _ _ 1 "goal" Hrec eq_refl)
    |rewrite (record_std_lookup _ _ _ 2 "backstory" Hrec eq_refl)
    |rewrite (record_std_lookup _ _ _ 3 "assigned_task" Hrec eq_refl)
    |rewrite (record_std_lookup _ _ _ 4 "allow_delegation" Hrec eq_refl)];
    by eexists.
Qed.

(** X24. A single generation run that succeeds, from the prompt to the
    script: when the reply parses to a roster whose records all carry the
    five columns, and both files can be opened, [main] asks the model once,
    saves the reply as the roster, writes the whole script text to the script
    file, changes nothing else on the disk, and ends by announcing the
    script, which it then runs exactly when [-a] was given. *)
Theorem single_run_writes_roster_and_script (w : World) (args : Args)
    (goal reply : string) (recs : list (gmap string string)) :
  int_truthy (multiple args) && auto_run args = false ->
  ranking args = false ->
  num_scripts_of args = 1%Z ->
  overall_goal args = Some goal ->
  Str.contains "{" goal = false -> Str.contains "}" goal = false ->
  (forall prompt, ollama_invoke w 0 prompt = Ok reply) ->
  reply <> "" ->
  writable w (path_join (getcwd w)
                (csv_file_name (strftime_now w 0) goal 1)) = true ->
  writable w (path_join (getcwd w)
                (script_file_name (strftime_now w 1) goal 1)) = true ->
  parse_csv_data reply ","
    (path_join (getcwd w) (csv_file_name (strftime_now w 0) goal 1)) = Ok recs ->
  recs <> [] ->
  Forall complete recs ->
  exists s' evs,
    main w args (init_state w) = (s', Ok tt) /\
    files s' =
      <[path_join (getcwd w) (script_file_name (strftime_now w 1) goal 1)
          := script_text recs]>
        (<[path_join (getcwd w) (csv_file_name (strftime_now w 0) goal 1)
             := reply]> (disk w)) /\
    invocations s' = 1 /\
    trace s' =
      (evs ++
       Print (nl ++ "Script 1 written to " ++
              path_join (getcwd w)
                (script_file_name (strftime_now w 1) goal 1)) ::
       (if auto_run args
        then [Print (nl ++ "Running script 1...");
              System ("python3 " ++
                      path_join (getcwd w)
                        (script_file_name (strftime_now w 1) goal 1))]
        else []))%list.
Proof.
  intros Hflags Hr Hnum Hg Hb1 Hb2 Hreply Hne Hwc Hwp Hparse Hrecs Hc.
  set (csv_path :=
         path_join (getcwd w) (csv_file_name (strftime_now w 0) goal 1)) in *.
  destruct (main_generation w args goal Hflags Hr Hg) as (evs & Hq & ->).
  rewrite Hnum. change (Z.to_nat 1) with 1. change (1 <? 1)%Z with false.
  destruct (generate_saves_reply w args goal 0 []
              (log (evs ++ [Print ""]) (init_state w)) reply)
    as (prompt & E); [done | done | done | done | done |].
  cbn [ticks log init_state] in E. cbv zeta in E. fold csv_path in E.
  rewrite (bind_run _ _ _ _ recs) in E by (unfold lift; by rewrite Hparse).
  destruct recs as [|rec0 recs']; [done |].
  set (recs := rec0 :: recs') in *.
  rewrite (bind_run _ _ _ _ _ (timestamp_now_run w _)) in E.
  cbn [ticks wrote ticked invoked log init_state] in E.
  rewrite (bind_run _ _ _ _ (Str.join ", " (task_var <$> recs))) in E
    by (unfold lift; by rewrite crew_tasks_of_complete).
  match type of E with _ = bind (write_crewai_script w _ _ ?p) _ ?s1 =>
    destruct (write_crewai_script_wrote w recs p s1 Hc Hwp)
      as (evs1 & Ew & _) end.
  rewrite (bind_run _ _ _ _ _ Ew) in E.
  rewrite (bind_run _ _ _ _ _ (print_run _ _)) in E.
  destruct (auto_run args) eqn:Ha.
  - rewrite (bind_run _ _ _ _ tt) in E
      by (erewrite bind_run by apply print_run; reflexivity).
    cbn [generate_scripts] in E.
    rewrite (try_report_ok _ _ _ (bind_run _ _ _ _ _ E)).
    eexists _, ((((evs ++ [Print ""]) ++ [Invoke prompt]) ++
                  [FileCreate csv_path; FileWrite csv_path reply]) ++ evs1)%list.
    split; [reflexivity |].
    cbn [trace files invocations log wrote ticked invoked init_state].
    split; [reflexivity |]. split; [reflexivity |].
    by rewrite <- !app_assoc.
  - rewrite (bind_run _ _ _ _ tt) in E by reflexivity.
    cbn [generate_scripts] in E.
    rewrite (try_report_ok _ _ _ (bind_run _ _ _ _ _ E)).
    eexists _, ((((evs ++ [Print ""]) ++ [Invoke prompt]) ++
                  [FileCreate csv_path; FileWrite csv_path reply]) ++ evs1)%list.
    split; [reflexivity |].
    cbn [trace files invocations log wrote ticked invoked init_state].
    split; [reflexivity |]. split; [reflexivity |].
    by rewrite <- !app_assoc.
Qed.

Lemma single_run_writes_roster_and_script_witness :
  exists s',
    main (world_replying (Ok reply_two_agents))
      (mkArgs (Some "research") true None false)
      (init_state (world_replying (Ok reply_two_agents))) = (s', Ok tt) /\
    invocations s' = 1.
Proof.
  destruct (parse_lines_ok std_header
              (path_join (getcwd (world_replying (Ok reply_two_agents)))
                 (csv_file_name
                    (strftime_now (world_replying (Ok reply_two_agents)) 0)
                    "research" 1))
              [["Researcher"; "find papers"; "veteran analyst"; "scan arxiv";
                "True"];
               ["Writer"; "summarise"; "former editor"; "draft report";
                "False"]]) as (recs & E & F).
  { repeat constructor; cbn; lia. }
  assert (R : csv.reader reply_two_agents "," =
              Ok [std_header;
                  ["Researcher"; "find papers"; "veteran analyst"; "scan arxiv";
                   "True"];
                  ["Writer"; "summarise"; "former editor"; "draft report";
                   "False"]]) by reflexivity.
  rewrite <- (parse_csv_data_rows _ _ _ _ _ R) in E.
  destruct (single_run_writes_roster_and_script
              (world_replying (Ok reply_two_agents))
              (mkArgs (Some "research") true None false) "research"
              reply_two_agents recs)
    as (s' & evs & H & _ & Hi & _);
    [reflexivity | reflexivity | reflexivity | reflexivity | reflexivity
    | reflexivity | reflexivity | done | reflexivity | reflexivity
    | exact E | | |].
  - apply Forall2_length in F. destruct recs; [discriminate F | discriminate].
  - apply (full_rows_complete _ _ _ F). repeat constructor.
  - exists s'. split; [exact H | exact Hi].
Defined.

End GenerationRuns.

(** ** Roster names and the ranking test *)

Section RosterNames.

Lemma path_join_suffix a b : exists a', path_join a b = a' ++ b.
Proof.
  unfold path_join. destruct (Str.startswith "/" b); [by exists "" |].
  destruct (_ || _); [by exists a |].
  exists (a ++ "/"). by rewrite app_assoc_s.
Qed.

Lemma lower_replace_space s :
  Str.lower (Str.replace " " "-" s) = Str.replace " " "-" (Str.lower s).
Proof.
  rewrite !replace_one. unfold Str.lower. rewrite !map_map.
  apply map_ext. intros c.
  destruct c as [[] [] [] [] [] [] [] []]; reflexivity.
Qed.

End RosterNames.

(** X25. A goal that has the word ranking, in any letter case, among its
    first forty characters hides its own rosters from the ranking step: the
    path [save_csv_output] gives a roster of such a goal fails the test of
    [rank_crews], so the loop over the paths passes it by without reading
    the file. *)
Theorem ranking_goal_hides_rosters (w : World) (dir timestamp goal : string)
    (index : nat) :
  Str.contains "ranking" (Str.lower (Str.take 40 goal)) = true ->
  ranking_path (path_join dir (csv_file_name timestamp goal index)) = true /\
  forall rest acc s,
    concat_csv_files w
      (path_join dir (csv_file_name timestamp goal index) :: rest) acc s =
    concat_csv_files w rest acc s.
Proof.
  intros Hg.
  assert (Hp : ranking_path
                 (path_join dir (csv_file_name timestamp goal index)) = true).
  { unfold ranking_path.
    destruct (path_join_suffix dir (csv_file_name timestamp goal index))
      as [a ->].
    unfold csv_file_name, Str.lower. rewrite !map_app.
    do 4 apply contains_app_r.
    fold (Str.lower (Str.replace " " "-" (Str.take 40 goal))).
    rewrite lower_replace_space.
    apply contains_inv in Hg as (x & y & ->).
    rewrite !replace_app.
    change (Str.replace " " "-" "ranking") with "ranking".
    rewrite !app_assoc_s. apply contains_middle. }
  split; [exact Hp |]. intros rest acc s.
  cbn [concat_csv_files].
  fold (ranking_path (path_join dir (csv_file_name timestamp goal index))).
  by rewrite Hp.
Qed.

Lemma ranking_goal_hides_rosters_witness :
  ranking_path
    (path_join "/home/user"
       (csv_file_name "20240101-120000" "Ranking of universities" 1)) = true.
Proof.
  apply (ranking_goal_hides_rosters demo_world). reflexivity.
Defined.
